(** * Cura's MachineManager: a shallow embedding and its verified properties

    The development follows [cura/Settings/MachineManager.py].  The manager
    object becomes a record, every method a function from the manager's
    state to a [result] (a Python exception is a [Raise]), dictionaries
    keyed by extruder position become [gmap string _], and the catalog,
    registry helpers and stack classes that live outside this file of the
    repository are gathered in the [Collaborators] class. *)

From stdpp Require Import gmap strings list fin_maps sorting.
From Stdlib Require Import DecimalString DecimalZ.

Set Default Proof Using "Type".
Local Open Scope Z_scope.

(** ** Python prelude *)

Module Py.

(** The exceptions the modelled code can raise. When several lookups of one
    loop fail, Python reports the first in dictionary order; the model reports
    the first in the traversal order of the map. No statement below depends
    on which one it is. *)
Inductive exn : Type :=
  | KeyError
  | IndexError
  | ValueError
  | TypeError
  | AttributeError
  | RecursionError.

Inductive result (A : Type) : Type :=
  | Ok (a : A)
  | Raise (e : exn).
Arguments Ok {A} a.
Arguments Raise {A} e.

#[global] Instance result_ret : MRet result := fun A a => Ok a.
#[global] Instance result_bind : MBind result := fun A B f r =>
  match r with
  | Ok a => f a
  | Raise e => Raise e
  end.
#[global] Instance result_fmap : FMap result := fun A B f r =>
  match r with
  | Ok a => Ok (f a)
  | Raise e => Raise e
  end.

(** [d[k]] on a dictionary: [KeyError] when the key is absent. *)
Definition getitem {V : Type} (d : gmap string V) (k : string) : result V :=
  match d !! k with
  | Some v => Ok v
  | None => Raise KeyError
  end.

(** Python compares [str] values code point by code point; on the ASCII
    keys used here this is [String.leb]. *)
Definition str_le (a b : string) : Prop := String.leb a b = true.

#[global] Instance str_le_dec (a b : string) : Decision (str_le a b).
Proof. unfold str_le. apply _. Defined.

(** [sorted(l)] for a list of strings. *)
Definition sorted (l : list string) : list string := merge_sort str_le l.

(** [sorted(d.items())]: tuples compare on the key first, and the keys of a
    dictionary are distinct, so the values are never compared. *)
Definition item_le {V : Type} (a b : string * V) : Prop := str_le a.1 b.1.

#[global] Instance item_le_dec {V : Type} (a b : string * V) :
  Decision (item_le a b).
Proof. unfold item_le. apply _. Defined.

Definition sorted_items {V : Type} (d : gmap string V) : list (string * V) :=
  merge_sort item_le (map_to_list d).

(** [str(n)] for an [int]. *)
Definition str (n : Z) : string := NilZero.string_of_int (Z.to_int n).

(** [int(s)] for a [str]: [ValueError] unless [s] is a decimal literal with
    an optional minus sign. (Python also tolerates surrounding blanks, a plus
    sign and underscores; position keys have none of them.) *)
Definition int (s : string) : result Z :=
  match NilZero.int_of_string s with
  | Some d => Ok (Z.of_int d)
  | None => Raise ValueError
  end.

(** [min(l)] of a non-empty collection of integers; [ValueError] on an empty
    one. *)
Definition min (l : list Z) : result Z :=
  match l with
  | [] => Raise ValueError
  | x :: l' => Ok (foldr Z.min x l')
  end.

End Py.
Import Py.

(** Dictionaries whose iteration order is observed (the catalog's quality
    groups) are kept as association lists in insertion order. *)
Definition odict (V : Type) : Type := list (string * V).

Fixpoint od_get {V : Type} (d : odict V) (k : string) : option V :=
  match d with
  | [] => None
  | (k', v) :: d' => if decide (k' = k) then Some v else od_get d' k
  end.

Definition od_keys {V : Type} (d : odict V) : list string := fst <$> d.
Definition od_values {V : Type} (d : odict V) : list V := snd <$> d.

(** ** Data model *)

(** The "value" property of a setting instance: an integer, or a string
    such as the position key that [correctExtruderSettings] writes. (Deferred
    formulas are evaluated by the stack classes and are outside the model.) *)
Inductive SettingValue : Type :=
  | IntValue (n : Z)
  | StrValue (v : string).

#[global] Instance SettingValue_eq_dec : EqDecision SettingValue.
Proof. solve_decision. Defined.

(** [int(v)] and [str(v)] on a setting value. *)
Definition value_int (v : SettingValue) : result Z :=
  match v with
  | IntValue n => Ok n
  | StrValue t => int t
  end.
Definition value_str (v : SettingValue) : string :=
  match v with
  | IntValue n => str n
  | StrValue t => t
  end.

(** An instance container: its id, its name, the metadata entries the manager
    reads, and its setting instances (key to the "value" property). *)
Record Container : Type := mkContainer {
  c_id : string;                    (* getId() *)
  c_name : string;                  (* getName(), getMetaDataEntry("name") *)
  c_base_file : option string;      (* getMetaDataEntry("base_file") *)
  c_quality_type : option string;   (* getMetaDataEntry("quality_type") *)
  c_compatible : bool;              (* truth value of getMetaDataEntry("compatible") *)
  c_hardware_type : option string;  (* getMetaDataEntry("hardware_type") *)
  c_values : gmap string SettingValue (* findInstances() / getProperty(key, "value") *)
}.

(** Containers are compared through their ids, which are unique in the
    registry. *)
Definition container_eqb (a b : Container) : bool :=
  bool_decide (c_id a = c_id b).

#[global] Instance Container_eq_dec : EqDecision Container.
Proof. solve_decision. Defined.

Definition set_c_values (v : gmap string SettingValue) (c : Container) : Container :=
  mkContainer (c_id c) (c_name c) (c_base_file c) (c_quality_type c)
    (c_compatible c) (c_hardware_type c) v.

Definition set_c_quality_type (q : option string) (c : Container) : Container :=
  mkContainer (c_id c) (c_name c) (c_base_file c) q
    (c_compatible c) (c_hardware_type c) (c_values c).

(** Modelled from the spec: the empty sentinel containers of
    [cura_empty_instance_containers], which is not part of the sources at
    hand. The ids are the ones [MachineManager.py] tests against
    ("empty_variant", "empty_quality_changes"); an empty container carries
    no family, no compatibility flag and no setting. *)
Definition empty_container (id : string) (qt : option string) : Container :=
  mkContainer id "empty" None qt false None ∅.

Definition empty_definition_changes_container : Container :=
  empty_container "empty_definition_changes" None.
Definition empty_variant_container : Container :=
  empty_container "empty_variant" None.
Definition empty_material_container : Container :=
  empty_container "empty_material" None.
Definition empty_quality_container : Container :=
  empty_container "empty_quality" (Some "not_supported").
Definition empty_quality_changes_container : Container :=
  empty_container "empty_quality_changes" (Some "not_supported").

(** A node of the catalog: [getContainer()] may fail to resolve, and the
    node keeps metadata of its own. *)
Record ContainerNode : Type := mkContainerNode {
  cn_container : option Container;  (* getContainer() *)
  cn_base_file : option string      (* getMetaDataEntry("base_file", None) *)
}.

Record QualityGroup : Type := mkQualityGroup {
  qg_name : string;
  qg_quality_type : string;
  qg_node_for_global : option ContainerNode;
  qg_nodes_for_extruders : gmap string ContainerNode;
  qg_is_available : bool
}.

Record QualityChangesGroup : Type := mkQualityChangesGroup {
  qcg_name : string;
  qcg_quality_type : string;
  qcg_node_for_global : option ContainerNode;
  qcg_nodes_for_extruders : gmap string ContainerNode
}.

(** The machine definition: besides default values it tells, per setting,
    the "type" property, whether it is settable per extruder and the
    "limit_to_extruder" pin. *)
Record DefinitionContainer : Type := mkDefinition {
  def_id : string;
  def_name : string;
  def_values : gmap string SettingValue;
  def_type : gmap string string;
  def_settable_per_extruder : gmap string bool;
  def_limit_to_extruder : gmap string Z
}.

Record ExtruderStack : Type := mkExtruderStack {
  es_id : string;
  es_definition_name : string;      (* definition.getName() *)
  es_userChanges : Container;
  es_qualityChanges : Container;
  es_quality : Container;
  es_material : Container;
  es_variant : Container;
  es_isEnabled : bool
}.

Definition set_es_userChanges (c : Container) (e : ExtruderStack) : ExtruderStack :=
  mkExtruderStack (es_id e) (es_definition_name e) c (es_qualityChanges e)
    (es_quality e) (es_material e) (es_variant e) (es_isEnabled e).
Definition set_es_qualityChanges (c : Container) (e : ExtruderStack) : ExtruderStack :=
  mkExtruderStack (es_id e) (es_definition_name e) (es_userChanges e) c
    (es_quality e) (es_material e) (es_variant e) (es_isEnabled e).
Definition set_es_quality (c : Container) (e : ExtruderStack) : ExtruderStack :=
  mkExtruderStack (es_id e) (es_definition_name e) (es_userChanges e)
    (es_qualityChanges e) c (es_material e) (es_variant e) (es_isEnabled e).
Definition set_es_material (c : Container) (e : ExtruderStack) : ExtruderStack :=
  mkExtruderStack (es_id e) (es_definition_name e) (es_userChanges e)
    (es_qualityChanges e) (es_quality e) c (es_variant e) (es_isEnabled e).
Definition set_es_variant (c : Container) (e : ExtruderStack) : ExtruderStack :=
  mkExtruderStack (es_id e) (es_definition_name e) (es_userChanges e)
    (es_qualityChanges e) (es_quality e) (es_material e) c (es_isEnabled e).
Definition setEnabled (b : bool) (e : ExtruderStack) : ExtruderStack :=
  mkExtruderStack (es_id e) (es_definition_name e) (es_userChanges e)
    (es_qualityChanges e) (es_quality e) (es_material e) (es_variant e) b.

(** The metadata entries of a global stack that the manager reads or
    writes. *)
Record StackMetaData : Type := mkStackMetaData {
  md_preferred_quality_type : option string;
  md_has_materials : bool;          (* parseBool(getMetaDataEntry("has_materials", False)) *)
  md_group_id : option string;
  md_um_network_key : option string;
  md_group_name : option string;
  md_connection_type : option string;
  md_hidden : option bool
}.

(** A global stack: its layers from the user changes down to the
    definition, and its extruder stacks by position. *)
Record GlobalStack : Type := mkGlobalStack {
  gs_id : string;
  gs_meta : StackMetaData;
  gs_userChanges : Container;
  gs_qualityChanges : Container;
  gs_quality : Container;
  gs_material : Container;
  gs_variant : Container;
  gs_definitionChanges : Container;
  gs_definition : DefinitionContainer;
  gs_extruders : gmap string ExtruderStack
}.

Definition set_gs_meta (m : StackMetaData) (g : GlobalStack) : GlobalStack :=
  mkGlobalStack (gs_id g) m (gs_userChanges g) (gs_qualityChanges g)
    (gs_quality g) (gs_material g) (gs_variant g) (gs_definitionChanges g)
    (gs_definition g) (gs_extruders g).
Definition set_gs_userChanges (c : Container) (g : GlobalStack) : GlobalStack :=
  mkGlobalStack (gs_id g) (gs_meta g) c (gs_qualityChanges g)
    (gs_quality g) (gs_material g) (gs_variant g) (gs_definitionChanges g)
    (gs_definition g) (gs_extruders g).
Definition set_gs_qualityChanges (c : Container) (g : GlobalStack) : GlobalStack :=
  mkGlobalStack (gs_id g) (gs_meta g) (gs_userChanges g) c
    (gs_quality g) (gs_material g) (gs_variant g) (gs_definitionChanges g)
    (gs_definition g) (gs_extruders g).
Definition set_gs_quality (c : Container) (g : GlobalStack) : GlobalStack :=
  mkGlobalStack (gs_id g) (gs_meta g) (gs_userChanges g) (gs_qualityChanges g)
    c (gs_material g) (gs_variant g) (gs_definitionChanges g)
    (gs_definition g) (gs_extruders g).
Definition set_gs_material (c : Container) (g : GlobalStack) : GlobalStack :=
  mkGlobalStack (gs_id g) (gs_meta g) (gs_userChanges g) (gs_qualityChanges g)
    (gs_quality g) c (gs_variant g) (gs_definitionChanges g)
    (gs_definition g) (gs_extruders g).
Definition set_gs_variant (c : Container) (g : GlobalStack) : GlobalStack :=
  mkGlobalStack (gs_id g) (gs_meta g) (gs_userChanges g) (gs_qualityChanges g)
    (gs_quality g) (gs_material g) c (gs_definitionChanges g)
    (gs_definition g) (gs_extruders g).
Definition set_gs_definitionChanges (c : Container) (g : GlobalStack) : GlobalStack :=
  mkGlobalStack (gs_id g) (gs_meta g) (gs_userChanges g) (gs_qualityChanges g)
    (gs_quality g) (gs_material g) (gs_variant g) c
    (gs_definition g) (gs_extruders g).
Definition set_gs_extruders (x : gmap string ExtruderStack) (g : GlobalStack) : GlobalStack :=
  mkGlobalStack (gs_id g) (gs_meta g) (gs_userChanges g) (gs_qualityChanges g)
    (gs_quality g) (gs_material g) (gs_variant g) (gs_definitionChanges g)
    (gs_definition g) x.

(** Modelled from the spec: [getProperty(key, "value")] of a global stack,
    whose class is not part of the sources at hand. A stack resolves a key by
    scanning its containers from the top, and the first container that
    defines the key answers; [None] when no layer defines it. *)
Definition getProperty_value (g : GlobalStack) (key : string) : option SettingValue :=
  match
    list_find (fun v : gmap string SettingValue => is_Some (v !! key))
      [ c_values (gs_userChanges g); c_values (gs_qualityChanges g);
        c_values (gs_quality g); c_values (gs_material g);
        c_values (gs_variant g); c_values (gs_definitionChanges g);
        def_values (gs_definition g) ]
  with
  | Some (_, v) => v !! key
  | None => None
  end.

(** Modelled from the spec: the properties a setting takes from the
    definition alone. *)
Definition getProperty_type (g : GlobalStack) (key : string) : option string :=
  def_type (gs_definition g) !! key.
Definition getProperty_settable_per_extruder (g : GlobalStack) (key : string) : bool :=
  default false (def_settable_per_extruder (gs_definition g) !! key).
Definition getProperty_limit_to_extruder (g : GlobalStack) (key : string) : option Z :=
  def_limit_to_extruder (gs_definition g) !! key.

(** Modelled from the spec: [setProperty(key, "value", v)] and
    [removeInstance(key)] of an instance container. *)
Definition setProperty (key : string) (v : SettingValue) (c : Container) : Container :=
  set_c_values (<[key := v]> (c_values c)) c.
Definition removeInstance (key : string) (c : Container) : Container :=
  set_c_values (delete key (c_values c)) c.

(** ** The manager and its surroundings *)

(** The notifications the modelled methods emit themselves. Signals that
    are merely re-emitted through a connection are not logged; the one handler
    with an effect on the manager's own fields, [_onRootMaterialChanged], is
    run where its signal is emitted. *)
Inductive Signal : Type :=
  | activeQualityGroupChanged
  | activeQualityChangesGroupChanged
  | globalContainerChanged
  | activeMaterialChanged
  | activeVariantChanged
  | activeQualityChanged
  | extruderChanged
  | numberExtrudersEnabledChanged
  | blurSettings
  | rootMaterialChanged
  | globalContainerStackChanged          (* of the application *)
  | extrudersChanged (machine_id : string) (* of the extruder manager *)
  | propertiesChanged (stack_id : string). (* once per stack, for all its keys *)

(** What reaches the user: the two notices of this file, the faulty
    machine report and the discard-or-keep dialog. *)
Inductive UiEvent : Type :=
  | SettingsUpdatedMessage (settings_list : list string)
  | ExtrudersDisabledMessage (extruder_names : list string)
  | FaultyContainers (stack_id : string)
  | DiscardOrKeepProfileChanges.

(** The part of the container registry the manager consults: the machine
    stacks in registry order, and the ids of the extruder stacks and of the
    user containers with the machine that owns them. *)
Record Registry : Type := mkRegistry {
  reg_machines : list GlobalStack;
  reg_extruder_stacks : list (string * string);
  reg_user_containers : list (string * string)
}.

Record MachineManager : Type := mkMachineManager {
  _global_container_stack : option GlobalStack;
  _current_root_material_id : gmap string (option string);
  _current_quality_group : option QualityGroup;
  _current_quality_changes_group : option QualityChangesGroup;
  _default_extruder_position : string;
  activeExtruderIndex : Z;   (* ExtruderManager.activeExtruderIndex *)
  active_mode : Z;           (* the preference "cura/active_mode" *)
  registry : Registry;       (* CuraContainerRegistry *)
  scene : list (option string);
    (* per mesh node of the scene: getActiveExtruderPosition *)
  emitted : list Signal;     (* notifications, oldest first *)
  ui : list UiEvent          (* notices and dialogs, oldest first *)
}.
Definition set_scene (n : list (option string)) (s : MachineManager) :=
  mkMachineManager (_global_container_stack s) (_current_root_material_id s)
    (_current_quality_group s) (_current_quality_changes_group s)
    (_default_extruder_position s) (activeExtruderIndex s) (active_mode s)
    (registry s) n (emitted s) (ui s).

Definition set_global_container_stack (g : option GlobalStack) (s : MachineManager) :=
  mkMachineManager g (_current_root_material_id s) (_current_quality_group s)
    (_current_quality_changes_group s) (_default_extruder_position s)
    (activeExtruderIndex s) (active_mode s) (registry s) (scene s) (emitted s) (ui s).
Definition set_current_root_material_id (m : gmap string (option string)) (s : MachineManager) :=
  mkMachineManager (_global_container_stack s) m (_current_quality_group s)
    (_current_quality_changes_group s) (_default_extruder_position s)
    (activeExtruderIndex s) (active_mode s) (registry s) (scene s) (emitted s) (ui s).
Definition set_current_quality_group (q : option QualityGroup) (s : MachineManager) :=
  mkMachineManager (_global_container_stack s) (_current_root_material_id s) q
    (_current_quality_changes_group s) (_default_extruder_position s)
    (activeExtruderIndex s) (active_mode s) (registry s) (scene s) (emitted s) (ui s).
Definition set_current_quality_changes_group (q : option QualityChangesGroup) (s : MachineManager) :=
  mkMachineManager (_global_container_stack s) (_current_root_material_id s)
    (_current_quality_group s) q (_default_extruder_position s)
    (activeExtruderIndex s) (active_mode s) (registry s) (scene s) (emitted s) (ui s).
Definition set_default_extruder_position (p : string) (s : MachineManager) :=
  mkMachineManager (_global_container_stack s) (_current_root_material_id s)
    (_current_quality_group s) (_current_quality_changes_group s) p
    (activeExtruderIndex s) (active_mode s) (registry s) (scene s) (emitted s) (ui s).
Definition setActiveExtruderIndex (i : Z) (s : MachineManager) :=
  mkMachineManager (_global_container_stack s) (_current_root_material_id s)
    (_current_quality_group s) (_current_quality_changes_group s)
    (_default_extruder_position s) i (active_mode s) (registry s) (scene s) (emitted s) (ui s).
Definition set_registry (r : Registry) (s : MachineManager) :=
  mkMachineManager (_global_container_stack s) (_current_root_material_id s)
    (_current_quality_group s) (_current_quality_changes_group s)
    (_default_extruder_position s) (activeExtruderIndex s) (active_mode s) r
    (scene s) (emitted s) (ui s).
Definition emit (sig : Signal) (s : MachineManager) :=
  mkMachineManager (_global_container_stack s) (_current_root_material_id s)
    (_current_quality_group s) (_current_quality_changes_group s)
    (_default_extruder_position s) (activeExtruderIndex s) (active_mode s)
    (registry s) (scene s) (emitted s ++ [sig]) (ui s).
Definition show (e : UiEvent) (s : MachineManager) :=
  mkMachineManager (_global_container_stack s) (_current_root_material_id s)
    (_current_quality_group s) (_current_quality_changes_group s)
    (_default_extruder_position s) (activeExtruderIndex s) (active_mode s)
    (registry s) (scene s) (emitted s) (ui s ++ [e]).

(** The manager of a freshly started application ([__init__]): no machine,
    no selection, default extruder "0". *)
Definition init (r : Registry) (mode : Z) : MachineManager :=
  mkMachineManager None ∅ None None "0" 0 mode r [] [] [].

(** The collaborators: the profile catalog (quality, material and variant
    managers), the stack builder and the checks of the stack classes. Their
    code is outside [MachineManager.py]; the manager only sees their
    answers. *)
Class Collaborators : Type := {
  (* QualityManager *)
  getQualityGroups : GlobalStack -> odict QualityGroup;
  getQualityChangesGroups : GlobalStack -> gmap string QualityChangesGroup;
  (* MaterialManager *)
  getAvailableMaterials :
    DefinitionContainer -> option string -> option string -> Z ->
    gmap string ContainerNode;
  getDefaultMaterial :
    GlobalStack -> string -> option string -> option ContainerNode;
  getMaterialNodeByType :
    GlobalStack -> string -> option string -> option string -> option string ->
    option ContainerNode;
  (* VariantManager *)
  getVariantNode : string -> option string -> option ContainerNode;
  getBuildplateVariantNode : string -> string -> option ContainerNode;
  (* ExtruderStack.getCompatibleMaterialDiameter; the figure is only handed
     on to the catalog *)
  getCompatibleMaterialDiameter : ExtruderStack -> Z;
  (* GlobalStack.isValid, and
     ExtruderManager.fixSingleExtrusionMachineExtruderDefinition, which
     rewrites the extruder stacks of the machine it is given *)
  isValid : GlobalStack -> bool;
  fixSingleExtrusionMachineExtruderDefinition :
    GlobalStack -> gmap string ExtruderStack;
  (* CuraContainerRegistry.findDefinitionContainers(name = ...) *)
  findDefinitionContainers_by_name : string -> list DefinitionContainer;
  (* CuraStackBuilder.createMachine(name, definition_id) *)
  createMachine : string -> string -> option GlobalStack;
  (* ExtruderManager.getActiveExtruderStacks(), for the machine that is
     active: it lists extruder stacks of that machine; which of them (all,
     or only those that are enabled and within the extruder count) is the
     extruder manager's choice *)
  getActiveExtruderStacks : GlobalStack -> list ExtruderStack;
  getActiveExtruderStacks_extruders :
    ∀ g e, e ∈ getActiveExtruderStacks g -> e ∈ (map_to_list (gs_extruders g)).*2
}.

(** The configuration a printer reports ([PrinterConfigurationModel]):
    per extruder its position, the GUID of the loaded material and the id of
    the hotend; [None] and the empty string both mean "nothing there". *)
Record ExtruderConfigurationModel : Type := mkExtruderConfiguration {
  ec_position : Z;
  ec_material_guid : option string;   (* material.guid *)
  ec_hotendID : option string
}.

Record PrinterConfigurationModel : Type := mkPrinterConfiguration {
  printerType : string;
  extruderConfigurations : list ExtruderConfigurationModel;
  buildplateConfiguration : option string
}.

(** The truth value of [x and x != ""] for an optional string. *)
Definition present (x : option string) : bool :=
  match x with
  | Some v => bool_decide (v ≠ "")
  | None => false
  end.

(** ** The methods of [MachineManager] *)

(** A loop that may raise: run [f] on each element in turn. *)
Fixpoint for_each {A S : Type} (f : A -> S -> result S) (l : list A) (s : S)
  : result S :=
  match l with
  | [] => Ok s
  | a :: l' => s' ← f a s; for_each f l' s'
  end.

Section Manager.
Context `{Collaborators}.

(** The global stack with a changed copy stored back in the manager. *)
Definition with_global_stack (g : GlobalStack) (s : MachineManager) : MachineManager :=
  set_global_container_stack (Some g) s.

(** Whether the global stack or one of the stacks that
    [ExtruderManager.getActiveExtruderStacks()] lists has instances in its
    user container. *)
Definition hasUserSettings (s : MachineManager) : bool :=
  match _global_container_stack s with
  | None => false
  | Some g =>
    if bool_decide (c_values (gs_userChanges g) ≠ ∅) then true
    else
      let stacks := getActiveExtruderStacks g in
      bool_decide
        (Exists (fun stack : ExtruderStack => c_values (es_userChanges stack) ≠ ∅)
           stacks)
  end.

(** The tail shared by the setters: "See if we need to show the Discard or
    Keep changes screen". *)
Definition maybe_discardOrKeepProfileChanges (s : MachineManager) : MachineManager :=
  if hasUserSettings s && bool_decide (active_mode s = 1)
  then show DiscardOrKeepProfileChanges s else s.

Definition getExtruder (position : Z) (s : MachineManager) : option ExtruderStack :=
  match _global_container_stack s with
  | Some g => gs_extruders g !! str position
  | None => None
  end.

(** The position [updateDefaultExtruder] settles on: the first enabled
    extruder of [sorted(extruders.items())], "0" when there is none. *)
Definition new_default_position (extruders : gmap string ExtruderStack) : string :=
  match
    list_find (fun it : string * ExtruderStack => es_isEnabled it.2 = true)
      (sorted_items extruders)
  with
  | Some (_, (position, _)) => position
  | None => "0"
  end.

Definition updateDefaultExtruder (s : MachineManager) : MachineManager :=
  match _global_container_stack s with
  | None => s
  | Some g =>
    let old_position := _default_extruder_position s in
    let new_default_position := new_default_position (gs_extruders g) in
    if decide (new_default_position ≠ old_position)
    then emit extruderChanged (set_default_extruder_position new_default_position s)
    else s
  end.

Definition defaultExtruderPosition (s : MachineManager) : string :=
  _default_extruder_position s.

(** [numberExtrudersEnabled]: 1 without a machine, else what the
    definition-changes container holds ([None] when it holds nothing). *)
Definition numberExtrudersEnabled (s : MachineManager) : option SettingValue :=
  match _global_container_stack s with
  | None => Some (IntValue 1)
  | Some g => c_values (gs_definitionChanges g) !! "extruders_enabled_count"
  end.

(** [int(position) < machine_extruder_count]; comparing with anything but a
    number is a [TypeError]. *)
Definition int_lt (n : Z) (v : option SettingValue) : result bool :=
  match v with
  | Some (IntValue c) => Ok (bool_decide (n < c))
  | _ => Raise TypeError
  end.

(** One round of the counting loop of [updateNumberExtrudersEnabled]. *)
Definition count_enabled (machine_extruder_count : option SettingValue)
    (it : string * ExtruderStack) (extruder_count : Z) : result Z :=
  if es_isEnabled it.2 then
    n ← int it.1;
    b ← int_lt n machine_extruder_count;
    Ok (if b : bool then extruder_count + 1 else extruder_count)
  else Ok extruder_count.

Definition updateNumberExtrudersEnabled (s : MachineManager) : result MachineManager :=
  match _global_container_stack s with
  | None => Ok s
  | Some g =>
    let definition_changes_container := gs_definitionChanges g in
    let machine_extruder_count := getProperty_value g "machine_extruder_count" in
    extruder_count ←
      for_each (count_enabled machine_extruder_count)
        (map_to_list (gs_extruders g)) 0;
    if decide (numberExtrudersEnabled s ≠ Some (IntValue extruder_count)) then
      Ok (emit numberExtrudersEnabledChanged
            (with_global_stack
               (set_gs_definitionChanges
                  (setProperty "extruders_enabled_count" (IntValue extruder_count)
                     definition_changes_container) g) s))
    else Ok s
  end.

(** [forceUpdateAllSettings]: [propertiesChanged] for the global stack and
    then for each extruder stack. *)
Definition forceUpdateAllSettings (s : MachineManager) : MachineManager :=
  match _global_container_stack s with
  | None => s
  | Some g =>
    foldl (fun s' id => emit (propertiesChanged id) s') s
      (gs_id g :: (es_id <$> (snd <$> map_to_list (gs_extruders g))))
  end.

(** [n >= extruder_count], a [TypeError] unless the count is a number. *)
Definition int_ge (n : Z) (v : option SettingValue) : result bool :=
  match v with
  | Some (IntValue c) => Ok (bool_decide (c <= n))
  | _ => Raise TypeError
  end.

(** One round of the loop of [getIncompatibleSettingsOnEnabledExtruders]. *)
Definition incompatible_setting (g : GlobalStack)
    (extruder_count : option SettingValue)
    (it : string * SettingValue) (result : list string) : Py.result (list string) :=
  let setting_key := it.1 in
  if bool_decide (getProperty_type g setting_key ∈
                    [Some "extruder"; Some "optional_extruder"]) then
    let old_value := it.2 in
    n ← value_int old_value;
    if bool_decide (n < 0) then Ok result
    else
      too_large ← int_ge n extruder_count;
      if too_large : bool then Ok (result ++ [setting_key])
      else
        extruder ← getitem (gs_extruders g) (value_str old_value);
        if negb (es_isEnabled extruder) then Ok (result ++ [setting_key])
        else Ok result
  else Ok result.

Definition getIncompatibleSettingsOnEnabledExtruders (container : Container)
    (s : MachineManager) : result (list string) :=
  match _global_container_stack s with
  | None => Ok []
  | Some g =>
    let extruder_count := getProperty_value g "machine_extruder_count" in
    for_each (incompatible_setting g extruder_count)
      (map_to_list (c_values container)) []
  end.

Definition correctExtruderSettings (s : MachineManager) : result MachineManager :=
  match _global_container_stack s with
  | None => Ok s
  | Some g =>
    to_remove ← getIncompatibleSettingsOnEnabledExtruders (gs_userChanges g) s;
    let g1 :=
      set_gs_userChanges
        (foldl (fun c setting_key => removeInstance setting_key c)
           (gs_userChanges g) to_remove) g in
    let s1 := with_global_stack g1 s in
    add_user_changes ←
      getIncompatibleSettingsOnEnabledExtruders (gs_qualityChanges g1) s1;
    let g2 :=
      set_gs_userChanges
        (foldl (fun c setting_key =>
                  setProperty setting_key
                    (StrValue (_default_extruder_position s1)) c)
           (gs_userChanges g1) add_user_changes) g1 in
    let s2 := with_global_stack g2 s1 in
    Ok (if bool_decide (add_user_changes ≠ [])
        then show (SettingsUpdatedMessage add_user_changes) s2 else s2)
  end.

(** [_onGlobalContainerChanged]. The application's slot and the manager's
    slot hold the same stack whenever the modelled code runs this handler, so
    re-reading the slot changes nothing. (The handler also stores the
    machine's id in the preference "cura/active_machine", which nothing
    below reads.) *)
Definition _onGlobalContainerChanged (s : MachineManager) : result MachineManager :=
  s1 ← match _global_container_stack s with
       | Some _ => updateNumberExtrudersEnabled (updateDefaultExtruder s)
       | None => Ok s
       end;
  let s2 := emit globalContainerChanged s1 in
  let s3 :=
    match _global_container_stack s2 with
    | Some g =>
      (* Global stack can have only a variant if it is a buildplate *)
      let global_variant := gs_variant g in
      let g1 :=
        if negb (container_eqb global_variant empty_variant_container)
           && negb (bool_decide (c_hardware_type global_variant = Some "buildplate"))
        then set_gs_variant empty_variant_container g else g in
      (* Set the global material to empty *)
      let g2 :=
        if negb (container_eqb (gs_material g1) empty_material_container)
        then set_gs_material empty_material_container g1 else g1 in
      with_global_stack g2 s2
    | None => s2
    end in
  Ok (emit activeQualityGroupChanged s3).

(** [_onRootMaterialChanged], connected to [rootMaterialChanged] in
    [__init__]: the cache is rebuilt from the materials of the extruders. *)
Definition _onRootMaterialChanged (s : MachineManager) : MachineManager :=
  set_current_root_material_id
    match _global_container_stack s with
    | Some g => (fun e => c_base_file (es_material e)) <$> gs_extruders g
    | None => ∅
    end s.

(** [self.rootMaterialChanged.emit()], with the handler it runs. *)
Definition emit_rootMaterialChanged (s : MachineManager) : MachineManager :=
  _onRootMaterialChanged (emit rootMaterialChanged s).

(** [__emitChangedSignals]. *)
Definition emitChangedSignals (s : MachineManager) : MachineManager :=
  emit numberExtrudersEnabledChanged
    (emit_rootMaterialChanged
       (emit activeMaterialChanged
          (emit activeVariantChanged (emit activeQualityChanged s)))).

(** *** Quality and quality changes *)

Definition _setEmptyQuality (s : MachineManager) : MachineManager :=
  match _global_container_stack s with
  | None => s
  | Some g =>
    let s1 := set_current_quality_changes_group None
                (set_current_quality_group None s) in
    let g1 := set_gs_qualityChanges empty_quality_changes_container
                (set_gs_quality empty_quality_container g) in
    let g2 :=
      set_gs_extruders
        ((fun extruder =>
            set_es_qualityChanges empty_quality_changes_container
              (set_es_quality empty_quality_container extruder))
           <$> gs_extruders g1) g1 in
    emit activeQualityChangesGroupChanged
      (emit activeQualityGroupChanged (with_global_stack g2 s1))
  end.

(** [node.getContainer()] of an optional node. *)
Definition getContainer (node : option ContainerNode) : option Container :=
  node ≫= cn_container.

(** What the second loop of [_setQualityGroup] does to one extruder:
    [.quality = node.getContainer()], and the quality changes emptied on
    request. The first loop has made sure that the node resolves. *)
Definition with_quality_node (empty_quality_changes : bool) (node : ContainerNode)
    (extruder : ExtruderStack) : ExtruderStack :=
  let e1 :=
    match cn_container node with
    | Some c => set_es_quality c extruder
    | None => extruder
    end in
  if empty_quality_changes
  then set_es_qualityChanges empty_quality_changes_container e1 else e1.

(** One round of that loop, on [extruders[str(position)]]. *)
Definition apply_quality_node (empty_quality_changes : bool)
    (it : string * ContainerNode) (extruders : gmap string ExtruderStack)
  : result (gmap string ExtruderStack) :=
  extruder ← getitem extruders it.1;
  Ok (<[it.1 := with_quality_node empty_quality_changes it.2 extruder]> extruders).

Definition _setQualityGroup (quality_group : option QualityGroup)
    (empty_quality_changes : bool) (s : MachineManager) : result MachineManager :=
  match _global_container_stack s with
  | None => Ok s
  | Some g =>
    match quality_group with
    | None => Ok (_setEmptyQuality s)
    | Some qg =>
      match getContainer (qg_node_for_global qg) with
      | None => Ok s
      | Some global_container =>
        if bool_decide
             (map_Forall (fun _ node => is_Some (cn_container node))
                (qg_nodes_for_extruders qg))
        then
          let s1 := set_current_quality_group (Some qg) s in
          let s2 := if empty_quality_changes
                    then set_current_quality_changes_group None s1 else s1 in
          (* Set quality and quality_changes for the GlobalStack *)
          let g1 := set_gs_quality global_container g in
          let g2 := if empty_quality_changes
                    then set_gs_qualityChanges empty_quality_changes_container g1
                    else g1 in
          (* Set quality and quality_changes for each ExtruderStack *)
          extruders ←
            for_each (apply_quality_node empty_quality_changes)
              (map_to_list (qg_nodes_for_extruders qg)) (gs_extruders g2);
          Ok (emit activeQualityChangesGroupChanged
                (emit activeQualityGroupChanged
                   (with_global_stack (set_gs_extruders extruders g2) s2)))
        else Ok s
      end
    end
  end.

(** [container.setMetaDataEntry("quality_type", "not_supported")] on the
    container of a node, when it resolves. *)
Definition node_not_supported (node : ContainerNode) : ContainerNode :=
  mkContainerNode
    (set_c_quality_type (Some "not_supported") <$> cn_container node)
    (cn_base_file node).

(** [_fixQualityChangesGroupToNotSupported] changes the group and its
    containers in place; the changed group is the value handed back. (The
    catalog, which owns the group, is a collaborator: that its later answers
    show the new quality type is not modelled.) *)
Definition _fixQualityChangesGroupToNotSupported
    (quality_changes_group : QualityChangesGroup) : QualityChangesGroup :=
  mkQualityChangesGroup (qcg_name quality_changes_group) "not_supported"
    (node_not_supported <$> qcg_node_for_global quality_changes_group)
    (node_not_supported <$> qcg_nodes_for_extruders quality_changes_group).

Definition _setQualityChangesGroup (quality_changes_group : QualityChangesGroup)
    (s : MachineManager) : MachineManager :=
  match _global_container_stack s with
  | None => s
  | Some g =>
    let quality_type := qcg_quality_type quality_changes_group in
    (* A custom quality can be created based on "not supported". *)
    let quality_group :=
      if decide (quality_type ≠ "not_supported")
      then od_get (getQualityGroups g) quality_type else None in
    let quality_changes_group :=
      if decide (quality_type ≠ "not_supported" ∧ quality_group = None)
      then _fixQualityChangesGroupToNotSupported quality_changes_group
      else quality_changes_group in
    let quality_changes_container :=
      default empty_quality_changes_container
        (getContainer (qcg_node_for_global quality_changes_group)) in
    let quality_container :=
      default empty_quality_container
        (getContainer (quality_group ≫= qg_node_for_global)) in
    let g1 := set_gs_qualityChanges quality_changes_container
                (set_gs_quality quality_container g) in
    let per_extruder (position : string) (extruder : ExtruderStack) :=
      let quality_changes_node :=
        qcg_nodes_for_extruders quality_changes_group !! position in
      let quality_node :=
        quality_group ≫= (fun qg => qg_nodes_for_extruders qg !! position) in
      let quality_changes_container :=
        default empty_quality_changes_container (getContainer quality_changes_node) in
      let quality_container :=
        default empty_quality_container (getContainer quality_node) in
      Some (set_es_qualityChanges quality_changes_container
              (set_es_quality quality_container extruder)) in
    let g2 := set_gs_extruders (map_imap per_extruder (gs_extruders g1)) g1 in
    emit activeQualityChangesGroupChanged
      (emit activeQualityGroupChanged
         (set_current_quality_changes_group (Some quality_changes_group)
            (set_current_quality_group quality_group
               (with_global_stack g2 s))))
  end.

(** *** Variant and material *)

Definition _setVariantNode (position : string) (container_node : ContainerNode)
    (s : MachineManager) : result MachineManager :=
  match cn_container container_node, _global_container_stack s with
  | Some c, Some g =>
    extruder ← getitem (gs_extruders g) position;
    Ok (emit activeVariantChanged
          (with_global_stack
             (set_gs_extruders
                (<[position := set_es_variant c extruder]> (gs_extruders g)) g) s))
  | _, _ => Ok s
  end.

Definition _setGlobalVariant (container_node : ContainerNode)
    (s : MachineManager) : MachineManager :=
  match _global_container_stack s with
  | None => s
  | Some g =>
    with_global_stack
      (set_gs_variant
         (default empty_variant_container (cn_container container_node)) g) s
  end.

Definition _setMaterial (position : string) (container_node : option ContainerNode)
    (s : MachineManager) : result MachineManager :=
  match _global_container_stack s with
  | None => Ok s
  | Some g =>
    extruder ← getitem (gs_extruders g) position;
    let '(material, root_material_id) :=
      match container_node ≫= (fun n => pair n <$> cn_container n) with
      | Some (n, c) => (c, cn_base_file n)
      | None => (empty_material_container, None)
      end in
    let s1 :=
      with_global_stack
        (set_gs_extruders
           (<[position := set_es_material material extruder]> (gs_extruders g)) g) s in
    (* The _current_root_material_id is used in the MaterialMenu *)
    cached ← getitem (_current_root_material_id s1) position;
    if decide (root_material_id ≠ cached) then
      Ok (emit_rootMaterialChanged
            (set_current_root_material_id
               (<[position := root_material_id]> (_current_root_material_id s1)) s1))
    else Ok s1
  end.

Definition activeMaterialsCompatible (s : MachineManager) : bool :=
  match _global_container_stack s with
  | Some g =>
    if md_has_materials (gs_meta g) then
      bool_decide
        (map_Forall
           (fun _ extruder =>
              es_isEnabled extruder = true ->
              c_compatible (es_material extruder) = true)
           (gs_extruders g))
    else true
  | None => true
  end.

(** The quality types of the groups that are available:
    [{qt for qt, g in candidate_quality_groups.items() if g.is_available}]. *)
Definition available_quality_types (candidate_quality_groups : odict QualityGroup)
  : list string :=
  fst <$> filter (fun it : string * QualityGroup => qg_is_available it.2 = true)
            candidate_quality_groups.

(** [candidate_quality_groups[quality_type]]. *)
Definition od_getitem {V : Type} (d : odict V) (k : string) : result V :=
  match od_get d k with
  | Some v => Ok v
  | None => Raise KeyError
  end.

(** The replacement [_updateQualityWithMaterial] picks when the current
    quality type is gone: the preferred type if it is available, else the
    first of the sorted available types. *)
Definition replacement_quality_type (preferred_quality_type : option string)
    (available_quality_types : list string) : result string :=
  match sorted available_quality_types with
  | [] => Raise IndexError
  | quality_type :: _ =>
    match preferred_quality_type with
    | Some preferred =>
      if bool_decide (preferred ∈ available_quality_types)
      then Ok preferred else Ok quality_type
    | None => Ok quality_type
    end
  end.

(** Update current quality type and machine after setting material. *)
Definition _updateQualityWithMaterial (s : MachineManager) : result MachineManager :=
  match _global_container_stack s with
  | None => Ok s
  | Some g =>
    let current_quality_type := qg_quality_type <$> _current_quality_group s in
    let candidate_quality_groups := getQualityGroups g in
    let available_quality_types := available_quality_types candidate_quality_groups in
    if negb (activeMaterialsCompatible s) then
      Ok (if bool_decide (current_quality_type ≠ None)
          then _setEmptyQuality s else s)
    else if bool_decide (available_quality_types = []) then
      Ok (if bool_decide (_current_quality_changes_group s = None)
          then _setEmptyQuality s else s)
    else
      (* The current quality type is not available so we use the preferred
         quality type if it's available, otherwise use one of the available
         quality types. *)
      let switch :=
        quality_type ←
          replacement_quality_type (md_preferred_quality_type (gs_meta g))
            available_quality_types;
        quality_group ← od_getitem candidate_quality_groups quality_type;
        _setQualityGroup (Some quality_group) true s in
      match current_quality_type with
      | Some current =>
        if bool_decide (current ∈ available_quality_types) then
          quality_group ← od_getitem candidate_quality_groups current;
          _setQualityGroup (Some quality_group) false s
        else switch
      | None => switch
      end
  end.

(** The nozzle of an extruder ("or none if the variant slot is empty") and
    the build plate of the machine, by name. *)
Definition current_nozzle_name (extruder : ExtruderStack) : option string :=
  if decide (c_id (es_variant extruder) ≠ c_id empty_variant_container)
  then Some (c_name (es_variant extruder)) else None.

Definition buildplate_name (g : GlobalStack) : option string :=
  if decide (c_id (gs_variant g) ≠ "empty_variant")
  then Some (c_name (gs_variant g)) else None.

(** The two questions [updateMaterialWithVariant] asks the catalog about an
    extruder. *)
Definition candidate_materials (g : GlobalStack) (buildplate_name : option string)
    (extruder : ExtruderStack) : gmap string ContainerNode :=
  getAvailableMaterials (gs_definition g) (current_nozzle_name extruder)
    buildplate_name (getCompatibleMaterialDiameter extruder).

Definition default_material (g : GlobalStack) (position_item : string)
    (extruder : ExtruderStack) : option ContainerNode :=
  getDefaultMaterial g position_item (current_nozzle_name extruder).

(** One round of the loop of [updateMaterialWithVariant]. *)
Definition updateMaterialWithVariant_item (buildplate_name : option string)
    (position_item : string) (s : MachineManager) : result MachineManager :=
  match _global_container_stack s with
  | None => Ok s
  | Some g =>
    extruder ← getitem (gs_extruders g) position_item;
    let current_material_base_name := c_base_file (es_material extruder) in
    let candidate_materials := candidate_materials g buildplate_name extruder in
    if decide (candidate_materials = ∅) then
      _setMaterial position_item None s
    else
      match current_material_base_name ≫= (fun b => candidate_materials !! b) with
      | Some new_material => _setMaterial position_item (Some new_material) s
      | None =>
        (* The current material is not available, find the preferred one *)
        match default_material g position_item extruder with
        | Some material_node => _setMaterial position_item (Some material_node) s
        | None => Ok s
        end
      end
  end.

Definition updateMaterialWithVariant (position : option string)
    (s : MachineManager) : result MachineManager :=
  match _global_container_stack s with
  | None => Ok s
  | Some g =>
    let position_list :=
      match position with
      | None => fst <$> map_to_list (gs_extruders g)
      | Some p => [p]
      end in
    for_each (updateMaterialWithVariant_item (buildplate_name g)) position_list s
  end.

(** *** Extruder count and enablement *)

(** "Check to see if any objects are set to print with an extruder that will
    no longer exist": one node of the scene. The extruder manager's
    [getExtruderStack(index)] is the lookup of the position among the
    extruders of the machine. *)
Definition reassign_node (extruder_count : Z) (g : GlobalStack)
    (extruder_nr : option string) : result (option string) :=
  match extruder_nr with
  | None => Ok None
  | Some nr =>
    n ← int nr;
    if bool_decide (extruder_count - 1 < n) then
      match gs_extruders g !! str (extruder_count - 1) with
      | Some _ => Ok (Some (str (extruder_count - 1)))
      | None => Ok (Some nr)
      end
    else Ok (Some nr)
  end.

(** "Move settable_per_extruder values out of the global container": one
    setting of the global user changes. *)
Definition migrate_setting (it : string * SettingValue) (g : GlobalStack)
  : result GlobalStack :=
  let setting_key := it.1 in
  if getProperty_settable_per_extruder g setting_key then
    limit_to_extruder ←
      match getProperty_limit_to_extruder g setting_key with
      | Some n => Ok n
      | None => Raise TypeError
      end;
    let extruder_position := str (Z.max 0 limit_to_extruder) in
    let g1 :=
      match gs_extruders g !! extruder_position with
      | Some extruder_stack =>
        set_gs_extruders
          (<[extruder_position :=
               set_es_userChanges
                 (setProperty setting_key it.2 (es_userChanges extruder_stack))
                 extruder_stack]> (gs_extruders g)) g
      | None => g
      end in
    Ok (set_gs_userChanges (removeInstance setting_key (gs_userChanges g1)) g1)
  else Ok g.

(** The global stack of a manager that must have one. *)
Definition the_global_stack (s : MachineManager) : result GlobalStack :=
  match _global_container_stack s with
  | Some g => Ok g
  | None => Raise AttributeError
  end.

(** Set the amount of extruders on the active machine (global stack). *)
Definition setActiveMachineExtruderCount (extruder_count : Z) (s : MachineManager)
  : result MachineManager :=
  match _global_container_stack s with
  | None => Ok s
  | Some g =>
    let definition_changes_container := gs_definitionChanges g in
    if container_eqb definition_changes_container empty_definition_changes_container
    then Ok s
    else
      let previous_extruder_count := getProperty_value g "machine_extruder_count" in
      if bool_decide (previous_extruder_count = Some (IntValue extruder_count))
      then Ok s
      else
        let g1 :=
          set_gs_definitionChanges
            (setProperty "machine_extruder_count" (IntValue extruder_count)
               definition_changes_container) g in
        s1 ← updateNumberExtrudersEnabled
               (updateDefaultExtruder (with_global_stack g1 s));
        s2 ← correctExtruderSettings s1;
        g2 ← the_global_stack s2;
        nodes ← mapM (reassign_node extruder_count g2) (scene s2);
        (* Make sure one of the extruder stacks is active *)
        let s3 := setActiveExtruderIndex 0 (set_scene nodes s2) in
        g3 ← for_each migrate_setting
               (map_to_list (c_values (gs_userChanges g2))) g2;
        (* Signal that the global stack has changed *)
        s4 ← _onGlobalContainerChanged
               (emit globalContainerStackChanged (with_global_stack g3 s3));
        Ok (forceUpdateAllSettings s4)
  end.

Definition setExtruderEnabled (position : Z) (enabled : bool) (s : MachineManager)
  : result MachineManager :=
  match getExtruder position s, _global_container_stack s with
  | Some extruder, Some g =>
    let g1 :=
      set_gs_extruders
        (<[str position := setEnabled enabled extruder]> (gs_extruders g)) g in
    s1 ← updateNumberExtrudersEnabled
           (updateDefaultExtruder (with_global_stack g1 s));
    s2 ← correctExtruderSettings s1;
    (* In case this extruder is being disabled and it's the currently
       selected one, switch to the default extruder *)
    s3 ← (if negb enabled && bool_decide (position = activeExtruderIndex s2)
          then i ← int (_default_extruder_position s2);
               Ok (setActiveExtruderIndex i s2)
          else Ok s2);
    s4 ← _updateQualityWithMaterial s3;
    Ok (emit activeMaterialChanged
          (forceUpdateAllSettings
             (emit (extrudersChanged (gs_id g))
                (emit activeQualityGroupChanged (emit extruderChanged s4)))))
  | _, _ => Ok s
  end.

(** *** Machines: activation and removal *)

(** Given a global stack, make sure that it's all valid by searching for
    this quality group and applying it again. The method is handed the
    stack that [setActiveMachine] has just installed in the manager. *)
Definition _initMachineState (s : MachineManager) : result MachineManager :=
  global_stack ← the_global_stack s;
  let s1 :=
    set_current_root_material_id
      ((fun extruder => c_base_file (es_material extruder))
         <$> gs_extruders global_stack) s in
  (* Update materials to make sure that the diameters match with the machine's *)
  s2 ← for_each (fun position => updateMaterialWithVariant (Some position))
         (fst <$> map_to_list (gs_extruders global_stack)) s1;
  global_stack ← the_global_stack s2;
  let global_quality := gs_quality global_stack in
  let quality_type := c_quality_type global_quality in
  let global_quality_changes := gs_qualityChanges global_stack in
  let global_quality_changes_name := c_name global_quality_changes in
  (* Try to set the same quality/quality_changes as the machine specified. *)
  let quality_groups := getQualityGroups global_stack in
  found ←
    (if decide (c_id global_quality_changes ≠ "empty_quality_changes") then
       match getQualityChangesGroups global_stack !! global_quality_changes_name with
       | Some new_quality_changes_group =>
         Ok (true, _setQualityChangesGroup new_quality_changes_group s2)
       | None => Ok (false, s2)
       end
     else
       match quality_type ≫= od_get quality_groups with
       | Some new_quality_group =>
         s' ← _setQualityGroup (Some new_quality_group) true s2; Ok (true, s')
       | None => Ok (false, s2)
       end);
  let '(same_quality_found, s3) := found in
  (* Could not find the specified quality/quality_changes, switch to the
     preferred quality if available, otherwise the first quality that's
     available, otherwise empty (not supported). *)
  if same_quality_found : bool then Ok s3
  else
    let preferred_quality_type := md_preferred_quality_type (gs_meta global_stack) in
    let quality_group :=
      match preferred_quality_type ≫= od_get quality_groups with
      | Some quality_group => Some quality_group
      | None => head (od_values quality_groups)
      end in
    _setQualityGroup quality_group true s3.

(** The machine stacks as the registry shows them. The manager holds the
    active stack itself; in the model its current value is kept in the
    manager and stands for the registry's entry of the same id. *)
Definition machine_stacks (s : MachineManager) : list GlobalStack :=
  match _global_container_stack s with
  | Some g =>
    (fun m => if decide (gs_id m = gs_id g) then g else m)
      <$> reg_machines (registry s)
  | None => reg_machines (registry s)
  end.

Definition set_reg_machines (l : list GlobalStack) (r : Registry) : Registry :=
  mkRegistry l (reg_extruder_stacks r) (reg_user_containers r).

(** A change made to a stack object through some reference to it. *)
Definition store_stack (m : GlobalStack) (s : MachineManager) : MachineManager :=
  let s1 :=
    set_registry
      (set_reg_machines
         ((fun m' => if decide (gs_id m' = gs_id m) then m else m')
            <$> reg_machines (registry s)) (registry s)) s in
  match _global_container_stack s1 with
  | Some g => if decide (gs_id g = gs_id m) then with_global_stack m s1 else s1
  | None => s1
  end.

(** [self._global_container_stack = global_stack]: the stack that leaves
    the slot keeps its value in the registry. *)
Definition install_global_stack (global_stack : GlobalStack) (s : MachineManager)
  : MachineManager :=
  set_global_container_stack (Some global_stack)
    (set_registry (set_reg_machines (machine_stacks s) (registry s)) s).

(** The machine stacks among the results of
    [findContainerStacks(id = stack_id)]. The lookup has no filter on the
    type, so that it also finds the stack of an extruder with that id; the
    ids of the registry are unique, and at most one stack is found. *)
Definition findContainerStacks_id (stack_id : string) (s : MachineManager)
  : list GlobalStack :=
  filter (fun m => gs_id m = stack_id) (machine_stacks s).

(** [findContainerStacksMetadata(id = machine_id)], of which [removeMachine]
    reads the entry "group_id": the metadata of the machine stacks with that
    id and, as there is no filter on the type, of the extruder stacks with
    that id. The stack of an extruder has no group id: the one place that
    writes the entry, [switchPrinterType], writes it to a machine. *)
Definition findContainerStacksMetadata_id (machine_id : string) (s : MachineManager)
  : list (option string) :=
  ((fun m => md_group_id (gs_meta m)) <$> findContainerStacks_id machine_id s)
  ++ ((fun _ => None)
        <$> filter (fun e : string * string => e.1 = machine_id)
              (reg_extruder_stacks (registry s))).

(** [self._application.setGlobalContainerStack(global_stack)], called when
    the manager's slot already holds the new stack and [previous] is the
    stack both slots held before. The application emits
    [globalContainerStackChanged] when its stack changes, and [__init__]
    connects [_onGlobalContainerChanged] to that signal. *)
Definition setGlobalContainerStack (previous : option GlobalStack)
    (global_stack : GlobalStack) (s : MachineManager) : result MachineManager :=
  if bool_decide (gs_id <$> previous = Some (gs_id global_stack)) then Ok s
  else _onGlobalContainerChanged (emit globalContainerStackChanged s).

(** [setActiveMachine] is called with the id of a machine. With the id of
    an extruder stack the source would go on with an [ExtruderStack] in the
    place of the global stack, which the slot of the manager record cannot
    hold: the model covers a [stack_id] that is the id of a machine or of no
    container stack. *)
Definition setActiveMachine (stack_id : string) (s : MachineManager)
  : result MachineManager :=
  let s := emit blurSettings s in  (* Ensure no-one has focus. *)
  match findContainerStacks_id stack_id s with
  | [] => Ok s
  | global_stack :: _ =>
    let global_stack :=
      set_gs_extruders
        (fixSingleExtrusionMachineExtruderDefinition global_stack) global_stack in
    let s := store_stack global_stack s in
    if negb (isValid global_stack) then
      (* Mark global stack as invalid *)
      Ok (show (FaultyContainers (gs_id global_stack)) s)
    else
      let previous := _global_container_stack s in
      let s := install_global_stack global_stack s in
      s ← setGlobalContainerStack previous global_stack s;
      s ← _initMachineState s;
      s ← _onGlobalContainerChanged s;
      (* Switch to the first enabled extruder *)
      let s := updateDefaultExtruder s in
      default_extruder_position ← int (defaultExtruderPosition s);
      Ok (emitChangedSignals (setActiveExtruderIndex default_extruder_position s))
  end.

(** [CuraContainerRegistry.removeContainer(container_id)]: the container
    with that id, whatever its kind, leaves the registry. *)
Definition removeContainer (container_id : string) (r : Registry) : Registry :=
  mkRegistry
    (filter (fun m => gs_id m ≠ container_id) (reg_machines r))
    (filter (fun e : string * string => e.1 ≠ container_id) (reg_extruder_stacks r))
    (filter (fun c : string * string => c.1 ≠ container_id) (reg_user_containers r)).

(** The deletions of [removeMachine]: the extruder stacks of the machine
    ([ExtruderManager.removeMachineExtruders]), its user containers, then the
    container with the id [machine_id] itself. *)
Definition remove_machine_containers (machine_id : string) (r : Registry) : Registry :=
  removeContainer machine_id
    (mkRegistry
       (reg_machines r)
       (filter (fun e : string * string => e.2 ≠ machine_id) (reg_extruder_stacks r))
       (filter (fun c : string * string => c.2 ≠ machine_id) (reg_user_containers r))).

(** The first statements of [removeMachine]: "Activate a new machine before
    removing a machine because this is safer". *)
Definition activate_other_machine (machine_id : string) (s : MachineManager)
  : result MachineManager :=
  let activate_new_machine :=
    bool_decide (gs_id <$> _global_container_stack s = Some machine_id) in
  if activate_new_machine then
    let machine_stacks := machine_stacks s in
    let other_machine_stacks :=
      filter (fun m => gs_id m ≠ machine_id) machine_stacks in
    match other_machine_stacks with
    | other :: _ => setActiveMachine (gs_id other) s
    | [] => Ok s
    end
  else Ok s.

(** [removeMachine] calls itself for the hidden machines of a network group.
    The recursion is bounded by [depth]; [None] tells that the bound was too
    small. *)
Fixpoint removeMachine_rec (depth : nat) (machine_id : string) (s : MachineManager)
  : option (result MachineManager) :=
  match depth with
  | O => None
  | S depth' =>
    match activate_other_machine machine_id s with
    | Raise e => Some (Raise e)
    | Ok s =>
      match findContainerStacksMetadata_id machine_id s with
      | [] => Some (Raise IndexError)
      | group_id :: _ =>
        let s := set_registry (remove_machine_containers machine_id (registry s)) s in
        (* If the printer that is being removed is a network printer, the
           hidden printers have to be also removed *)
        if present group_id then
          let hidden_containers :=
            filter (fun m => md_group_id (gs_meta m) = group_id) (machine_stacks s) in
          match hidden_containers with
          | hidden :: _ => removeMachine_rec depth' (gs_id hidden) s
          | [] => Some (Ok s)
          end
        else Some (Ok s)
      end
    end
  end.

(** Every nested call finds one machine less in the registry, so a depth
    above the number of machines is enough (see [removeMachine_rec_enough]);
    the interpreter's own bound, [RecursionError], is never met. *)
Definition removeMachine (machine_id : string) (s : MachineManager)
  : result MachineManager :=
  default (Raise RecursionError)
    (removeMachine_rec (S (length (reg_machines (registry s)))) machine_id s).

(** *** Synchronising with a printer *)

(** [getMachine(definition_id, metadata_filter)] with the filter of
    [switchPrinterType]: the first machine of the registry with that group
    id, that network key and that definition. *)
Definition getMachine (definition_id : string) (group_id : option string)
    (um_network_key : string) (s : MachineManager) : option GlobalStack :=
  head
    (filter (fun m => def_id (gs_definition m) = definition_id)
       (filter (fun m => md_group_id (gs_meta m) = group_id
                         ∧ md_um_network_key (gs_meta m) = Some um_network_key)
          (machine_stacks s))).

Definition set_hidden (b : bool) (g : GlobalStack) : GlobalStack :=
  let m := gs_meta g in
  set_gs_meta
    (mkStackMetaData (md_preferred_quality_type m) (md_has_materials m)
       (md_group_id m) (md_um_network_key m) (md_group_name m)
       (md_connection_type m) (Some b)) g.

(** Given a printer definition name, select the right machine instance. In
    case it doesn't exist, create a new instance with the same network key. *)
Definition switchPrinterType (machine_name : string) (s : MachineManager)
  : result MachineManager :=
  match _global_container_stack s with
  | None => Ok s
  | Some g =>
    (* Don't switch if the user tries to change to the same type of printer *)
    if bool_decide (def_name (gs_definition g) = machine_name) then Ok s
    else
      match findDefinitionContainers_by_name machine_name with
      | [] => Raise IndexError
      | definition :: _ =>
        let machine_definition_id := def_id definition in
        let network_key := default "" (md_um_network_key (gs_meta g)) in
        let activate (new_machine : GlobalStack) (s : MachineManager) :=
          let s := store_stack (set_hidden false new_machine) s in
          let s := store_stack (set_hidden true g) s in
          setActiveMachine (gs_id new_machine) s in
        match getMachine machine_definition_id (md_group_id (gs_meta g)) network_key s with
        | Some new_machine => activate new_machine s
        | None =>
          match createMachine (machine_definition_id +:+ "_sync") machine_definition_id with
          | None => Ok s
          | Some new_machine =>
            let m := gs_meta new_machine in
            let new_machine :=
              set_gs_meta
                (mkStackMetaData (md_preferred_quality_type m) (md_has_materials m)
                   (md_group_id (gs_meta g)) (Some network_key)
                   (Some (default "" (md_group_name (gs_meta g))))
                   (md_connection_type (gs_meta g)) (md_hidden m)) new_machine in
            (* the stack builder has registered the machine and its extruders *)
            let r := registry s in
            activate new_machine
              (set_registry
                 (mkRegistry (reg_machines r ++ [new_machine])
                    (reg_extruder_stacks r ++
                       ((fun e => (es_id e, gs_id new_machine))
                          <$> (snd <$> map_to_list (gs_extruders new_machine))))
                    (reg_user_containers r)) s)
          end
        end
      end
  end.

(** The extruders a reported configuration leaves without hotend or
    material. *)
Definition extruders_lacking (configuration : PrinterConfigurationModel) : gset Z :=
  list_to_set
    (ec_position <$>
       filter (fun ec => present (ec_hotendID ec) = false
                         ∨ present (ec_material_guid ec) = false)
         (extruderConfigurations configuration)).

(** "If there's no material and/or nozzle on the printer, enable the first
    extruder and disable the rest." *)
Definition spare_first (extruders_to_disable : gset Z) (g : GlobalStack)
  : result (gset Z) :=
  if decide (size extruders_to_disable = size (gs_extruders g)) then
    first ← Py.min (elements extruders_to_disable);
    Ok (extruders_to_disable ∖ {[first]})
  else Ok extruders_to_disable.

(** [extruders[position].<slot> = container], on the global stack of the
    manager. *)
Definition update_extruder (position : string) (f : ExtruderStack -> ExtruderStack)
    (s : MachineManager) : result MachineManager :=
  g ← the_global_stack s;
  extruder ← getitem (gs_extruders g) position;
  Ok (with_global_stack
        (set_gs_extruders (<[position := f extruder]> (gs_extruders g)) g) s).

(** One round of the second loop of [applyRemoteConfiguration]; the state
    of the loop is the manager with [disabled_used_extruder_position_set]
    (which is non-empty exactly when [need_to_show_message] is set). *)
Definition apply_extruder_configuration (configuration : PrinterConfigurationModel)
    (extruders_to_disable : gset Z) (extruder_configuration : ExtruderConfigurationModel)
    (st : MachineManager * gset Z) : result (MachineManager * gset Z) :=
  let '(s, disabled_used_extruder_position_set) := st in
  let position := str (ec_position extruder_configuration) in
  n ← int position;
  if decide (n ∈ extruders_to_disable) then
    s ← update_extruder position (setEnabled false) s;
    Ok (s, disabled_used_extruder_position_set ∪ {[n]})
  else
    g ← the_global_stack s;
    let variant_container_node :=
      getVariantNode (def_id (gs_definition g)) (ec_hotendID extruder_configuration) in
    let material_container_node :=
      getMaterialNodeByType g position (ec_hotendID extruder_configuration)
        (buildplateConfiguration configuration)
        (ec_material_guid extruder_configuration) in
    s ← match variant_container_node with
        | Some node => _setVariantNode position node s
        | None => update_extruder position (set_es_variant empty_variant_container) s
        end;
    s ← match material_container_node with
        | Some node => _setMaterial position (Some node) s
        | None => update_extruder position (set_es_material empty_material_container) s
        end;
    s ← update_extruder position (setEnabled true) s;
    s ← updateMaterialWithVariant (Some position) s;
    Ok (s, disabled_used_extruder_position_set).

(** The display names of the disabled extruders, by ascending position. *)
Definition disabled_extruder_names (positions : gset Z) (g : GlobalStack)
  : result (list string) :=
  mapM (fun extruder_position : Z =>
          extruder_stack ← getitem (gs_extruders g) (str extruder_position);
          Ok (es_definition_name extruder_stack))
    (merge_sort Z.le (elements positions)).

Definition applyRemoteConfiguration (configuration : PrinterConfigurationModel)
    (s : MachineManager) : result MachineManager :=
  match _global_container_stack s with
  | None => Ok s
  | Some _ =>
    let s := emit blurSettings s in
    s ← switchPrinterType (printerType configuration) s;
    g ← the_global_stack s;
    extruders_to_disable ← spare_first (extruders_lacking configuration) g;
    st ← for_each (apply_extruder_configuration configuration extruders_to_disable)
           (extruderConfigurations configuration) (s, ∅);
    let '(s, disabled_used_extruder_position_set) := st in
    s ← updateNumberExtrudersEnabled (updateDefaultExtruder s);
    g ← the_global_stack s;
    let s :=
      match buildplateConfiguration configuration with
      | Some buildplate =>
        match getBuildplateVariantNode (def_id (gs_definition g)) buildplate with
        | Some global_variant_container_node =>
          _setGlobalVariant global_variant_container_node s
        | None => with_global_stack (set_gs_variant empty_variant_container g) s
        end
      | None => with_global_stack (set_gs_variant empty_variant_container g) s
      end in
    s ← _updateQualityWithMaterial s;
    s ← (if decide (disabled_used_extruder_position_set ≠ ∅) then
           g ← the_global_stack s;
           extruder_names ←
             disabled_extruder_names disabled_used_extruder_position_set g;
           Ok (show (ExtrudersDisabledMessage extruder_names) s)
         else Ok s);
    (* See if we need to show the Discard or Keep changes screen *)
    Ok (maybe_discardOrKeepProfileChanges s)
  end.

(** *** The public setters *)

Definition setGlobalVariant (container_node : ContainerNode) (s : MachineManager)
  : result MachineManager :=
  let s := _setGlobalVariant container_node (emit blurSettings s) in
  s ← updateMaterialWithVariant None s;  (* Update all materials *)
  _updateQualityWithMaterial s.

(** A slot of a stack holds a container: storing the [None] of a node that
    does not resolve is refused by the stack. *)
Definition resolved (node : ContainerNode) : result Container :=
  match cn_container node with
  | Some c => Ok c
  | None => Raise AttributeError
  end.

(** [global_stack is not None and global_stack != self._global_container_stack] *)
Definition is_other_stack (global_stack : option GlobalStack) (s : MachineManager)
  : option GlobalStack :=
  match global_stack with
  | Some other =>
    if bool_decide (gs_id <$> _global_container_stack s = Some (gs_id other))
    then None else Some other
  | None => None
  end.

Definition setMaterial (position : string) (container_node : option ContainerNode)
    (global_stack : option GlobalStack) (s : MachineManager) : result MachineManager :=
  match is_other_stack global_stack s with
  | Some other =>
    node ← match container_node with
           | Some n => Ok n
           | None => Raise AttributeError
           end;
    extruder ← getitem (gs_extruders other) position;
    c ← resolved node;
    Ok (store_stack
          (set_gs_extruders
             (<[position := set_es_material c extruder]> (gs_extruders other)) other) s)
  | None =>
    s ← _setMaterial position container_node (emit blurSettings s);
    s ← _updateQualityWithMaterial s;
    Ok (maybe_discardOrKeepProfileChanges s)
  end.

Definition setVariant (position : string) (container_node : option ContainerNode)
    (s : MachineManager) : result MachineManager :=
  let s := emit blurSettings s in
  node ← match container_node with
         | Some n => Ok n
         | None => Raise AttributeError
         end;
  s ← _setVariantNode position node s;
  s ← updateMaterialWithVariant (Some position) s;
  s ← _updateQualityWithMaterial s;
  Ok (maybe_discardOrKeepProfileChanges s).

Definition setVariantByName (position : string) (variant_name : string)
    (s : MachineManager) : result MachineManager :=
  match _global_container_stack s with
  | None => Ok s
  | Some g =>
    setVariant position
      (getVariantNode (def_id (gs_definition g)) (Some variant_name)) s
  end.

(** The branch of [setQualityGroup] for a machine that is not the active
    one: "This is not changing the quality for the active machine". *)
Definition setQualityGroup_other (quality_group : option QualityGroup)
    (other : GlobalStack) (s : MachineManager) : result MachineManager :=
  match quality_group with
  | None => Ok s
  | Some qg =>
    match qg_node_for_global qg with
    | None => Ok s
    | Some node_for_global =>
      c ← resolved node_for_global;
      let per_extruder (extruder_nr : string) (extruder_stack : ExtruderStack) :=
        let quality_container :=
          default empty_quality_container
            (getContainer (qg_nodes_for_extruders qg !! extruder_nr)) in
        Some (set_es_quality quality_container extruder_stack) in
      Ok (store_stack
            (set_gs_extruders (map_imap per_extruder (gs_extruders other))
               (set_gs_quality c other)) s)
    end
  end.

(** Optionally provide global_stack if you want to use your own. The active
    global_stack is treated differently. *)
Definition setQualityGroup (quality_group : option QualityGroup) (no_dialog : bool)
    (global_stack : option GlobalStack) (s : MachineManager) : result MachineManager :=
  match is_other_stack global_stack s with
  | Some other => setQualityGroup_other quality_group other s
  | None =>
    s ← _setQualityGroup quality_group true (emit blurSettings s);
    (* See if we need to show the Discard or Keep changes screen *)
    Ok (if no_dialog then s else maybe_discardOrKeepProfileChanges s)
  end.

Definition setQualityGroupByQualityType (quality_type : string) (s : MachineManager)
  : result MachineManager :=
  match _global_container_stack s with
  | None => Ok s
  | Some g =>
    quality_group ← od_getitem (getQualityGroups g) quality_type;
    setQualityGroup (Some quality_group) false None s
  end.

Definition activeQualityGroup (s : MachineManager) : option QualityGroup :=
  _current_quality_group s.

Definition setQualityChangesGroup (quality_changes_group : QualityChangesGroup)
    (no_dialog : bool) (s : MachineManager) : MachineManager :=
  let s := _setQualityChangesGroup quality_changes_group (emit blurSettings s) in
  if no_dialog then s else maybe_discardOrKeepProfileChanges s.

Definition clear_userChanges (c : Container) : Container := set_c_values ∅ c.

Definition resetToUseDefaultQuality (s : MachineManager) : result MachineManager :=
  match _global_container_stack s with
  | None => Ok s
  | Some _ =>
    s ← _setQualityGroup (_current_quality_group s) true s;
    g ← the_global_stack s;
    Ok (with_global_stack
          (set_gs_extruders
             ((fun e => set_es_userChanges (clear_userChanges (es_userChanges e)) e)
                <$> gs_extruders g)
             (set_gs_userChanges (clear_userChanges (gs_userChanges g)) g)) s)
  end.

Definition activeQualityChangesGroup (s : MachineManager) : option QualityChangesGroup :=
  _current_quality_changes_group s.

Definition hasCustomQuality (s : MachineManager) : bool :=
  bool_decide (_current_quality_changes_group s ≠ None).

Definition hasNotSupportedQuality (s : MachineManager) : bool :=
  bool_decide (_current_quality_group s = None)
  && bool_decide (_current_quality_changes_group s = None).

Definition _updateUponMaterialMetadataChange (s : MachineManager)
  : result MachineManager :=
  match _global_container_stack s with
  | None => Ok s
  | Some _ =>
    s ← updateMaterialWithVariant None s;
    _updateQualityWithMaterial s
  end.

(** *** Settings on all extruders, and the name of the active quality *)

(** [setSettingForAllExtruders], for the property "value" (the one property
    of a setting that the containers of the model keep). *)
Definition setSettingForAllExtruders (setting_name : string)
    (property_value : SettingValue) (s : MachineManager) : MachineManager :=
  match _global_container_stack s with
  | None => s
  | Some g =>
    with_global_stack
      (set_gs_extruders
         ((fun extruder =>
             set_es_userChanges
               (setProperty setting_name property_value (es_userChanges extruder))
               extruder)
            <$> gs_extruders g) g) s
  end.

(** Reset all setting properties of a setting for all extruders. *)
Definition resetSettingForAllExtruders (setting_name : string) (s : MachineManager)
  : MachineManager :=
  match _global_container_stack s with
  | None => s
  | Some g =>
    with_global_stack
      (set_gs_extruders
         ((fun extruder =>
             set_es_userChanges
               (removeInstance setting_name (es_userChanges extruder)) extruder)
            <$> gs_extruders g) g) s
  end.

Definition activeQualityOrQualityChangesName (s : MachineManager) : string :=
  match _current_quality_changes_group s, _current_quality_group s with
  | Some quality_changes_group, _ => qcg_name quality_changes_group
  | None, Some quality_group => qg_name quality_group
  | None, None => c_name empty_quality_container
  end.

End Manager.

(** ** Notions used in the statements *)

(** The manager without its logs of notifications and notices. *)
Definition forget_logs (s : MachineManager) : MachineManager :=
  mkMachineManager (_global_container_stack s) (_current_root_material_id s)
    (_current_quality_group s) (_current_quality_changes_group s)
    (_default_extruder_position s) (activeExtruderIndex s) (active_mode s)
    (registry s) (scene s) [] [].

(** The extruders once the nodes of a quality group have been applied. *)
Definition quality_applied (empty_quality_changes : bool)
    (nodes : gmap string ContainerNode) (extruders : gmap string ExtruderStack)
  : gmap string ExtruderStack :=
  map_imap
    (fun position extruder =>
       Some (match nodes !! position with
             | Some node => with_quality_node empty_quality_changes node extruder
             | None => extruder
             end))
    extruders.

(** The operations that reconcile the selections of the active machine: a
    change of quality, material, variant or extruder enablement, a machine
    activation, a synchronisation with a printer. *)
Inductive Reconciliation : Type :=
  | SetQualityGroup (quality_group : option QualityGroup) (no_dialog : bool)
  | SetQualityChangesGroup (quality_changes_group : QualityChangesGroup) (no_dialog : bool)
  | ResetToUseDefaultQuality
  | SetMaterial (position : string) (container_node : option ContainerNode)
  | SetVariant (position : string) (container_node : option ContainerNode)
  | SetGlobalVariant (container_node : ContainerNode)
  | UpdateUponMaterialMetadataChange
  | SetExtruderEnabled (position : Z) (enabled : bool)
  | SetActiveMachine (stack_id : string)
  | ApplyRemoteConfiguration (configuration : PrinterConfigurationModel).

Definition reconcile `{Collaborators} (op : Reconciliation) (s : MachineManager)
  : result MachineManager :=
  match op with
  | SetQualityGroup quality_group no_dialog =>
    setQualityGroup quality_group no_dialog None s
  | SetQualityChangesGroup quality_changes_group no_dialog =>
    Ok (setQualityChangesGroup quality_changes_group no_dialog s)
  | ResetToUseDefaultQuality => resetToUseDefaultQuality s
  | SetMaterial position container_node => setMaterial position container_node None s
  | SetVariant position container_node => setVariant position container_node s
  | SetGlobalVariant container_node => setGlobalVariant container_node s
  | UpdateUponMaterialMetadataChange => _updateUponMaterialMetadataChange s
  | SetExtruderEnabled position enabled => setExtruderEnabled position enabled s
  | SetActiveMachine stack_id => setActiveMachine stack_id s
  | ApplyRemoteConfiguration configuration => applyRemoteConfiguration configuration s
  end.

(** Exactly one of three conditions holds. *)
Definition exactly_one (a b c : bool) : bool :=
  match a, b, c with
  | true, false, false | false, true, false | false, false, true => true
  | _, _, _ => false
  end.

Definition quality_group_set (s : MachineManager) : bool :=
  bool_decide (_current_quality_group s ≠ None).
Definition quality_changes_group_set (s : MachineManager) : bool :=
  bool_decide (_current_quality_changes_group s ≠ None).

(** The container [_setMaterial] stores for a node: the empty material
    when there is no node or the node does not resolve. *)
Definition node_material (container_node : option ContainerNode) : Container :=
  default empty_material_container (container_node ≫= cn_container).

(** The material of an extruder after [updateMaterialWithVariant], from
    the answers of the catalog and the material it had. *)
Definition material_after (candidates : gmap string ContainerNode)
    (default_node : option ContainerNode) (current : Container) : Container :=
  if decide (candidates = ∅) then empty_material_container
  else
    match c_base_file current ≫= (fun b => candidates !! b) with
    | Some node => node_material (Some node)
    | None =>
      match default_node with
      | Some node => node_material (Some node)
      | None => current
      end
    end.

(** The answers of the catalog about the materials of one position are
    coherent when every candidate resolves to a container of the family it is
    listed under, and the default material, if its container belongs to a
    family among the candidates, is the container of that candidate. *)
Definition coherent_answers (candidates : gmap string ContainerNode)
    (default_node : option ContainerNode) : Prop :=
  map_Forall
    (fun family node => c_base_file <$> cn_container node = Some (Some family))
    candidates
  ∧ match default_node ≫= cn_container with
    | Some c =>
      match c_base_file c ≫= (fun family => candidates !! family) with
      | Some node' => cn_container node' = Some c
      | None => True
      end
    | None => True
    end.

(** What a reconciliation leaves alone: which machine is active, the name
    and the enabled flag of each of its extruders, the registry and the notices
    shown. *)
Definition active_id (s : MachineManager) : option string :=
  gs_id <$> _global_container_stack s.

Definition flags_of (g : GlobalStack) : gmap string (string * bool) :=
  (fun e => (es_definition_name e, es_isEnabled e)) <$> gs_extruders g.

Definition extruder_flags (s : MachineManager) : gmap string (string * bool) :=
  from_option flags_of ∅ (_global_container_stack s).

Definition preserves (s s' : MachineManager) : Prop :=
  active_id s' = active_id s
  ∧ extruder_flags s' = extruder_flags s
  ∧ registry s' = registry s
  ∧ ui s' = ui s.

(** The ids the registry holds. *)
Definition registry_ids (r : Registry)
  : list string * list (string * string) * list (string * string) :=
  (gs_id <$> reg_machines r, reg_extruder_stacks r, reg_user_containers r).

(** The positions a printer reports, and a report in which no extruder has
    a hotend or a material. *)
Definition reported_positions (configuration : PrinterConfigurationModel) : list Z :=
  ec_position <$> extruderConfigurations configuration.

Definition nothing_loaded (configuration : PrinterConfigurationModel) : Prop :=
  Forall (fun ec => present (ec_hotendID ec) = false
                    ∧ present (ec_material_guid ec) = false)
    (extruderConfigurations configuration).

(** The display names of the extruders of [g] at the given positions. *)
Definition extruder_names (g : GlobalStack) (positions : list Z) : list string :=
  (fun z => default "" (fst <$> flags_of g !! str z)) <$> positions.

(** The reported positions other than [lowest], ascending. *)
Definition others (configuration : PrinterConfigurationModel) (lowest : Z) : list Z :=
  merge_sort Z.le
    (elements (list_to_set (reported_positions configuration) ∖ {[lowest]} : gset Z)).

(** The stack [setActiveMachine] goes on with, once
    [fixSingleExtrusionMachineExtruderDefinition] has seen it. *)
Definition fixed_stack `{Collaborators} (global_stack : GlobalStack) : GlobalStack :=
  set_gs_extruders (fixSingleExtrusionMachineExtruderDefinition global_stack)
    global_stack.

(** The machines [removeMachine] chooses the next active machine from. *)
Definition other_machine_stacks (machine_id : string) (s : MachineManager)
  : list GlobalStack :=
  filter (fun m => gs_id m ≠ machine_id) (machine_stacks s).

(** An extruder that [updateNumberExtrudersEnabled] counts: it is enabled
    and its position is below the extruder count of the machine. *)
Definition is_counted (machine_extruder_count : option SettingValue)
    (it : string * ExtruderStack) : bool :=
  es_isEnabled it.2
  && match int it.1, machine_extruder_count with
     | Ok position, Some (IntValue count) => bool_decide (position < count)
     | _, _ => false
     end.

Definition enabled_count (g : GlobalStack) : Z :=
  Z.of_nat
    (length
       (filter (fun it => is_counted (getProperty_value g "machine_extruder_count") it = true)
          (map_to_list (gs_extruders g)))).

(** Every stack of the machine holds the empty quality and the empty quality
    changes. *)
Definition all_quality_empty (g : GlobalStack) : Prop :=
  gs_quality g = empty_quality_container
  ∧ gs_qualityChanges g = empty_quality_changes_container
  ∧ map_Forall
      (fun _ extruder =>
         es_quality extruder = empty_quality_container
         ∧ es_qualityChanges extruder = empty_quality_changes_container)
      (gs_extruders g).

(** The root material id [_setMaterial] derives from a node: the family of
    the node when it resolves. *)
Definition node_root_material_id (container_node : option ContainerNode)
  : option string :=
  match container_node ≫= (fun n => pair n <$> cn_container n) with
  | Some (n, _) => cn_base_file n
  | None => None
  end.

(** The cache of root materials read off the extruders. *)
Definition root_materials_of (g : GlobalStack) : gmap string (option string) :=
  (fun e => c_base_file (es_material e)) <$> gs_extruders g.

(** The reconciliations that only select profiles: all but the enabling of
    an extruder, the activation of a machine and the synchronisation with a
    printer. *)
Definition selects_profiles (op : Reconciliation) : bool :=
  match op with
  | SetExtruderEnabled _ _ | SetActiveMachine _ | ApplyRemoteConfiguration _ => false
  | _ => true
  end.

(** The user changes of the extruders, per position. *)
Definition extruder_userChanges (s : MachineManager)
  : gmap string (gmap string SettingValue) :=
  match _global_container_stack s with
  | Some g => (fun e => c_values (es_userChanges e)) <$> gs_extruders g
  | None => ∅
  end.

(** What a setter that works on another machine leaves alone: all of the
    manager but the registry. *)
Definition same_manager (s s' : MachineManager) : Prop :=
  _global_container_stack s' = _global_container_stack s
  ∧ _current_root_material_id s' = _current_root_material_id s
  ∧ _current_quality_group s' = _current_quality_group s
  ∧ _current_quality_changes_group s' = _current_quality_changes_group s
  ∧ _default_extruder_position s' = _default_extruder_position s
  ∧ emitted s' = emitted s
  ∧ ui s' = ui s.

(** No mesh of the scene prints with an extruder above [last]. *)
Definition scene_within (last : Z) (nodes : list (option string)) : Prop :=
  Forall (fun extruder_nr : option string =>
            ∀ nr, extruder_nr = Some nr -> ∃ n, int nr = Ok n ∧ n <= last) nodes.

(** ** A small installation to run the methods on *)

Module Demo.

(** A profile container with the given id, family and quality type. *)
Definition profile (id : string) (base_file quality_type : option string)
    (compatible : bool) : Container :=
  mkContainer id id base_file quality_type compatible None ∅.

Definition node_of (c : Container) : ContainerNode :=
  mkContainerNode (Some c) (c_base_file c).

(** A node of the catalog whose container is gone. *)
Definition dangling (base_file : option string) : ContainerNode :=
  mkContainerNode None base_file.

Definition aa04 : Container :=
  mkContainer "ultimaker3_aa04" "AA 0.4" None None false (Some "nozzle") ∅.
Definition glass : Container :=
  mkContainer "ultimaker3_glass" "Glass" None None false (Some "buildplate") ∅.

Definition pla : Container :=
  profile "generic_pla_ultimaker3_AA_0.4" (Some "generic_pla") None true.
Definition abs : Container :=
  profile "generic_abs_ultimaker3_AA_0.4" (Some "generic_abs") None true.
Definition pva : Container :=
  profile "generic_pva_ultimaker3_AA_0.4" (Some "generic_pva") None false.
Definition pla_175 : Container :=
  profile "generic_pla_175" (Some "generic_pla") None true.

Definition quality (id quality_type : string) : Container :=
  profile id None (Some quality_type) false.

Definition user (id : string) : Container := profile id None None false.

Definition extruder (position : string) (material : Container) (enabled : bool)
  : ExtruderStack :=
  mkExtruderStack ("ultimaker3_extruder_" +:+ position)
    ("Extruder " +:+ position) (user ("user_" +:+ position))
    empty_quality_changes_container (quality "um3_normal_aa04" "normal")
    material aa04 enabled.

Definition ultimaker3 : DefinitionContainer :=
  mkDefinition "ultimaker3" "Ultimaker 3"
    {[ "machine_extruder_count" := IntValue 2 ]}
    {[ "support_extruder_nr" := "extruder" ]} ∅ ∅.

Definition plain_meta (preferred_quality_type : option string) : StackMetaData :=
  mkStackMetaData preferred_quality_type true None None None None None.

(** A machine with the given id and extruders, of quality "normal". *)
Definition machine (id : string) (extruders : gmap string ExtruderStack) : GlobalStack :=
  mkGlobalStack id (plain_meta None) (user (id +:+ "_user"))
    empty_quality_changes_container (quality "um3_global_normal" "normal")
    empty_material_container empty_variant_container
    (mkContainer (id +:+ "_settings") "settings" None None false None
       {[ "machine_extruder_count" := IntValue 2;
          "extruders_enabled_count" := IntValue 2 ]})
    ultimaker3 extruders.

Definition two_extruders : gmap string ExtruderStack :=
  {[ "0" := extruder "0" pla true; "1" := extruder "1" pla true ]}.

Definition um3 : GlobalStack := machine "um3" two_extruders.

Definition quality_group (quality_type : string) (is_available : bool) : QualityGroup :=
  mkQualityGroup quality_type quality_type
    (Some (node_of (quality ("um3_global_" +:+ quality_type) quality_type)))
    {[ "0" := node_of (quality ("um3_" +:+ quality_type +:+ "_aa04") quality_type);
       "1" := node_of (quality ("um3_" +:+ quality_type +:+ "_aa04") quality_type) ]}
    is_available.

Definition normal : QualityGroup := quality_group "normal" true.
Definition draft : QualityGroup := quality_group "draft" true.

(** A custom profile derived from "normal". *)
Definition custom : QualityChangesGroup :=
  mkQualityChangesGroup "my profile" "normal"
    (Some (node_of (quality "my_profile" "normal")))
    {[ "0" := node_of (quality "my_profile_0" "normal") ]}.

(** Collaborators with fixed answers: a catalog of quality groups and of
    materials, and a validity check that fails on the machine "broken". *)
Definition collaborators (quality_groups : odict QualityGroup)
    (materials : gmap string ContainerNode)
    (default_material : option ContainerNode) : Collaborators :=
  {| getQualityGroups _ := quality_groups;
     getQualityChangesGroups _ := {[ "my profile" := custom ]};
     getAvailableMaterials _ _ _ _ := materials;
     getDefaultMaterial _ _ _ := default_material;
     getMaterialNodeByType _ _ _ _ _ := None;
     getVariantNode _ _ := None;
     getBuildplateVariantNode _ _ := None;
     getCompatibleMaterialDiameter _ := 3;
     isValid g := bool_decide (gs_id g ≠ "broken");
     fixSingleExtrusionMachineExtruderDefinition g := gs_extruders g;
     findDefinitionContainers_by_name _ := [];
     createMachine _ _ := None;
     getActiveExtruderStacks g := (map_to_list (gs_extruders g)).*2;
     getActiveExtruderStacks_extruders _ _ listed := listed |}.

Definition materials : gmap string ContainerNode :=
  {[ "generic_pla" := node_of pla; "generic_abs" := node_of abs ]}.

(** The usual surroundings: both quality types on offer, PLA and ABS. *)
Definition usual : Collaborators :=
  collaborators [("normal", normal); ("draft", draft)] materials (Some (node_of pla)).

(** A manager whose active machine is [g], with the quality group "normal"
    selected and the cache of root materials in step with the extruders. *)
Definition manager (g : GlobalStack) (machines : list GlobalStack) : MachineManager :=
  mkMachineManager (Some g)
    ((fun e => c_base_file (es_material e)) <$> gs_extruders g)
    (Some normal) None "0" 0 0
    (mkRegistry machines
       ((fun m => ("extruder_of_" +:+ gs_id m, gs_id m)) <$> machines)
       ((fun m => (gs_id m +:+ "_user", gs_id m)) <$> machines))
    [] [] [].

Definition s0 : MachineManager := manager um3 [um3].

(** A catalog in which "normal" has become unavailable and [draft] is the
    group on offer for "draft". *)
Definition offering (draft : QualityGroup) : Collaborators :=
  collaborators [("draft", draft); ("normal", quality_group "normal" false)]
    materials (Some (node_of pla)).

(** Catalogs of materials: one that offers ABS only and has no default, and
    one whose only candidate, PLA, does not resolve, with ABS as default. *)
Definition abs_only : Collaborators :=
  collaborators [("normal", normal)] {[ "generic_abs" := node_of abs ]} None.
Definition pla_gone : Collaborators :=
  collaborators [("normal", normal)]
    {[ "generic_pla" := dangling (Some "generic_pla") ]} (Some (node_of abs)).

(** The material of the extruder at a position. *)
Definition material_at (position : string) (s : MachineManager) : option Container :=
  g ← _global_container_stack s; es_material <$> gs_extruders g !! position.

(** A "draft" group whose global container is gone, and one with a node
    for an extruder the machine does not have. *)
Definition draft_dangling : QualityGroup :=
  mkQualityGroup "draft" "draft" (Some (dangling None)) ∅ true.
Definition draft_third_extruder : QualityGroup :=
  mkQualityGroup "draft" "draft"
    (Some (node_of (quality "um3_global_draft" "draft")))
    {[ "2" := node_of (quality "um3_draft_aa04" "draft") ]} true.

(** A report of the printer "Ultimaker 3" in which the extruders at the
    given positions have neither hotend nor material. *)
Definition nothing_there (positions : list Z) : PrinterConfigurationModel :=
  mkPrinterConfiguration "Ultimaker 3"
    ((fun z => mkExtruderConfiguration z None (Some EmptyString)) <$> positions) None.

(** The manager a call leaves, [s] itself when the call raises. *)
Definition after (r : Py.result MachineManager) (s : MachineManager) : MachineManager :=
  match r with
  | Py.Ok s' => s'
  | Py.Raise _ => s
  end.

(** A machine whose second extruder is switched off, and one with a single
    extruder. *)
Definition second_off : GlobalStack :=
  machine "um3" {[ "0" := extruder "0" pla true; "1" := extruder "1" pla false ]}.
Definition one_extruder : GlobalStack :=
  machine "um3" {[ "0" := extruder "0" pla true ]}.

(** The surroundings of the machine with a single extruder: the quality
    group "normal" has a node for that extruder only. *)
Definition single : Collaborators :=
  collaborators
    [("normal",
      mkQualityGroup "normal" "normal"
        (Some (node_of (quality "um3_global_normal" "normal")))
        {[ "0" := node_of (quality "um3_normal_aa04" "normal") ]} true)]
    materials (Some (node_of pla)).

Definition two_machines : MachineManager :=
  manager um3 [um3; machine "other" two_extruders].
Definition with_broken : MachineManager :=
  manager um3 [um3; machine "broken" two_extruders].

(** A manager whose machine has its second extruder switched off, and user
    changes that print the support with the extruder at a position. *)
Definition second_off_manager : MachineManager :=
  manager second_off [second_off].
Definition support_with (position : string) : Container :=
  mkContainer "um3_user" "um3_user" None None false None
    {[ "support_extruder_nr" := StrValue position ]}.

(** A manager with a user setting on the global stack. *)
Definition with_user_setting : MachineManager :=
  manager
    (set_gs_userChanges
       (mkContainer "um3_user" "um3_user" None None false None
          {[ "layer_height" := IntValue 2 ]}) um3) [].

(** A report in which only the second extruder is loaded, and reports of a
    printer type no definition is known for. *)
Definition half_loaded : PrinterConfigurationModel :=
  mkPrinterConfiguration "Ultimaker 3"
    [mkExtruderConfiguration 0 None None;
     mkExtruderConfiguration 1 (Some "506c9f0d-e3aa-4bd4-b2d2-23e2425b1aa9")
       (Some "AA 0.4")] None.
Definition unknown_printer : PrinterConfigurationModel :=
  mkPrinterConfiguration "Ultimaker S5" [] None.
Definition no_extruders : MachineManager :=
  manager (machine "um3" ∅) [].

(** A machine with a global user setting that is settable per extruder. *)
Definition ultimaker3_per_extruder : DefinitionContainer :=
  mkDefinition "ultimaker3" "Ultimaker 3"
    {[ "machine_extruder_count" := IntValue 2 ]}
    {[ "support_extruder_nr" := "extruder" ]}
    {[ "infill_density" := true ]} {[ "infill_density" := (-1) ]}.

Definition old_project : MachineManager :=
  manager
    (mkGlobalStack "um3" (plain_meta None)
       (mkContainer "um3_user" "um3_user" None None false None
          {[ "infill_density" := IntValue 20 ]})
       empty_quality_changes_container (quality "um3_global_normal" "normal")
       empty_material_container empty_variant_container
       (mkContainer "um3_settings" "settings" None None false None
          {[ "machine_extruder_count" := IntValue 2;
             "extruders_enabled_count" := IntValue 2 ]})
       ultimaker3_per_extruder two_extruders) [].

(** A machine "office" beside the active one, and a scene with a mesh on
    the second extruder. *)
Definition office : GlobalStack := machine "office" two_extruders.
Definition with_office : MachineManager := manager um3 [um3; office].
Definition with_scene : MachineManager :=
  set_scene [Some "1"; None; Some "0"] s0.

End Demo.

(** * Properties *)

(** ** The order on strings and the conversions *)

Lemma str_le_trans (a b c : string) : str_le a b -> str_le b c -> str_le a c.
Proof.
  unfold str_le, String.leb.
  revert b c. induction a as [|x a IH]; intros [|y b] [|z c]; simpl; try done.
  unfold Ascii.compare.
  destruct (N.compare_spec (Ascii.N_of_ascii x) (Ascii.N_of_ascii y)) as [E1|L1|G1];
    destruct (N.compare_spec (Ascii.N_of_ascii y) (Ascii.N_of_ascii z)) as [E2|L2|G2];
    try done.
  - rewrite E1, E2, N.compare_refl. apply IH.
  - rewrite E1. intros _ _. by rewrite (proj2 (N.compare_lt_iff _ _) L2).
  - rewrite <- E2. intros _ _. by rewrite (proj2 (N.compare_lt_iff _ _) L1).
  - intros _ _.
    by rewrite (proj2 (N.compare_lt_iff _ _) (N.lt_trans _ _ _ L1 L2)).
Qed.

#[global] Instance str_le_transitive : Transitive str_le.
Proof. intros a b c. apply str_le_trans. Qed.

#[global] Instance str_le_total : Total str_le.
Proof. intros a b. apply String.leb_total. Qed.

Lemma str_le_refl (a : string) : str_le a a.
Proof. by destruct (total str_le a a). Qed.

Lemma str_le_antisym (a b : string) : str_le a b -> str_le b a -> a = b.
Proof. apply String.leb_antisym. Qed.

#[global] Instance item_le_transitive {V : Type} : Transitive (@item_le V).
Proof. intros a b c. apply str_le_trans. Qed.

#[global] Instance item_le_total {V : Type} : Total (@item_le V).
Proof. intros a b. apply String.leb_total. Qed.

(** [int(str(n)) == n]. *)
Lemma int_str (n : Z) : int (str n) = Ok n.
Proof.
  unfold int, str.
  rewrite NilZero.isi.
  - by rewrite DecimalZ.of_to.
  - destruct n; simpl; try discriminate. intros E. injection E as E.
    by destruct (DecimalPos.Unsigned.to_uint_nonnil p).
  - destruct n; simpl; try discriminate. intros E. injection E as E.
    by destruct (DecimalPos.Unsigned.to_uint_nonnil p).
Qed.

Lemma str_inj (m n : Z) : str m = str n -> m = n.
Proof.
  intros E. pose proof (int_str m) as Hm. rewrite E, int_str in Hm. congruence.
Qed.

(** In a sorted list every later element is above every earlier one. *)
Lemma StronglySorted_lookup_le {A : Type} (R : relation A) (l : list A) i j x y :
  StronglySorted R l -> l !! i = Some x -> l !! j = Some y -> (i < j)%nat -> R x y.
Proof.
  intros Hs. revert i j. induction Hs as [|a l Hs IH Ha]; intros i j Hi Hj Hlt.
  - done.
  - destruct i as [|i], j as [|j]; simpl in *; try lia.
    + injection Hi as ->. rewrite Forall_forall in Ha. apply Ha.
      eapply list_elem_of_lookup_2. exact Hj.
    + eapply IH; eauto. lia.
Qed.

(** ** The default extruder *)

Lemma sorted_items_elem_of {V : Type} (d : gmap string V) (k : string) (v : V) :
  (k, v) ∈ sorted_items d <-> d !! k = Some v.
Proof.
  unfold sorted_items. rewrite merge_sort_Permutation. apply elem_of_map_to_list.
Qed.

(** What [new_default_position] computes: the least position, in the order
    of the keys, whose extruder is enabled; "0" when no extruder is. *)
Lemma new_default_position_spec (extruders : gmap string ExtruderStack) :
  let p := new_default_position extruders in
  (∃ e, extruders !! p = Some e ∧ es_isEnabled e = true
        ∧ ∀ q e', extruders !! q = Some e' -> es_isEnabled e' = true -> str_le p q)
  ∨ (p = "0" ∧ ∀ q e', extruders !! q = Some e' -> es_isEnabled e' = false).
Proof.
  unfold new_default_position.
  destruct (list_find _ (sorted_items extruders)) as [[i [p e]]|] eqn:Hfind; simpl.
  - left. apply list_find_Some in Hfind as (Hi & Hen & Hbefore). simpl in Hen.
    exists e. split; [|split; [done|]].
    + apply sorted_items_elem_of. eapply list_elem_of_lookup_2. exact Hi.
    + intros q e' Hq Hen'.
      apply sorted_items_elem_of, list_elem_of_lookup_1 in Hq as [j Hj].
      destruct (decide (j < i)%nat) as [Hlt|Hge].
      * by destruct (Hbefore j (q, e') Hj Hlt).
      * destruct (decide (j = i)) as [->|Hne].
        -- rewrite Hi in Hj. injection Hj as -> ->. apply str_le_refl.
        -- assert (StronglySorted item_le (sorted_items extruders)) as Hs
             by (apply StronglySorted_merge_sort; apply _).
           apply (StronglySorted_lookup_le _ _ i j (p, e) (q, e') Hs Hi Hj). lia.
  - right. split; [done|]. intros q e' Hq.
    apply list_find_None in Hfind. rewrite Forall_forall in Hfind.
    apply sorted_items_elem_of in Hq.
    specialize (Hfind _ Hq). simpl in Hfind. by destruct (es_isEnabled e').
Qed.

(** C10. After [updateDefaultExtruder] has run on a manager with a machine,
    the default extruder position is the least position key, in the order of
    the sorted keys, whose extruder is enabled, or "0" when no extruder is
    enabled; and [extruderChanged] is emitted by this call exactly when the
    position has changed. *)
Theorem updateDefaultExtruder_first_enabled (s : MachineManager) (g : GlobalStack) :
  _global_container_stack s = Some g ->
  let s' := updateDefaultExtruder s in
  let p := defaultExtruderPosition s' in
  ((∃ e, gs_extruders g !! p = Some e ∧ es_isEnabled e = true
         ∧ ∀ q e', gs_extruders g !! q = Some e' -> es_isEnabled e' = true ->
                   str_le p q)
   ∨ (p = "0" ∧ ∀ q e', gs_extruders g !! q = Some e' -> es_isEnabled e' = false))
  ∧ emitted s' =
    emitted s ++
      (if decide (p = defaultExtruderPosition s) then [] else [extruderChanged]).
Proof.
  intros Hg. unfold updateDefaultExtruder, defaultExtruderPosition. rewrite Hg.
  pose proof (new_default_position_spec (gs_extruders g)) as Hspec. simpl in Hspec.
  destruct (decide (new_default_position (gs_extruders g)
                    ≠ _default_extruder_position s)) as [Hne|Heq]; simpl.
  - split; [exact Hspec|]. by rewrite decide_False.
  - apply dec_stable in Heq. rewrite <- Heq. split; [exact Hspec|].
    rewrite decide_True by done. by rewrite app_nil_r.
Qed.

Lemma updateDefaultExtruder_first_enabled_witness :
  let s := set_default_extruder_position "1" Demo.s0 in
  _global_container_stack s = Some Demo.um3
  ∧ defaultExtruderPosition (updateDefaultExtruder s) = "0"
  ∧ emitted (updateDefaultExtruder s) = [extruderChanged].
Proof.
  split; [reflexivity|].
  pose proof (updateDefaultExtruder_first_enabled
                (set_default_extruder_position "1" Demo.s0) Demo.um3 eq_refl)
    as [_ Hemit].
  split; [reflexivity|]. exact Hemit.
Defined.

(** ** The extruder count *)

(** C9. When the machine's [machine_extruder_count] already is [n],
    [setActiveMachineExtruderCount(n)] returns at once: the manager, its
    stacks and containers, and the logs of notifications and notices are
    what they were. *)
Theorem setActiveMachineExtruderCount_same_count
    (s : MachineManager) (g : GlobalStack) (n : Z) :
  _global_container_stack s = Some g ->
  getProperty_value g "machine_extruder_count" = Some (IntValue n) ->
  setActiveMachineExtruderCount n s = Ok s.
Proof.
  intros Hg Hcount. unfold setActiveMachineExtruderCount. rewrite Hg.
  destruct (container_eqb _ _); [done|].
  by rewrite Hcount, bool_decide_eq_true_2.
Qed.

Lemma setActiveMachineExtruderCount_same_count_witness :
  setActiveMachineExtruderCount 2 Demo.s0 = Ok Demo.s0.
Proof.
  apply (setActiveMachineExtruderCount_same_count Demo.s0 Demo.um3 2);
    reflexivity.
Defined.

(** ** Quality groups *)

Lemma od_get_None {V : Type} (l : odict V) (k : string) :
  k ∉ l.*1 -> od_get l k = None.
Proof.
  induction l as [|[k' v] l IH]; simpl; [done|].
  rewrite not_elem_of_cons. intros [Hne Hnin].
  rewrite decide_False by done. by apply IH.
Qed.

Lemma od_get_Some {V : Type} (l : odict V) (k : string) (v : V) :
  NoDup l.*1 -> (k, v) ∈ l -> od_get l k = Some v.
Proof.
  induction l as [|[k' v'] l IH]; intros Hnd Hk; [by apply elem_of_nil in Hk|].
  simpl in *. apply NoDup_cons in Hnd as [Hnin Hnd].
  destruct (decide (k' = k)) as [->|Hne].
  - apply elem_of_cons in Hk as [Hk|Hk]; [congruence|].
    destruct Hnin. apply list_elem_of_fmap. by exists (k, v).
  - apply elem_of_cons in Hk as [Hk|Hk]; [congruence|]. by apply IH.
Qed.

Lemma od_get_map_to_list {V : Type} (m : gmap string V) (k : string) :
  od_get (map_to_list m) k = m !! k.
Proof.
  destruct (m !! k) as [v|] eqn:Hk.
  - apply od_get_Some; [apply NoDup_fst_map_to_list|].
    by apply elem_of_map_to_list.
  - apply od_get_None. intros Hin.
    apply list_elem_of_fmap in Hin as [[k' v] [-> Hin]].
    apply elem_of_map_to_list in Hin. simpl in Hk. congruence.
Qed.

Lemma apply_quality_node_eq b k n (m : gmap string ExtruderStack) :
  apply_quality_node b (k, n) m =
  match m !! k with
  | Some e => Ok (<[k := with_quality_node b n e]> m)
  | None => Raise KeyError
  end.
Proof. unfold apply_quality_node, getitem. simpl. by destruct (m !! k). Qed.

Lemma for_each_cons {A S : Type} (f : A -> S -> result S) a l s :
  for_each f (a :: l) s = f a s ≫= for_each f l.
Proof. done. Qed.

Lemma for_each_apply_quality_node b (l : list (string * ContainerNode))
    (m : gmap string ExtruderStack) :
  NoDup l.*1 ->
  (∀ it, it ∈ l -> is_Some (m !! it.1)) ->
  ∃ m', for_each (apply_quality_node b) l m = Ok m'
        ∧ ∀ p, m' !! p = match od_get l p with
                         | Some node => with_quality_node b node <$> m !! p
                         | None => m !! p
                         end.
Proof.
  revert m. induction l as [|[k n] l IH]; intros m Hnd Hin.
  - by exists m.
  - rewrite fmap_cons in Hnd. apply NoDup_cons in Hnd as [Hk Hnd].
    destruct (Hin (k, n)) as [e He]; [left|]. simpl in He, Hk.
    rewrite for_each_cons, apply_quality_node_eq, He.
    destruct (IH (<[k := with_quality_node b n e]> m) Hnd) as (m' & Hrun & Hm').
    { intros it Hit. destruct (decide (it.1 = k)) as [->|Hne].
      - rewrite lookup_insert_eq. eauto.
      - rewrite lookup_insert_ne by done. apply Hin. by right. }
    exists m'. split; [done|]. intros p. rewrite Hm'. simpl.
    destruct (decide (k = p)) as [->|Hne].
    + rewrite od_get_None by done. by rewrite lookup_insert_eq, He.
    + by rewrite lookup_insert_ne.
Qed.

Lemma for_each_apply_quality_node_Ok b (nodes : gmap string ContainerNode)
    (m : gmap string ExtruderStack) :
  (∀ p, is_Some (nodes !! p) -> is_Some (m !! p)) ->
  for_each (apply_quality_node b) (map_to_list nodes) m
  = Ok (quality_applied b nodes m).
Proof.
  intros Hdom.
  destruct (for_each_apply_quality_node b (map_to_list nodes) m) as (m' & -> & Hm').
  { apply NoDup_fst_map_to_list. }
  { intros [k n] Hit. apply elem_of_map_to_list in Hit. apply Hdom. simpl. eauto. }
  f_equal. apply map_eq. intros p. rewrite Hm', od_get_map_to_list.
  unfold quality_applied. rewrite map_lookup_imap.
  by destruct (m !! p) as [e|] eqn:He; simpl; destruct (nodes !! p) eqn:Hn.
Qed.

Lemma for_each_apply_quality_node_Raise b (l : list (string * ContainerNode))
    (m : gmap string ExtruderStack) :
  (∃ it, it ∈ l ∧ m !! it.1 = None) ->
  for_each (apply_quality_node b) l m = Raise KeyError.
Proof.
  revert m. induction l as [|[k n] l IH]; intros m (it & Hit & Hnone).
  - by apply elem_of_nil in Hit.
  - rewrite for_each_cons, apply_quality_node_eq.
    destruct (m !! k) as [e|] eqn:He; [|done].
    apply IH. apply elem_of_cons in Hit as [->|Hit]; [simpl in *; congruence|].
    exists it. split; [done|].
    destruct (decide (k = it.1)) as [->|Hne]; [congruence|].
    by rewrite lookup_insert_ne.
Qed.

Lemma with_quality_node_idemp b node e :
  with_quality_node b node (with_quality_node b node e) = with_quality_node b node e.
Proof. unfold with_quality_node. by destruct (cn_container node), b. Qed.

Lemma quality_applied_idemp b nodes m :
  quality_applied b nodes (quality_applied b nodes m) = quality_applied b nodes m.
Proof.
  apply map_eq. intros p. unfold quality_applied. rewrite !map_lookup_imap.
  destruct (m !! p) as [e|]; simpl; [|done].
  destruct (nodes !! p); [|done]. by rewrite with_quality_node_idemp.
Qed.

Lemma quality_applied_is_Some b nodes m p :
  is_Some (quality_applied b nodes m !! p) <-> is_Some (m !! p).
Proof.
  unfold quality_applied. rewrite map_lookup_imap.
  destruct (m !! p); simpl; split; intros [? ?]; eauto; done.
Qed.

Section QualityProofs.
Context `{Collaborators}.

Lemma forget_logs_emit sig s : forget_logs (emit sig s) = forget_logs s.
Proof. done. Qed.
Lemma forget_logs_show e s : forget_logs (show e s) = forget_logs s.
Proof. done. Qed.
Lemma forget_logs_idemp s : forget_logs (forget_logs s) = forget_logs s.
Proof. done. Qed.
Lemma forget_logs_dialog s :
  forget_logs (maybe_discardOrKeepProfileChanges s) = forget_logs s.
Proof. unfold maybe_discardOrKeepProfileChanges. by destruct (_ && _). Qed.

Lemma fmap_bind_Ok {A B} (f : A -> B) (r : result A) (a : A) :
  r = Ok a -> f <$> r = Ok (f a).
Proof. by intros ->. Qed.

(** The result of [_setQualityGroup], case by case. *)
Lemma _setQualityGroup_cases (quality_group : option QualityGroup) (b : bool)
    (s : MachineManager) :
  _setQualityGroup quality_group b s =
  match _global_container_stack s with
  | None => Ok s
  | Some g =>
    match quality_group with
    | None => Ok (_setEmptyQuality s)
    | Some qg =>
      match getContainer (qg_node_for_global qg) with
      | None => Ok s
      | Some c =>
        if bool_decide (map_Forall (fun _ node => is_Some (cn_container node))
                          (qg_nodes_for_extruders qg)) then
          if bool_decide (map_Forall (fun p _ => is_Some (gs_extruders g !! p))
                            (qg_nodes_for_extruders qg)) then
            let s1 := set_current_quality_group (Some qg) s in
            let s2 := if b then set_current_quality_changes_group None s1 else s1 in
            let g1 := set_gs_quality c g in
            let g2 := if b then set_gs_qualityChanges empty_quality_changes_container g1
                      else g1 in
            Ok (emit activeQualityChangesGroupChanged
                  (emit activeQualityGroupChanged
                     (with_global_stack
                        (set_gs_extruders
                           (quality_applied b (qg_nodes_for_extruders qg)
                              (gs_extruders g)) g2) s2)))
          else Raise KeyError
        else Ok s
      end
    end
  end.
Proof.
  unfold _setQualityGroup.
  destruct (_global_container_stack s) as [g|]; [|done].
  destruct quality_group as [qg|]; [|done].
  destruct (getContainer (qg_node_for_global qg)) as [c|]; [|done].
  case_bool_decide; [|done].
  assert (∀ g', gs_extruders (if b then set_gs_qualityChanges
                                empty_quality_changes_container g' else g')
                = gs_extruders g') as -> by (by destruct b).
  simpl.
  case_bool_decide as Hdom.
  - rewrite for_each_apply_quality_node_Ok; [done|].
    intros p [n Hn]. by apply (Hdom p n).
  - rewrite for_each_apply_quality_node_Raise; [done|].
    apply map_not_Forall in Hdom as (p & n & Hn & Hnp); [|apply _].
    exists (p, n). split; [by apply elem_of_map_to_list|].
    simpl. by apply eq_None_not_Some.
Qed.

(** The result of [_setQualityGroup], up to the logs, depends on the manager
    up to the logs only. *)
Lemma _setQualityGroup_forget_logs quality_group b s :
  forget_logs <$> _setQualityGroup quality_group b (forget_logs s)
  = forget_logs <$> _setQualityGroup quality_group b s.
Proof.
  rewrite !_setQualityGroup_cases. simpl.
  destruct (_global_container_stack s) as [g|] eqn:Hg; [|done].
  destruct quality_group as [qg|].
  - destruct (getContainer _); [|done].
    repeat case_bool_decide; try done. by destruct b.
  - unfold _setEmptyQuality. simpl. by rewrite Hg.
Qed.

(** Applying a quality group a second time changes nothing but the logs. *)
Lemma _setQualityGroup_idemp quality_group b s s1 :
  _setQualityGroup quality_group b s = Ok s1 ->
  forget_logs <$> _setQualityGroup quality_group b s1 = Ok (forget_logs s1).
Proof.
  rewrite !_setQualityGroup_cases.
  destruct (_global_container_stack s) as [g|] eqn:Hg.
  2:{ intros [= <-]. by rewrite Hg. }
  destruct quality_group as [qg|].
  - destruct (getContainer _) as [c|] eqn:Hc.
    2:{ intros [= <-]. by rewrite Hg. }
    case_bool_decide as Hres.
    2:{ intros [= <-]. by rewrite Hg. }
    case_bool_decide as Hdom; [|done].
    intros [= <-].
    destruct b; simpl;
      (rewrite bool_decide_eq_true_2;
       [ simpl; by rewrite quality_applied_idemp
       | intros p n Hn; apply quality_applied_is_Some; by apply (Hdom p n) ]).
  - intros [= <-]. unfold _setEmptyQuality. rewrite Hg. simpl.
    unfold forget_logs, with_global_stack; simpl. do 2 f_equal.
    unfold set_gs_extruders, set_gs_qualityChanges, set_gs_quality; simpl.
    do 2 f_equal. rewrite <- map_fmap_compose. by apply map_fmap_ext.
Qed.

Lemma fmap_Ok_inv {A B} (f : A -> B) (r : result A) (b : B) :
  f <$> r = Ok b -> ∃ a, r = Ok a ∧ f a = b.
Proof. destruct r as [a|e]; [|done]. intros [= <-]. by exists a. Qed.

Lemma is_other_stack_forget_logs gs s s' :
  forget_logs s' = forget_logs s -> is_other_stack gs s' = is_other_stack gs s.
Proof.
  intros E. unfold is_other_stack.
  by replace (_global_container_stack s') with (_global_container_stack s)
    by (by injection E).
Qed.

Lemma _setQualityGroup_global_id quality_group b s s' :
  _setQualityGroup quality_group b s = Ok s' ->
  gs_id <$> _global_container_stack s' = gs_id <$> _global_container_stack s.
Proof.
  rewrite _setQualityGroup_cases.
  destruct (_global_container_stack s) as [g|] eqn:Hg.
  2:{ intros [= <-]. by rewrite Hg. }
  destruct quality_group as [qg|].
  - destruct (getContainer _).
    2:{ intros [= <-]. by rewrite Hg. }
    repeat case_bool_decide; intros [= <-]; try done; by rewrite ?Hg; destruct b.
  - intros [= <-]. unfold _setEmptyQuality. by rewrite Hg.
Qed.

Lemma is_other_stack_global_id gs s s' :
  gs_id <$> _global_container_stack s' = gs_id <$> _global_container_stack s ->
  is_other_stack gs s' = is_other_stack gs s.
Proof. intros E. unfold is_other_stack. by rewrite E. Qed.

Lemma store_stack_idemp m s : store_stack m (store_stack m s) = store_stack m s.
Proof.
  unfold store_stack. simpl.
  assert ((λ m' : GlobalStack, if decide (gs_id m' = gs_id m) then m else m') <$>
            ((λ m' : GlobalStack, if decide (gs_id m' = gs_id m) then m else m') <$>
               reg_machines (registry s))
          = (λ m' : GlobalStack, if decide (gs_id m' = gs_id m) then m else m') <$>
               reg_machines (registry s)) as E.
  { rewrite <- list_fmap_compose. apply list_fmap_ext. intros i m' Hi. simpl.
    destruct (decide (gs_id m' = gs_id m)); [by rewrite decide_True|by rewrite decide_False]. }
  destruct (_global_container_stack s) as [g|] eqn:Hg; simpl.
  - destruct (decide (gs_id g = gs_id m)); simpl.
    + rewrite decide_True by done. unfold with_global_stack, set_global_container_stack, set_registry, set_reg_machines; simpl. by rewrite E.
    + rewrite Hg. simpl. rewrite decide_False by done.
      unfold set_registry, set_reg_machines; simpl. by rewrite E.
  - rewrite Hg. unfold set_registry, set_reg_machines; simpl. by rewrite E.
Qed.

Lemma is_other_stack_store gs other m s :
  is_other_stack gs s = Some other -> gs_id m = gs_id other ->
  is_other_stack gs (store_stack m s) = Some other.
Proof.
  unfold is_other_stack. destruct gs as [o|]; [|done].
  case_bool_decide as Hid; [done|]. intros [= ->] Hm.
  unfold store_stack. simpl.
  destruct (_global_container_stack s) as [g|] eqn:Hg; simpl.
  - rewrite decide_False.
    + simpl. rewrite Hg. by rewrite bool_decide_eq_false_2.
    + intros E. apply Hid. simpl. congruence.
  - by rewrite Hg.
Qed.

(** C7. Calling [setQualityGroup(g)] twice in succession leaves the manager
    as one call leaves it, the logs of notifications apart: the same stacks
    with the same quality and quality-changes containers, the same current
    groups (and the same exception when the call raises). *)
Theorem setQualityGroup_idempotent
    (quality_group : option QualityGroup) (no_dialog : bool)
    (global_stack : option GlobalStack) (s : MachineManager) :
  forget_logs <$> (setQualityGroup quality_group no_dialog global_stack s
                   ≫= setQualityGroup quality_group no_dialog global_stack)
  = forget_logs <$> setQualityGroup quality_group no_dialog global_stack s.
Proof.
  unfold setQualityGroup at 2 3.
  destruct (is_other_stack global_stack s) as [other|] eqn:Hother.
  - unfold setQualityGroup_other.
    destruct quality_group as [qg|]; simpl.
    2:{ unfold setQualityGroup. by rewrite Hother. }
    destruct (qg_node_for_global qg) as [node|] eqn:Hnode; simpl.
    2:{ unfold setQualityGroup. rewrite Hother. simpl. by rewrite Hnode. }
    destruct (resolved node) as [c|e] eqn:Hc; simpl; [|done].
    unfold setQualityGroup.
    erewrite is_other_stack_store by done.
    simpl. rewrite Hnode. simpl. rewrite Hc. simpl.
    by rewrite store_stack_idemp.
  - destruct (_setQualityGroup quality_group true (emit blurSettings s))
      as [s1|e] eqn:Hrun; simpl; [|done].
    set (s1' := if no_dialog then s1 else maybe_discardOrKeepProfileChanges s1).
    assert (forget_logs s1' = forget_logs s1) as Hs1'.
    { subst s1'. destruct no_dialog; [done|apply forget_logs_dialog]. }
    unfold setQualityGroup.
    rewrite (is_other_stack_global_id global_stack s s1').
    2:{ transitivity (gs_id <$> _global_container_stack s1).
        - by injection Hs1' as ->.
        - by rewrite (_setQualityGroup_global_id _ _ _ _ Hrun). }
    rewrite Hother.
    pose proof (_setQualityGroup_idemp _ _ _ _ Hrun) as Hagain.
    rewrite <- _setQualityGroup_forget_logs in Hagain.
    replace (forget_logs s1) with (forget_logs (emit blurSettings s1')) in Hagain at 1
      by (by rewrite forget_logs_emit).
    rewrite _setQualityGroup_forget_logs in Hagain.
    apply fmap_Ok_inv in Hagain as (s2 & -> & Hs2). simpl.
    rewrite Hs1', <- Hs2. f_equal.
    destruct no_dialog; [done|apply forget_logs_dialog].
Qed.

End QualityProofs.

Section QualityClaims.
Context `{Collaborators}.

(** C5 (amended). On the active machine, [setQualityGroup] with a group whose
    global node is missing or does not resolve completes and changes
    nothing but the logs; with a null group it is not rejected: it empties the
    quality and quality-changes containers of every stack and clears both
    current groups, as [_setEmptyQuality] does. With the stack of another
    machine, a null group or a group without global node changes nothing. *)
Theorem setQualityGroup_rejects_unresolved
    (s : MachineManager) (g : GlobalStack) (no_dialog : bool)
    (global_stack : option GlobalStack) :
  _global_container_stack s = Some g ->
  (is_other_stack global_stack s = None ->
   (∀ qg, getContainer (qg_node_for_global qg) = None ->
      ∃ s', setQualityGroup (Some qg) no_dialog global_stack s = Ok s'
            ∧ forget_logs s' = forget_logs s)
   ∧ (∃ s', setQualityGroup None no_dialog global_stack s = Ok s'
            ∧ forget_logs s' = forget_logs (_setEmptyQuality s)))
  ∧ (∀ other quality_group,
       is_other_stack global_stack s = Some other ->
       quality_group ≫= qg_node_for_global = None ->
       setQualityGroup quality_group no_dialog global_stack s = Ok s).
Proof.
  intros Hg. split.
  - intros Hactive. split.
    + intros qg Hqg. unfold setQualityGroup. rewrite Hactive.
      rewrite _setQualityGroup_cases. simpl. rewrite Hg, Hqg. simpl.
      eexists. split; [done|].
      destruct no_dialog; [done|]. by rewrite forget_logs_dialog.
    + unfold setQualityGroup. rewrite Hactive.
      rewrite _setQualityGroup_cases. simpl. rewrite Hg. simpl.
      eexists. split; [done|].
      assert (forget_logs (_setEmptyQuality (emit blurSettings s))
              = forget_logs (_setEmptyQuality s)) as E.
      { unfold _setEmptyQuality. simpl. by rewrite Hg. }
      destruct no_dialog; [done|]. by rewrite forget_logs_dialog.
  - intros other quality_group Hother Hnode. unfold setQualityGroup.
    rewrite Hother. unfold setQualityGroup_other.
    destruct quality_group as [qg|]; [|done]. simpl in Hnode. by rewrite Hnode.
Qed.

(** C1 (amended). After any reconciliation operation, exactly one of these
    holds: only a quality group is current; a quality-changes group is
    current (with or without the quality group it derives from); or
    [hasNotSupportedQuality] is true, which is the case exactly when neither
    group is current. *)
Theorem quality_state_after_reconciliation
    (op : Reconciliation) (s s' : MachineManager) :
  reconcile op s = Ok s' ->
  exactly_one
    (quality_group_set s' && negb (quality_changes_group_set s'))
    (quality_changes_group_set s')
    (hasNotSupportedQuality s') = true
  ∧ (hasNotSupportedQuality s' = true
     <-> _current_quality_group s' = None
         ∧ _current_quality_changes_group s' = None).
Proof.
  intros _. unfold quality_group_set, quality_changes_group_set, hasNotSupportedQuality.
  destruct (_current_quality_group s'), (_current_quality_changes_group s');
    simpl; split; try done; split; try done; by intros [? ?].
Qed.
End QualityClaims.

Lemma setQualityGroup_rejects_unresolved_witness :
  ∃ s', @setQualityGroup Demo.usual
          (Some (mkQualityGroup "fine" "fine" (Some (Demo.dangling None)) ∅ true))
          false None Demo.s0 = Ok s'
        ∧ forget_logs s' = forget_logs Demo.s0.
Proof.
  apply (setQualityGroup_rejects_unresolved Demo.s0 Demo.um3 false None eq_refl);
    reflexivity.
Defined.

(** C5, as stated, fails for the null group: on the active machine the call
    clears the selection. *)
Lemma setQualityGroup_null_clears :
  ∃ s', @setQualityGroup Demo.usual None false None Demo.s0 = Ok s'
        ∧ _current_quality_group Demo.s0 = Some Demo.normal
        ∧ _current_quality_group s' = None
        ∧ (gs_quality <$> _global_container_stack Demo.s0)
            = Some (Demo.quality "um3_global_normal" "normal")
        ∧ (gs_quality <$> _global_container_stack s') = Some empty_quality_container.
Proof. eexists. repeat split; vm_compute; reflexivity. Qed.

Lemma quality_state_after_reconciliation_witness :
  ∃ s', @reconcile Demo.usual (SetQualityChangesGroup Demo.custom false) Demo.s0 = Ok s'
        ∧ exactly_one
            (quality_group_set s' && negb (quality_changes_group_set s'))
            (quality_changes_group_set s') (hasNotSupportedQuality s') = true.
Proof.
  eexists. split; [reflexivity|].
  apply (@quality_state_after_reconciliation Demo.usual
           (SetQualityChangesGroup Demo.custom false) Demo.s0 _ eq_refl).
Defined.

(** C1, as stated, fails: after a custom profile derived from "normal" has
    been selected, the quality group and the quality-changes group are both
    current. *)
Lemma quality_and_quality_changes_together :
  ∃ s', @reconcile Demo.usual (SetQualityChangesGroup Demo.custom false) Demo.s0 = Ok s'
        ∧ _current_quality_group s' = Some Demo.normal
        ∧ _current_quality_changes_group s' = Some Demo.custom
        ∧ hasNotSupportedQuality s' = false
        ∧ exactly_one (quality_group_set s') (quality_changes_group_set s')
            (hasNotSupportedQuality s') = false.
Proof. eexists. repeat split; vm_compute; reflexivity. Qed.

(** ** Quality after a change of material *)

Lemma od_get_is_Some {V : Type} (l : odict V) (k : string) :
  k ∈ l.*1 -> is_Some (od_get l k).
Proof.
  induction l as [|[k' v] l IH]; simpl; [by intros ?%elem_of_nil|].
  destruct (decide (k' = k)); [eauto|].
  rewrite elem_of_cons. intros [?|?]; [congruence|by apply IH].
Qed.

Lemma available_quality_types_known (groups : odict QualityGroup) (qt : string) :
  qt ∈ available_quality_types groups -> qt ∈ groups.*1.
Proof.
  unfold available_quality_types. rewrite !list_elem_of_fmap.
  intros (it & -> & Hit). exists it. split; [done|].
  by apply list_elem_of_filter in Hit as [_ ?].
Qed.

(** The head of [sorted(l)] is the least element of [l]. *)
Lemma sorted_head (l : list string) (q : string) (rest : list string) :
  sorted l = q :: rest -> q ∈ l ∧ ∀ x, x ∈ l -> str_le q x.
Proof.
  intros Hs.
  assert (StronglySorted str_le (sorted l)) as Hss
    by (apply StronglySorted_merge_sort; apply _).
  assert (sorted l ≡ₚ l) as Hp by apply merge_sort_Permutation.
  rewrite Hs in Hss, Hp. split.
  - rewrite <- Hp. by left.
  - intros x Hx. rewrite <- Hp in Hx. apply elem_of_cons in Hx as [->|Hx].
    + apply str_le_refl.
    + apply StronglySorted_inv in Hss as [_ Hall].
      rewrite Forall_forall in Hall. by apply Hall.
Qed.

Lemma sorted_nil (l : list string) : sorted l = [] -> l = [].
Proof.
  intros Hs. apply Permutation_nil_r. rewrite <- Hs.
  symmetry. apply merge_sort_Permutation.
Qed.

(** What [replacement_quality_type] picks. *)
Lemma replacement_quality_type_spec (preferred : option string) (available : list string) :
  available ≠ [] ->
  ∃ quality_type,
    replacement_quality_type preferred available = Ok quality_type
    ∧ quality_type ∈ available
    ∧ (∀ p, preferred = Some p -> p ∈ available -> quality_type = p)
    ∧ ((∀ p, preferred = Some p -> p ∉ available) ->
       ∀ q, q ∈ available -> str_le quality_type q).
Proof.
  intros Hne. unfold replacement_quality_type.
  destruct (sorted available) as [|q rest] eqn:Hs.
  { by apply sorted_nil in Hs. }
  apply sorted_head in Hs as [Hq Hleast].
  destruct preferred as [p|].
  - case_bool_decide as Hp.
    + exists p. repeat split; [done| |].
      * by intros ? [= <-].
      * intros Hnot. by destruct (Hnot p).
    + exists q. repeat split; [done| |done].
      intros ? [= <-] ?. done.
  - exists q. repeat split; done.
Qed.

Section QualityReplacement.
Context `{Collaborators}.

(** C2 (amended). With a machine whose enabled extruders carry compatible
    materials, a non-empty set of available quality types and a current
    quality type that is not among them, [_updateQualityWithMaterial] picks
    the preferred quality type of the stack when it is available and the
    least available quality type in the order of strings otherwise, and hands
    the group of that type to [_setQualityGroup] with the quality changes to
    be reset. When the containers of that group all resolve and its positions
    are extruders of the machine, the call completes without an exception:
    the group is the current quality group, no quality-changes group is
    current, and the stacks named by the group carry its containers and
    empty quality changes. *)
Theorem _updateQualityWithMaterial_replacement (s : MachineManager) (g : GlobalStack) :
  _global_container_stack s = Some g ->
  activeMaterialsCompatible s = true ->
  let available := available_quality_types (getQualityGroups g) in
  available ≠ [] ->
  (∀ qg, _current_quality_group s = Some qg -> qg_quality_type qg ∉ available) ->
  ∃ quality_type quality_group,
    quality_type ∈ available
    ∧ (∀ p, md_preferred_quality_type (gs_meta g) = Some p -> p ∈ available ->
            quality_type = p)
    ∧ ((∀ p, md_preferred_quality_type (gs_meta g) = Some p -> p ∉ available) ->
       ∀ q, q ∈ available -> str_le quality_type q)
    ∧ od_get (getQualityGroups g) quality_type = Some quality_group
    ∧ _updateQualityWithMaterial s = _setQualityGroup (Some quality_group) true s
    ∧ (∀ c,
         getContainer (qg_node_for_global quality_group) = Some c ->
         map_Forall (fun _ node => is_Some (cn_container node))
           (qg_nodes_for_extruders quality_group) ->
         map_Forall (fun p _ => is_Some (gs_extruders g !! p))
           (qg_nodes_for_extruders quality_group) ->
         ∃ s' g',
           _updateQualityWithMaterial s = Ok s'
           ∧ _global_container_stack s' = Some g'
           ∧ _current_quality_group s' = Some quality_group
           ∧ _current_quality_changes_group s' = None
           ∧ gs_quality g' = c
           ∧ gs_qualityChanges g' = empty_quality_changes_container
           ∧ ∀ p node,
               qg_nodes_for_extruders quality_group !! p = Some node ->
               ∃ e, gs_extruders g' !! p = Some e
                    ∧ cn_container node = Some (es_quality e)
                    ∧ es_qualityChanges e = empty_quality_changes_container).
Proof.
  intros Hg Hcompat available Hne Hcurrent.
  destruct (replacement_quality_type_spec
              (md_preferred_quality_type (gs_meta g)) available Hne)
    as (quality_type & Hpick & Hin & Hpref & Hleast).
  destruct (od_get_is_Some (getQualityGroups g) quality_type) as [qg Hqg].
  { by apply available_quality_types_known. }
  exists quality_type, qg.
  assert (_updateQualityWithMaterial s = _setQualityGroup (Some qg) true s) as Hrun.
  { unfold _updateQualityWithMaterial. rewrite Hg, Hcompat. simpl.
    fold available. rewrite bool_decide_eq_false_2 by done.
    rewrite Hpick. simpl. unfold od_getitem. rewrite Hqg. simpl.
    destruct (_current_quality_group s) as [cur|] eqn:Hcur; simpl; [|done].
    rewrite bool_decide_eq_false_2; [done|]. by apply Hcurrent. }
  repeat split; try done.
  intros c Hc Hres Hknown. rewrite Hrun, _setQualityGroup_cases, Hg, Hc.
  rewrite !bool_decide_eq_true_2 by done.
  eexists _, _. repeat split.
  intros p node Hnode. unfold quality_applied. simpl.
  rewrite map_lookup_imap. destruct (Hknown p node Hnode) as [e He].
  rewrite He. simpl. rewrite Hnode. eexists. split; [done|].
  unfold with_quality_node. destruct (Hres p node Hnode) as [c' Hc'].
  by rewrite Hc'.
Qed.
End QualityReplacement.

Lemma _updateQualityWithMaterial_replacement_witness :
  ∃ quality_type quality_group,
    od_get (@getQualityGroups (Demo.offering Demo.draft) Demo.um3) quality_type
    = Some quality_group
    ∧ @_updateQualityWithMaterial (Demo.offering Demo.draft) Demo.s0
      = _setQualityGroup (Some quality_group) true Demo.s0.
Proof.
  destruct (@_updateQualityWithMaterial_replacement (Demo.offering Demo.draft)
              Demo.s0 Demo.um3 eq_refl eq_refl)
    as (quality_type & quality_group & _ & _ & _ & Hget & Hrun & _).
  - vm_compute. discriminate.
  - intros qg [= <-]. vm_compute. by intros [[=]|?%elem_of_nil]%elem_of_cons.
  - by exists quality_type, quality_group.
Defined.

(** C2, as stated, fails when the group picked has a container that does not
    resolve (the call returns and "normal" stays current) and when it names
    an extruder the machine does not have (the call raises). *)
Lemma _updateQualityWithMaterial_not_applied :
  activeMaterialsCompatible Demo.s0 = true
  ∧ available_quality_types
      (@getQualityGroups (Demo.offering Demo.draft_dangling) Demo.um3) = ["draft"]
  ∧ qg_quality_type <$> _current_quality_group Demo.s0 = Some "normal"
  ∧ @_updateQualityWithMaterial (Demo.offering Demo.draft_dangling) Demo.s0
    = Ok Demo.s0
  ∧ @_updateQualityWithMaterial (Demo.offering Demo.draft_third_extruder) Demo.s0
    = Raise KeyError.
Proof. repeat split; vm_compute; reflexivity. Qed.

(** ** Materials after a change of variant *)

Lemma result_bind_Ok {A} (r : result A) : r ≫= Ok = r.
Proof. by destruct r. Qed.

Lemma set_es_material_id e : set_es_material (es_material e) e = e.
Proof. by destruct e. Qed.

Lemma set_es_material_twice c c' e :
  set_es_material c (set_es_material c' e) = set_es_material c e.
Proof. done. Qed.

Lemma set_gs_extruders_id g : set_gs_extruders (gs_extruders g) g = g.
Proof. by destruct g. Qed.

Section MaterialProofs.
Context `{Collaborators}.

Lemma _setMaterial_Ok position container_node s g extruder cached :
  _global_container_stack s = Some g ->
  gs_extruders g !! position = Some extruder ->
  _current_root_material_id s !! position = Some cached ->
  ∃ s',
    _setMaterial position container_node s = Ok s'
    ∧ _global_container_stack s' =
      Some (set_gs_extruders
              (<[position := set_es_material (node_material container_node) extruder]>
                 (gs_extruders g)) g)
    ∧ is_Some (_current_root_material_id s' !! position).
Proof.
  intros Hg He Hc. unfold _setMaterial, getitem. rewrite Hg, He. simpl.
  assert (∃ c r, (match container_node ≫= (λ n, pair n <$> cn_container n) with
                  | Some (n, c) => (c, cn_base_file n)
                  | None => (empty_material_container, None)
                  end) = (c, r) ∧ c = node_material container_node)
    as (c & r & -> & ->).
  { unfold node_material. destruct container_node as [n|]; simpl; [|by eauto].
    destruct (cn_container n); simpl; eauto. }
  rewrite Hc. simpl.
  destruct (decide (r ≠ cached)).
  - eexists. split; [done|]. simpl. split; [done|].
    rewrite lookup_fmap, lookup_insert_eq. simpl. eauto.
  - eexists. split; [done|]. simpl. split; [done|]. eauto.
Qed.

Lemma updateMaterialWithVariant_Some position s :
  updateMaterialWithVariant (Some position) s =
  match _global_container_stack s with
  | None => Ok s
  | Some g => updateMaterialWithVariant_item (buildplate_name g) position s
  end.
Proof.
  unfold updateMaterialWithVariant. destruct (_global_container_stack s); [|done].
  simpl. apply result_bind_Ok.
Qed.

(** [updateMaterialWithVariant(position)] on an extruder of the machine that
    has an entry in the cache of root materials. *)
Lemma updateMaterialWithVariant_result position s g extruder :
  _global_container_stack s = Some g ->
  gs_extruders g !! position = Some extruder ->
  is_Some (_current_root_material_id s !! position) ->
  ∃ s',
    updateMaterialWithVariant (Some position) s = Ok s'
    ∧ _global_container_stack s' =
      Some (set_gs_extruders
              (<[position :=
                   set_es_material
                     (material_after
                        (candidate_materials g (buildplate_name g) extruder)
                        (default_material g position extruder)
                        (es_material extruder)) extruder]> (gs_extruders g)) g)
    ∧ is_Some (_current_root_material_id s' !! position).
Proof.
  intros Hg He [cached Hc]. rewrite updateMaterialWithVariant_Some, Hg.
  unfold updateMaterialWithVariant_item, getitem, material_after.
  rewrite Hg, He. simpl.
  destruct (decide (candidate_materials g (buildplate_name g) extruder = ∅)).
  { by apply (_setMaterial_Ok position None s g extruder cached). }
  destruct (c_base_file (es_material extruder) ≫= _) as [node|].
  { by apply (_setMaterial_Ok position (Some node) s g extruder cached). }
  destruct (default_material g position extruder) as [node|].
  { by apply (_setMaterial_Ok position (Some node) s g extruder cached). }
  exists s. split; [done|]. split; [|by eauto].
  rewrite set_es_material_id, insert_id by done. by rewrite set_gs_extruders_id.
Qed.

(** C4 (amended). For a position that names an extruder of the active
    machine and has an entry in the cache of root materials,
    [updateMaterialWithVariant(position)] completes and follows this policy:
    (1) without candidate materials the material becomes the empty sentinel;
    (2) when the family of the current material is among the candidates, the
        material becomes the container of the candidate of that family (the
        empty sentinel if that node does not resolve);
    (3) otherwise it becomes the container of the catalog's default material
        (the empty sentinel if that node does not resolve), and when the
        catalog has no default the material is left as it was. *)
Theorem updateMaterialWithVariant_policy
    (position : string) (s : MachineManager) (g : GlobalStack)
    (extruder : ExtruderStack) :
  _global_container_stack s = Some g ->
  gs_extruders g !! position = Some extruder ->
  is_Some (_current_root_material_id s !! position) ->
  let candidates := candidate_materials g (buildplate_name g) extruder in
  ∃ s' g' extruder',
    updateMaterialWithVariant (Some position) s = Ok s'
    ∧ _global_container_stack s' = Some g'
    ∧ gs_extruders g' !! position = Some extruder'
    ∧ (candidates = ∅ -> es_material extruder' = empty_material_container)
    ∧ (∀ family node,
         c_base_file (es_material extruder) = Some family ->
         candidates !! family = Some node ->
         es_material extruder'
         = default empty_material_container (cn_container node))
    ∧ (candidates ≠ ∅ ->
       c_base_file (es_material extruder) ≫= (fun b => candidates !! b) = None ->
       match default_material g position extruder with
       | Some node =>
         es_material extruder'
         = default empty_material_container (cn_container node)
       | None => es_material extruder' = es_material extruder
       end).
Proof.
  intros Hg He Hc candidates.
  destruct (updateMaterialWithVariant_result position s g extruder Hg He Hc)
    as (s' & Hrun & Hg' & _).
  eexists s', _, _. split; [done|]. split; [done|]. simpl.
  split; [by rewrite lookup_insert_eq|]. simpl.
  unfold material_after. fold candidates. repeat split.
  - intros ->. by rewrite decide_True.
  - intros family node Hfam Hnode. rewrite decide_False.
    + rewrite Hfam. simpl. by rewrite Hnode.
    + intros E. by rewrite E in Hnode.
  - intros Hne Hnot. rewrite decide_False by done. rewrite Hnot.
    by destruct (default_material g position extruder).
Qed.

Lemma material_after_idemp candidates default_node current :
  coherent_answers candidates default_node ->
  material_after candidates default_node
    (material_after candidates default_node current)
  = material_after candidates default_node current.
Proof.
  intros [Hcand Hdef]. unfold material_after.
  destruct (decide (candidates = ∅)); [done|].
  destruct (c_base_file current ≫= _) as [node|] eqn:Hcur.
  - destruct (c_base_file current) as [b|]; [|done]. simpl in Hcur.
    pose proof (Hcand b node Hcur) as Hc. simpl in Hc.
    destruct (cn_container node) as [c|] eqn:Hn; [|done].
    injection Hc as Hb.
    unfold node_material. simpl. rewrite Hn. simpl. rewrite Hb. simpl.
    rewrite Hcur. simpl. by rewrite Hn.
  - destruct default_node as [node|]; [|by rewrite Hcur].
    unfold node_material. simpl in *.
    destruct (cn_container node) as [c|] eqn:Hc; simpl; [|done].
    destruct (c_base_file c) as [k|] eqn:Hk; simpl in *; [|done].
    destruct (candidates !! k) as [node'|] eqn:Hk'; [|done].
    by rewrite Hdef.
Qed.

(** C8 (amended). When the answers of the catalog for the position are
    coherent, and are the same in the second run as in the first, running
    [updateMaterialWithVariant(position)] a second time leaves the global
    stack, hence the material of every extruder, as the first run left it. *)
Theorem updateMaterialWithVariant_twice
    (position : string) (s : MachineManager) (g : GlobalStack)
    (extruder : ExtruderStack) :
  _global_container_stack s = Some g ->
  gs_extruders g !! position = Some extruder ->
  is_Some (_current_root_material_id s !! position) ->
  let candidates := candidate_materials g (buildplate_name g) extruder in
  let default_node := default_material g position extruder in
  coherent_answers candidates default_node ->
  ∃ s1 g1 extruder1,
    updateMaterialWithVariant (Some position) s = Ok s1
    ∧ _global_container_stack s1 = Some g1
    ∧ gs_extruders g1 !! position = Some extruder1
    ∧ (candidate_materials g1 (buildplate_name g1) extruder1 = candidates ->
       default_material g1 position extruder1 = default_node ->
       ∃ s2,
         updateMaterialWithVariant (Some position) s1 = Ok s2
         ∧ _global_container_stack s2 = Some g1).
Proof.
  intros Hg He Hc candidates default_node Hcoh.
  destruct (updateMaterialWithVariant_result position s g extruder Hg He Hc)
    as (s1 & Hrun1 & Hg1 & Hc1).
  eexists s1, _, _. split; [done|]. split; [done|]. simpl.
  split; [by rewrite lookup_insert_eq|].
  intros Hcand Hdef.
  edestruct (updateMaterialWithVariant_result position s1) as (s2 & Hrun2 & Hg2 & _);
    [exact Hg1| |exact Hc1|].
  { simpl. apply lookup_insert_eq. }
  exists s2. split; [done|]. rewrite Hg2. f_equal.
  rewrite Hcand, Hdef. simpl. fold candidates default_node.
  rewrite material_after_idemp by done.
  by rewrite insert_insert_eq.
Qed.
End MaterialProofs.

Lemma updateMaterialWithVariant_policy_witness :
  ∃ s' g' extruder',
    @updateMaterialWithVariant Demo.usual (Some "0") Demo.s0 = Ok s'
    ∧ _global_container_stack s' = Some g'
    ∧ gs_extruders g' !! "0" = Some extruder'.
Proof.
  destruct (@updateMaterialWithVariant_policy Demo.usual "0" Demo.s0 Demo.um3
              (Demo.extruder "0" Demo.pla true))
    as (s' & g' & extruder' & Hrun & Hg & He & _).
  - reflexivity.
  - vm_compute. reflexivity.
  - vm_compute. eauto.
  - exists s', g', extruder'. exact (conj Hrun (conj Hg He)).
Defined.

(** C4, as stated, fails in its last case: PLA is loaded, the catalog offers
    ABS only and has no default; the material stays PLA, it does not become
    the empty sentinel. *)
Lemma updateMaterialWithVariant_keeps_material :
  Demo.material_at "0" Demo.s0 = Some Demo.pla
  ∧ Demo.material_at "0"
      <$> @updateMaterialWithVariant Demo.abs_only (Some "0") Demo.s0
    = Ok (Some Demo.pla)
  ∧ Demo.pla ≠ empty_material_container.
Proof.
  split; [vm_compute; reflexivity|]. split; [vm_compute; reflexivity|].
  intros E. by apply (f_equal c_id) in E.
Qed.

Lemma updateMaterialWithVariant_twice_witness :
  ∃ s1 g1 extruder1,
    @updateMaterialWithVariant Demo.usual (Some "0") Demo.s0 = Ok s1
    ∧ _global_container_stack s1 = Some g1
    ∧ gs_extruders g1 !! "0" = Some extruder1.
Proof.
  destruct (@updateMaterialWithVariant_twice Demo.usual "0" Demo.s0 Demo.um3
              (Demo.extruder "0" Demo.pla true))
    as (s1 & g1 & extruder1 & Hrun & Hg & He & _).
  - reflexivity.
  - vm_compute. reflexivity.
  - vm_compute. eauto.
  - split; [|vm_compute; reflexivity].
    apply (bool_decide_unpack _). vm_compute. exact I.
  - exists s1, g1, extruder1. exact (conj Hrun (conj Hg He)).
Defined.

(** C8, as stated, fails: PLA is loaded and is the only candidate, but its
    node does not resolve, and the default is ABS. The first run empties the
    material, the second run, with the same answers, selects ABS. *)
Lemma updateMaterialWithVariant_twice_differs :
  (s1 ← @updateMaterialWithVariant Demo.pla_gone (Some "0") Demo.s0;
   s2 ← @updateMaterialWithVariant Demo.pla_gone (Some "0") s1;
   Ok (Demo.material_at "0" s1, Demo.material_at "0" s2))
  = Ok (Some empty_material_container, Some Demo.abs).
Proof. vm_compute. reflexivity. Qed.

(** ** What the reconciling operations leave alone *)

#[global] Instance preserves_refl : Reflexive preserves.
Proof. by intros s. Qed.

#[global] Instance preserves_trans : Transitive preserves.
Proof.
  intros s1 s2 s3 (A1 & F1 & R1 & U1) (A2 & F2 & R2 & U2).
  repeat split; congruence.
Qed.

Lemma for_each_preserves {A : Type} (f : A -> MachineManager -> result MachineManager)
    (l : list A) (s s' : MachineManager) :
  (∀ a s s', a ∈ l -> f a s = Ok s' -> preserves s s') ->
  for_each f l s = Ok s' -> preserves s s'.
Proof.
  revert s. induction l as [|a l IH]; intros s Hf; simpl.
  - by intros [= <-].
  - destruct (f a s) as [s1|] eqn:Hs1; simpl; [|done]. intros Hrun.
    transitivity s1.
    + eapply Hf; [by left|done].
    + apply IH; [|done]. intros a' t t' Ha'. apply Hf. by right.
Qed.

(** Replacing the global stack by one with the same id and the same extruder
    flags. *)
Lemma preserves_with_global_stack g g' s :
  _global_container_stack s = Some g ->
  gs_id g' = gs_id g -> flags_of g' = flags_of g ->
  preserves s (with_global_stack g' s).
Proof.
  intros Hg Hid Hflags. unfold preserves, active_id, extruder_flags.
  simpl. rewrite Hg. simpl. by rewrite Hid, Hflags.
Qed.

Lemma preserves_emit sig s : preserves s (emit sig s).
Proof. done. Qed.

Lemma flags_of_insert g p e (f : ExtruderStack -> ExtruderStack) :
  gs_extruders g !! p = Some e ->
  es_definition_name (f e) = es_definition_name e ->
  es_isEnabled (f e) = es_isEnabled e ->
  flags_of (set_gs_extruders (<[p := f e]> (gs_extruders g)) g) = flags_of g.
Proof.
  intros He Hn Hen. unfold flags_of. simpl. rewrite fmap_insert, Hn, Hen.
  apply insert_id. by rewrite lookup_fmap, He.
Qed.

Lemma flags_of_fmap g (f : ExtruderStack -> ExtruderStack) :
  (∀ e, es_definition_name (f e) = es_definition_name e) ->
  (∀ e, es_isEnabled (f e) = es_isEnabled e) ->
  flags_of (set_gs_extruders (f <$> gs_extruders g) g) = flags_of g.
Proof.
  intros Hn Hen. unfold flags_of. simpl. rewrite <- map_fmap_compose.
  apply map_fmap_ext. intros k e _. simpl. by rewrite Hn, Hen.
Qed.

Lemma flags_of_imap g (f : string -> ExtruderStack -> ExtruderStack) :
  (∀ k e, es_definition_name (f k e) = es_definition_name e) ->
  (∀ k e, es_isEnabled (f k e) = es_isEnabled e) ->
  flags_of (set_gs_extruders (map_imap (fun k e => Some (f k e)) (gs_extruders g)) g)
  = flags_of g.
Proof.
  intros Hn Hen. unfold flags_of. simpl. apply map_eq. intros k.
  rewrite !lookup_fmap, map_lookup_imap.
  destruct (gs_extruders g !! k); simpl; [|done]. by rewrite Hn, Hen.
Qed.

Lemma with_quality_node_flags b node e :
  es_definition_name (with_quality_node b node e) = es_definition_name e
  ∧ es_isEnabled (with_quality_node b node e) = es_isEnabled e.
Proof. unfold with_quality_node. by destruct (cn_container node), b. Qed.

Section Frame.
Context `{Collaborators}.

Lemma updateDefaultExtruder_preserves s : preserves s (updateDefaultExtruder s).
Proof.
  unfold updateDefaultExtruder. destruct (_global_container_stack s); [|done].
  by destruct (decide _).
Qed.

Lemma updateNumberExtrudersEnabled_preserves s s' :
  updateNumberExtrudersEnabled s = Ok s' -> preserves s s'.
Proof.
  unfold updateNumberExtrudersEnabled.
  destruct (_global_container_stack s) as [g|] eqn:Hg; [|by intros [= <-]].
  destruct (for_each _ _ _) as [n|]; simpl; [|done].
  destruct (decide _); intros [= <-]; [|done].
  transitivity (with_global_stack
    (set_gs_definitionChanges
       (setProperty "extruders_enabled_count" (IntValue n) (gs_definitionChanges g)) g) s);
    [|done].
  by apply (preserves_with_global_stack g).
Qed.

Lemma _onGlobalContainerChanged_preserves s s' :
  _onGlobalContainerChanged s = Ok s' -> preserves s s'.
Proof.
  unfold _onGlobalContainerChanged.
  assert (∃ r, r = match _global_container_stack s with
               | Some _ => updateNumberExtrudersEnabled (updateDefaultExtruder s)
               | None => Ok s end ∧ ∀ s1, r = Ok s1 -> preserves s s1)
    as (r & <- & Hr).
  { eexists. split; [done|]. intros s1.
    destruct (_global_container_stack s); [|by intros [= <-]].
    intros Hs1. transitivity (updateDefaultExtruder s).
    - apply updateDefaultExtruder_preserves.
    - by apply updateNumberExtrudersEnabled_preserves. }
  destruct r as [s1|]; simpl; [|done]. intros [= <-].
  transitivity s1; [by apply Hr|].
  destruct (_global_container_stack s1) as [g|] eqn:Hg; simpl; rewrite ?Hg; [|done].
  transitivity (emit globalContainerChanged s1); [done|].
  etransitivity; [|apply preserves_emit].
  apply (preserves_with_global_stack g); [done|..];
    by repeat (destruct (_ : bool)).
Qed.

Lemma _onRootMaterialChanged_preserves s : preserves s (_onRootMaterialChanged s).
Proof. done. Qed.

Lemma emitChangedSignals_preserves s : preserves s (emitChangedSignals s).
Proof. done. Qed.

Lemma _setEmptyQuality_preserves s : preserves s (_setEmptyQuality s).
Proof.
  unfold _setEmptyQuality.
  destruct (_global_container_stack s) as [g|] eqn:Hg; [|done].
  etransitivity; [|apply preserves_emit]. etransitivity; [|apply preserves_emit].
  etransitivity; [|apply (preserves_with_global_stack g); [done|done|]].
  - done.
  - by apply (flags_of_fmap
      (set_gs_qualityChanges empty_quality_changes_container
         (set_gs_quality empty_quality_container g))).
Qed.

Lemma quality_applied_flags b nodes g g' :
  gs_extruders g' = gs_extruders g ->
  flags_of (set_gs_extruders (quality_applied b nodes (gs_extruders g')) g')
  = flags_of g.
Proof.
  intros E. unfold flags_of. simpl. rewrite E. apply map_eq. intros k.
  unfold quality_applied. rewrite !lookup_fmap, map_lookup_imap.
  destruct (gs_extruders g !! k) as [e|]; simpl; [|done].
  destruct (nodes !! k); [|done].
  by destruct (with_quality_node_flags b c e) as [-> ->].
Qed.

Lemma _setQualityGroup_preserves quality_group b s s' :
  _setQualityGroup quality_group b s = Ok s' -> preserves s s'.
Proof.
  rewrite _setQualityGroup_cases.
  destruct (_global_container_stack s) as [g|] eqn:Hg; [|by intros [= <-]].
  destruct quality_group as [qg|].
  2:{ intros [= <-]. apply _setEmptyQuality_preserves. }
  destruct (getContainer _) as [c|]; [|by intros [= <-]].
  case_bool_decide; [|by intros [= <-]].
  case_bool_decide; [|done]. intros [= <-].
  etransitivity; [|apply preserves_emit]. etransitivity; [|apply preserves_emit].
  etransitivity; [|apply (preserves_with_global_stack g)].
  - by destruct b.
  - by destruct b.
  - by destruct b.
  - destruct b; simpl.
    + by apply (quality_applied_flags true _ g
                  (set_gs_qualityChanges _ (set_gs_quality c g))).
    + by apply (quality_applied_flags false _ g (set_gs_quality c g)).
Qed.

Lemma _setQualityChangesGroup_preserves quality_changes_group s :
  preserves s (_setQualityChangesGroup quality_changes_group s).
Proof.
  unfold _setQualityChangesGroup.
  destruct (_global_container_stack s) as [g|] eqn:Hg; [|done].
  etransitivity; [|apply preserves_emit]. etransitivity; [|apply preserves_emit].
  etransitivity; [apply (preserves_with_global_stack g)|]; [done| | |done].
  - done.
  - match goal with
    | |- flags_of (set_gs_extruders (map_imap ?f _) ?g1) = _ =>
      apply (flags_of_imap g1 (fun k e => default e (f k e)))
    end; done.
Qed.
End Frame.

Section FrameMaterial.
Context `{Collaborators}.

Lemma _setVariantNode_preserves position container_node s s' :
  _setVariantNode position container_node s = Ok s' -> preserves s s'.
Proof.
  unfold _setVariantNode, getitem.
  destruct (cn_container container_node) as [c|]; [|by intros [= <-]].
  destruct (_global_container_stack s) as [g|] eqn:Hg; [|by intros [= <-]].
  destruct (gs_extruders g !! position) as [e|] eqn:He; simpl; [|done].
  intros [= <-]. etransitivity; [|apply preserves_emit].
  apply (preserves_with_global_stack g); [done|done|].
  by apply (flags_of_insert g position e (set_es_variant c)).
Qed.

Lemma _setGlobalVariant_preserves container_node s :
  preserves s (_setGlobalVariant container_node s).
Proof.
  unfold _setGlobalVariant.
  destruct (_global_container_stack s) as [g|] eqn:Hg; [|done].
  by apply (preserves_with_global_stack g).
Qed.

Lemma _setMaterial_preserves position container_node s s' :
  _setMaterial position container_node s = Ok s' -> preserves s s'.
Proof.
  unfold _setMaterial, getitem.
  destruct (_global_container_stack s) as [g|] eqn:Hg; [|by intros [= <-]].
  destruct (gs_extruders g !! position) as [e|] eqn:He; simpl; [|done].
  destruct (match container_node ≫= _ with Some _ => _ | None => _ end)
    as [material root_material_id].
  destruct (_current_root_material_id _ !! position) as [cached|]; simpl; [|done].
  assert (preserves s
            (with_global_stack
               (set_gs_extruders
                  (<[position := set_es_material material e]> (gs_extruders g)) g) s))
    as Hp.
  { apply (preserves_with_global_stack g); [done|done|].
    by apply (flags_of_insert g position e (set_es_material material)). }
  destruct (decide _); intros [= <-]; [|done].
  etransitivity; [exact Hp|]. done.
Qed.

Lemma _updateQualityWithMaterial_preserves s s' :
  _updateQualityWithMaterial s = Ok s' -> preserves s s'.
Proof.
  unfold _updateQualityWithMaterial.
  destruct (_global_container_stack s) as [g|] eqn:Hg; [|by intros [= <-]].
  destruct (negb _).
  { intros [= <-]. case_bool_decide; [apply _setEmptyQuality_preserves|done]. }
  case_bool_decide.
  { intros [= <-]. case_bool_decide; [apply _setEmptyQuality_preserves|done]. }
  assert (∀ r, r = (replacement_quality_type
                      (md_preferred_quality_type (gs_meta g))
                      (available_quality_types (getQualityGroups g))
                    ≫= λ quality_type,
                      od_getitem (getQualityGroups g) quality_type
                      ≫= λ quality_group, _setQualityGroup (Some quality_group) true s) ->
               r = Ok s' -> preserves s s') as Hswitch.
  { intros r ->. destruct (replacement_quality_type _ _); simpl; [|done].
    destruct (od_getitem _ _); simpl; [|done]. apply _setQualityGroup_preserves. }
  destruct (qg_quality_type <$> _current_quality_group s) as [current|].
  - case_bool_decide; [|by apply Hswitch].
    destruct (od_getitem _ _); simpl; [|done]. apply _setQualityGroup_preserves.
  - by apply Hswitch.
Qed.

Lemma updateMaterialWithVariant_item_preserves buildplate position s s' :
  updateMaterialWithVariant_item buildplate position s = Ok s' -> preserves s s'.
Proof.
  unfold updateMaterialWithVariant_item, getitem.
  destruct (_global_container_stack s) as [g|] eqn:Hg; [|by intros [= <-]].
  destruct (gs_extruders g !! position) as [e|]; simpl; [|done].
  destruct (decide _); [apply _setMaterial_preserves|].
  destruct (_ ≫= _); [apply _setMaterial_preserves|].
  destruct (default_material _ _ _); [apply _setMaterial_preserves|].
  by intros [= <-].
Qed.

Lemma updateMaterialWithVariant_preserves position s s' :
  updateMaterialWithVariant position s = Ok s' -> preserves s s'.
Proof.
  unfold updateMaterialWithVariant.
  destruct (_global_container_stack s) as [g|]; [|by intros [= <-]].
  apply for_each_preserves. intros a t t' _.
  apply updateMaterialWithVariant_item_preserves.
Qed.

Lemma _initMachineState_preserves s s' :
  _initMachineState s = Ok s' -> preserves s s'.
Proof.
  unfold _initMachineState, the_global_stack.
  destruct (_global_container_stack s) as [g|] eqn:Hg; simpl; [|done].
  destruct (for_each _ _ _) as [s2|] eqn:Hloop; simpl; [|done].
  assert (preserves s s2) as Hs2.
  { transitivity (set_current_root_material_id
                    ((λ e, c_base_file (es_material e)) <$> gs_extruders g) s);
      [done|].
    eapply for_each_preserves; [|exact Hloop].
    intros a t t' _. apply updateMaterialWithVariant_preserves. }
  destruct (_global_container_stack s2) as [g2|] eqn:Hg2; simpl; [|done].
  set (found := if decide _ then _ else _).
  assert (∀ b s3, found = Ok (b, s3) -> preserves s2 s3) as Hfound.
  { subst found. intros b s3. destruct (decide _).
    - destruct (_ !! _); intros [= <- <-]; [|done].
      apply _setQualityChangesGroup_preserves.
    - destruct (_ ≫= _); [|by intros [= <- <-]].
      destruct (_setQualityGroup _ _ _) as [t|] eqn:Ht; simpl; [|done].
      intros [= <- <-]. by apply _setQualityGroup_preserves in Ht. }
  destruct found as [[b s3]|]; simpl; [|done].
  specialize (Hfound b s3 eq_refl).
  destruct b.
  - intros [= <-]. by transitivity s2.
  - intros Hrun. apply _setQualityGroup_preserves in Hrun.
    transitivity s2; [done|]. by transitivity s3.
Qed.

(** [update_extruder] with a change that keeps name and flag. *)
Lemma update_extruder_preserves position f s s' :
  (∀ e, es_definition_name (f e) = es_definition_name e) ->
  (∀ e, es_isEnabled (f e) = es_isEnabled e) ->
  update_extruder position f s = Ok s' -> preserves s s'.
Proof.
  intros Hn Hen. unfold update_extruder, the_global_stack, getitem.
  destruct (_global_container_stack s) as [g|] eqn:Hg; simpl; [|done].
  destruct (gs_extruders g !! position) as [e|] eqn:He; simpl; [|done].
  intros [= <-]. apply (preserves_with_global_stack g); [done|done|].
  by apply (flags_of_insert g position e f).
Qed.

(** [extruders[position].setEnabled(b)]. *)
Lemma update_extruder_setEnabled position b s s' :
  update_extruder position (setEnabled b) s = Ok s' ->
  ∃ name, extruder_flags s !! position = Some name
    ∧ active_id s' = active_id s
    ∧ extruder_flags s' = <[position := (name.1, b)]> (extruder_flags s)
    ∧ registry s' = registry s ∧ ui s' = ui s.
Proof.
  unfold update_extruder, the_global_stack, getitem.
  destruct (_global_container_stack s) as [g|] eqn:Hg; simpl; [|done].
  destruct (gs_extruders g !! position) as [e|] eqn:He; simpl; [|done].
  intros [= <-]. exists (es_definition_name e, es_isEnabled e).
  unfold extruder_flags, active_id. rewrite Hg. simpl. unfold flags_of. simpl.
  rewrite lookup_fmap, He, fmap_insert. done.
Qed.
End FrameMaterial.

(** ** Synchronising with a printer *)

(** [min] of a collection of integers. *)
Lemma min_spec (l : list Z) (m : Z) :
  Py.min l = Ok m -> m ∈ l ∧ ∀ x, x ∈ l -> (m <= x)%Z.
Proof.
  destruct l as [|a l]; [done|]. simpl. intros [= <-].
  induction l as [|b l [IHin IHle]]; simpl.
  - split; [by left|]. intros x ?%list_elem_of_singleton. lia.
  - split.
    + destruct (Z.min_spec b (foldr Z.min a l)) as [[_ ->]|[_ ->]].
      * right. by left.
      * apply elem_of_cons in IHin as [->|?]; [by left|]. right. by right.
    + intros x Hx.
      assert (x = b ∨ x ∈ a :: l) as [->|Hx'].
      { apply elem_of_cons in Hx as [->|Hx]; [right; by left|].
        apply elem_of_cons in Hx as [->|Hx]; [by left|right; by right]. }
      * lia.
      * specialize (IHle x Hx'). lia.
Qed.

(** As many reported positions as extruders, when the keys of the extruders
    are the reported positions. *)
Lemma size_positions {V : Type} (X : gset Z) (m : gmap string V) :
  (∀ k, is_Some (m !! k) <-> ∃ z, z ∈ X ∧ k = str z) -> size X = size m.
Proof.
  intros Hkeys. rewrite <- size_dom. unfold size, set_size. simpl.
  rewrite <- (length_fmap str (elements X)).
  apply Permutation_length, NoDup_Permutation.
  - apply NoDup_fmap_2; [|apply NoDup_elements]. intros a b. apply str_inj.
  - apply NoDup_elements.
  - intros k. rewrite list_elem_of_fmap, elem_of_elements, elem_of_dom, Hkeys.
    split.
    + intros (z & -> & Hz%elem_of_elements). eauto.
    + intros (z & Hz & ->). exists z. by rewrite elem_of_elements.
Qed.

Lemma mapM_result_cons {A B : Type} (f : A -> result B) a l :
  mapM f (a :: l) = y ← f a; k ← mapM f l; Ok (y :: k).
Proof. done. Qed.

Lemma disabled_extruder_names_spec (positions : gset Z) (g : GlobalStack)
    (names : list string) :
  disabled_extruder_names positions g = Ok names ->
  names = (fun z => default "" (fst <$> flags_of g !! str z))
            <$> merge_sort Z.le (elements positions).
Proof.
  unfold disabled_extruder_names, getitem.
  generalize (merge_sort Z.le (elements positions)).
  intros l. revert names. induction l as [|z l IH]; intros names.
  - intros Hm. cbv in Hm. by injection Hm as <-.
  - rewrite mapM_result_cons. unfold flags_of.
    rewrite fmap_cons, lookup_fmap.
    destruct (gs_extruders g !! str z) as [e|]; simpl; [|done].
    destruct (mapM _ l) as [k|]; simpl; [|done].
    intros [= <-]. by rewrite (IH k eq_refl).
Qed.

Section RemoteLoop.
Context `{Collaborators}.

(** The effect of one reported extruder on the flags. *)
Lemma apply_extruder_configuration_flags configuration (D : gset Z) ec s dset s' dset' :
  apply_extruder_configuration configuration D ec (s, dset) = Ok (s', dset') ->
  ∃ name,
    extruder_flags s !! str (ec_position ec) = Some name
    ∧ extruder_flags s' =
      <[str (ec_position ec) := (name.1, bool_decide (ec_position ec ∉ D))]>
        (extruder_flags s)
    ∧ active_id s' = active_id s ∧ registry s' = registry s ∧ ui s' = ui s
    ∧ dset' = (if decide (ec_position ec ∈ D) then dset ∪ {[ec_position ec]} else dset).
Proof.
  unfold apply_extruder_configuration. rewrite int_str. simpl.
  destruct (decide (ec_position ec ∈ D)) as [Hin|Hout].
  - destruct (update_extruder _ _ s) as [s1|] eqn:Hs1; simpl; [|done].
    intros [= <- <-].
    apply update_extruder_setEnabled in Hs1 as (name & Hn & Ha & Hf & Hr & Hu).
    exists name. rewrite bool_decide_eq_false_2 by (by intros ?). done.
  - unfold the_global_stack.
    destruct (_global_container_stack s) as [g|] eqn:Hg; simpl; [|done].
    set (variant_step := match getVariantNode _ _ with
                         | Some node => _ | None => _ end).
    assert (∀ sa, variant_step = Ok sa -> preserves s sa) as Hva.
    { subst variant_step. intros sa. destruct (getVariantNode _ _).
      - apply _setVariantNode_preserves.
      - by apply update_extruder_preserves. }
    destruct variant_step as [sa|]; simpl; [|done].
    specialize (Hva sa eq_refl).
    set (material_step := match getMaterialNodeByType _ _ _ _ _ with
                          | Some node => _ | None => _ end).
    assert (∀ sb, material_step = Ok sb -> preserves sa sb) as Hmb.
    { subst material_step. intros sb. destruct (getMaterialNodeByType _ _ _ _ _).
      - apply _setMaterial_preserves.
      - by apply update_extruder_preserves. }
    destruct material_step as [sb|]; simpl; [|done].
    specialize (Hmb sb eq_refl).
    destruct (update_extruder _ _ sb) as [sc|] eqn:Hsc; simpl; [|done].
    destruct (updateMaterialWithVariant _ sc) as [sd|] eqn:Hsd; simpl; [|done].
    intros [= <- <-].
    apply update_extruder_setEnabled in Hsc as (name & Hn & Ha & Hf & Hr & Hu).
    apply updateMaterialWithVariant_preserves in Hsd as (Ad & Fd & Rd & Ud).
    destruct (preserves_trans _ _ _ Hva Hmb) as (Ab & Fb & Rb & Ub).
    exists name. rewrite bool_decide_eq_true_2 by done.
    rewrite <- Fb, Fd, Hf. repeat split; congruence.
Qed.

(** The loop over the reported extruders. *)
Lemma apply_extruder_configurations_flags configuration (D : gset Z) configs :
  ∀ s dset s' dset',
  for_each (apply_extruder_configuration configuration D) configs (s, dset)
  = Ok (s', dset') ->
  active_id s' = active_id s ∧ registry s' = registry s ∧ ui s' = ui s
  ∧ dset' = dset ∪ list_to_set (filter (.∈ D) (ec_position <$> configs))
  ∧ (∀ k, fst <$> extruder_flags s' !! k = fst <$> extruder_flags s !! k)
  ∧ (∀ ec, ec ∈ configs ->
       snd <$> extruder_flags s' !! str (ec_position ec)
       = Some (bool_decide (ec_position ec ∉ D)))
  ∧ (∀ k, (∀ ec, ec ∈ configs -> k ≠ str (ec_position ec)) ->
       extruder_flags s' !! k = extruder_flags s !! k).
Proof.
  induction configs as [|ec configs IH]; intros s dset s' dset'.
  - intros [= <- <-]. repeat split; try done.
    + rewrite fmap_nil, filter_nil, list_to_set_nil. by rewrite (right_id_L ∅ (∪)).
    + by intros ec ?%elem_of_nil.
  - rewrite for_each_cons.
    destruct (apply_extruder_configuration _ _ _ _) as [[s1 dset1]|] eqn:Hstep;
      (intros Hrest; simpl in Hrest); [|done].
    apply apply_extruder_configuration_flags in Hstep
      as (name & Hname & Hf1 & Ha1 & Hr1 & Hu1 & Hd1).
    apply IH in Hrest as (Ha & Hr & Hu & Hd & Hfst & Hsnd & Hother).
    split; [congruence|]. split; [congruence|]. split; [congruence|].
    split; [|split; [|split]].
    + rewrite Hd, Hd1, fmap_cons, filter_cons.
      destruct (decide (ec_position ec ∈ D)); [|done].
      by rewrite list_to_set_cons, (assoc_L (∪)).
    + intros k. rewrite Hfst, Hf1.
      destruct (decide (str (ec_position ec) = k)) as [<-|Hne].
      * by rewrite lookup_insert_eq, Hname.
      * by rewrite lookup_insert_ne.
    + intros ec' Hec'.
      destruct (decide (Exists (fun e => ec_position e = ec_position ec') configs))
        as [Hex|Hnex].
      * apply Exists_exists in Hex as (e & He & Hpos). rewrite <- Hpos. by apply Hsnd.
      * rewrite Hother.
        -- apply elem_of_cons in Hec' as [->|Hec'].
           ++ by rewrite Hf1, lookup_insert_eq.
           ++ destruct Hnex. apply Exists_exists. by exists ec'.
        -- intros e He Heq. apply str_inj in Heq. apply Hnex.
           apply Exists_exists. by exists e.
    + intros k Hk. rewrite Hother.
      * rewrite Hf1, lookup_insert_ne; [done|]. intros E. apply (Hk ec); [by left|done].
      * intros e He. apply Hk. by right.
Qed.
End RemoteLoop.

Section RemoteConfiguration.
Context `{Collaborators}.

Lemma extruders_lacking_all configuration :
  nothing_loaded configuration ->
  extruders_lacking configuration = list_to_set (reported_positions configuration).
Proof.
  unfold nothing_loaded, extruders_lacking, reported_positions.
  induction (extruderConfigurations configuration) as [|ec l IH]; [done|].
  intros [[Hh Hm] Hl]%Forall_cons. rewrite filter_cons.
  destruct (decide _) as [_|Hno]; [|destruct Hno; by left].
  rewrite !fmap_cons, !list_to_set_cons. by rewrite IH.
Qed.

Lemma maybe_discardOrKeepProfileChanges_spec s :
  _global_container_stack (maybe_discardOrKeepProfileChanges s)
  = _global_container_stack s
  ∧ registry (maybe_discardOrKeepProfileChanges s) = registry s
  ∧ ∃ tail, (tail = [] ∨ tail = [DiscardOrKeepProfileChanges])
      ∧ ui (maybe_discardOrKeepProfileChanges s) = ui s ++ tail.
Proof.
  unfold maybe_discardOrKeepProfileChanges.
  destruct (_ && _).
  - repeat split. exists [DiscardOrKeepProfileChanges]. split; [by right|done].
  - repeat split. exists []. split; [by left|]. by rewrite app_nil_r.
Qed.

Lemma active_id_is_Some s :
  is_Some (active_id s) <-> is_Some (_global_container_stack s).
Proof. unfold active_id. by rewrite fmap_is_Some. Qed.

Lemma the_global_stack_Ok s (A : Type) (k : GlobalStack -> result A) r :
  (g ← the_global_stack s; k g) = Ok r ->
  ∃ g, _global_container_stack s = Some g ∧ k g = Ok r.
Proof.
  unfold the_global_stack. destruct (_global_container_stack s) as [g|]; [|done].
  simpl. eauto.
Qed.

(** C3 (amended). When no reported extruder has a hotend or a material, the
    report covers every extruder (the positions reported are the positions of
    the extruders of the machine that [switchPrinterType] leaves active), and
    [applyRemoteConfiguration] completes: the extruder at the lowest position,
    and no other, is enabled afterwards; the names of the extruders are kept;
    the notice that lists the disabled extruders by ascending position is
    shown once when the machine has more than one extruder, and not at all
    when it has one, as nothing is disabled then; only the discard-or-keep
    dialog may follow it. *)
Theorem applyRemoteConfiguration_spares_lowest configuration s s1 g s' :
  is_Some (_global_container_stack s) ->
  switchPrinterType (printerType configuration) (emit blurSettings s) = Ok s1 ->
  _global_container_stack s1 = Some g ->
  nothing_loaded configuration ->
  dom (gs_extruders g) = list_to_set (str <$> reported_positions configuration) ->
  applyRemoteConfiguration configuration s = Ok s' ->
  ∃ lowest tail,
    lowest ∈ reported_positions configuration
    ∧ (∀ z, z ∈ reported_positions configuration -> lowest <= z)
    ∧ active_id s' = Some (gs_id g)
    ∧ dom (extruder_flags s') = dom (gs_extruders g)
    ∧ (∀ k name enabled,
         extruder_flags s' !! k = Some (name, enabled) ->
         fst <$> flags_of g !! k = Some name
         ∧ (enabled = true <-> k = str lowest))
    ∧ ui s' = ui s1
              ++ (if decide (size (gs_extruders g) = 1%nat) then []
                  else [ExtrudersDisabledMessage
                          (extruder_names g (others configuration lowest))])
              ++ tail
    ∧ (tail = [] ∨ tail = [DiscardOrKeepProfileChanges]).
Proof.
  intros [g0 Hg0] Hswitch Hg Hnothing Hdom.
  assert (∀ k, is_Some (gs_extruders g !! k)
               <-> ∃ z, z ∈ (list_to_set (reported_positions configuration) : gset Z)
                        ∧ k = str z) as Hkeys.
  { intros k. rewrite <- elem_of_dom, Hdom, elem_of_list_to_set, list_elem_of_fmap.
    split.
    - intros (z & -> & Hz). exists z. by rewrite elem_of_list_to_set.
    - intros (z & Hz%elem_of_list_to_set & ->). by exists z. }
  unfold applyRemoteConfiguration. rewrite Hg0, Hswitch. simpl.
  intros (g' & Hg' & Hrun)%the_global_stack_Ok.
  assert (g' = g) as -> by congruence. clear Hg'.
  revert Hrun. unfold spare_first.
  rewrite (extruders_lacking_all _ Hnothing).
  set (P := list_to_set (reported_positions configuration) : gset Z) in *.
  pose proof (size_positions P (gs_extruders g) Hkeys) as Hsize.
  rewrite decide_True by done.
  destruct (Py.min (elements P)) as [lowest|] eqn:Hmin; simpl; [|done].
  apply min_spec in Hmin as [Hin Hle].
  destruct (for_each _ _ _) as [[s2 dset]|] eqn:Hloop; simpl; [|done].
  apply apply_extruder_configurations_flags in Hloop
    as (Ha2 & Hr2 & Hu2 & Hd2 & Hfst2 & Hsnd2 & Hother2).
  assert (dset = P ∖ {[lowest]}) as ->.
  { rewrite Hd2. fold (reported_positions configuration).
    apply set_eq. intros z.
    rewrite elem_of_union, elem_of_list_to_set, list_elem_of_filter, elem_of_empty.
    split; [by intros [[]|[? _]]|].
    intros Hz. right. split; [done|].
    apply elem_of_difference in Hz as [Hz _]. by apply elem_of_list_to_set in Hz. }
  destruct (updateNumberExtrudersEnabled _) as [s3|] eqn:Hs3; simpl; [|done].
  apply updateNumberExtrudersEnabled_preserves in Hs3.
  pose proof (preserves_trans _ _ _ (updateDefaultExtruder_preserves s2) Hs3) as H23.
  intros (g3 & Hg3 & Hrun)%the_global_stack_Ok. revert Hrun.
  set (s4 := match buildplateConfiguration configuration with
             | Some b => _ | None => _ end).
  assert (preserves s3 s4) as H34.
  { subst s4.
    destruct (buildplateConfiguration configuration) as [b|];
      [destruct (getBuildplateVariantNode _ _)|];
      try apply _setGlobalVariant_preserves;
      by apply (preserves_with_global_stack g3). }
  destruct (_updateQualityWithMaterial s4) as [s5|] eqn:Hs5; simpl; [|done].
  apply _updateQualityWithMaterial_preserves in Hs5.
  destruct (preserves_trans _ _ _ (preserves_trans _ _ _ H23 H34) Hs5)
    as (Ha5 & Hf5 & Hr5 & Hu5).
  assert (active_id s1 = Some (gs_id g)) as Ha1 by (unfold active_id; by rewrite Hg).
  assert (∃ g5, _global_container_stack s5 = Some g5) as [g5 Hg5].
  { apply active_id_is_Some. rewrite Ha5, Ha2, Ha1. eauto. }
  assert (flags_of g5 = extruder_flags s2) as Hflags5.
  { rewrite <- Hf5. unfold extruder_flags. by rewrite Hg5. }
  assert (extruder_flags s1 = flags_of g) as Hflags1.
  { unfold extruder_flags. by rewrite Hg. }
  assert (∀ s6 notice,
    ui s6 = ui s1 ++ notice -> _global_container_stack s6 = Some g5 ->
    Ok (maybe_discardOrKeepProfileChanges s6) = Ok s' ->
    ∃ tail,
      lowest ∈ reported_positions configuration
      ∧ (∀ z, z ∈ reported_positions configuration -> lowest <= z)
      ∧ active_id s' = Some (gs_id g)
      ∧ dom (extruder_flags s') = dom (gs_extruders g)
      ∧ (∀ k name enabled,
           extruder_flags s' !! k = Some (name, enabled) ->
           fst <$> flags_of g !! k = Some name
           ∧ (enabled = true <-> k = str lowest))
      ∧ ui s' = ui s1 ++ notice ++ tail
      ∧ (tail = [] ∨ tail = [DiscardOrKeepProfileChanges])) as Hend.
  { intros s6 notice Hu6 Hg6 [= <-].
    destruct (maybe_discardOrKeepProfileChanges_spec s6)
      as (Hgm & _ & tail & Htail & Hum).
    exists tail.
    assert (extruder_flags (maybe_discardOrKeepProfileChanges s6) = extruder_flags s2)
      as Hfm.
    { unfold extruder_flags at 1. by rewrite Hgm, Hg6. }
    split; [by apply elem_of_elements, elem_of_list_to_set in Hin|].
    split; [intros z Hz; apply Hle; by apply elem_of_elements, elem_of_list_to_set|].
    split.
    { unfold active_id. rewrite Hgm, Hg6. simpl.
      assert (active_id s5 = Some (gs_id g)) as E by congruence.
      unfold active_id in E. by rewrite Hg5 in E. }
    split.
    { rewrite Hfm. apply set_eq. intros k. rewrite !elem_of_dom.
      rewrite <- !(fmap_is_Some fst), Hfst2, Hflags1. unfold flags_of.
      by rewrite lookup_fmap, !fmap_is_Some. }
    split.
    { intros k name enabled. rewrite Hfm. intros Hk. split.
      - rewrite <- Hflags1, <- Hfst2, Hk. done.
      - assert (fst <$> flags_of g !! k = Some name) as E
          by (by rewrite <- Hflags1, <- Hfst2, Hk).
        assert (is_Some (gs_extruders g !! k)) as (z & Hz & ->)%Hkeys.
        { unfold flags_of in E. rewrite lookup_fmap in E.
          destruct (gs_extruders g !! k); [eauto|done]. }
        apply elem_of_list_to_set, list_elem_of_fmap in Hz as (ec & -> & Hec).
        specialize (Hsnd2 ec Hec). rewrite Hk in Hsnd2. simpl in Hsnd2.
        injection Hsnd2 as ->.
        rewrite bool_decide_eq_true. split.
        + intros Hnot. f_equal.
          destruct (decide (ec_position ec = lowest)) as [|Hne]; [done|].
          destruct Hnot. apply elem_of_difference. split.
          * subst P. apply elem_of_list_to_set, list_elem_of_fmap. eauto.
          * by rewrite elem_of_singleton.
        + intros ->%str_inj [_ Hn]%elem_of_difference.
          apply Hn. by apply elem_of_singleton. }
    split; [|done]. by rewrite Hum, Hu6, <- app_assoc. }
  destruct (decide (P ∖ {[lowest]} ≠ ∅)) as [Hne|He].
  - unfold the_global_stack. rewrite Hg5. simpl.
    destruct (disabled_extruder_names _ _) as [names|] eqn:Hnames; simpl; [|done].
    apply disabled_extruder_names_spec in Hnames.
    intros Hrun. exists lowest.
    rewrite decide_False.
    + apply (Hend (show (ExtrudersDisabledMessage names) s5)
               [ExtrudersDisabledMessage
                  (extruder_names g (others configuration lowest))]);
        [|exact Hg5|exact Hrun].
      simpl. rewrite Hu5, Hu2.
      f_equal. f_equal. f_equal. subst names. unfold extruder_names, others.
      fold P. apply list_fmap_ext. intros _ z _.
      by rewrite Hflags5, Hfst2, Hflags1.
    + rewrite <- Hsize. intros Hone. apply Hne.
      apply size_1_elem_of in Hone as [x Hx].
      apply elem_of_elements in Hin. apply leibniz_equiv in Hx.
      apply set_eq. intros z.
      rewrite elem_of_difference, elem_of_singleton, elem_of_empty.
      split; [|done]. intros [Hz Hn]. apply Hn.
      rewrite Hx in Hz, Hin. apply elem_of_singleton in Hz, Hin. congruence.
  - simpl. intros Hrun. exists lowest.
    rewrite decide_True.
    + apply (Hend s5 []); [|done|done].
      rewrite app_nil_r. congruence.
    + rewrite <- Hsize. apply dec_stable in He.
      apply elem_of_elements in Hin.
      assert (P = {[lowest]}) as ->.
      { apply set_eq. intros z. rewrite elem_of_singleton. split; [|by intros ->].
        intros Hz. destruct (decide (z = lowest)) as [|Hn]; [done|].
        assert (z ∈ P ∖ {[lowest]}) as Hz'
          by (apply elem_of_difference; split; [done|by rewrite elem_of_singleton]).
        rewrite He in Hz'. by apply elem_of_empty in Hz'. }
      by rewrite size_singleton.
Qed.
End RemoteConfiguration.

Lemma applyRemoteConfiguration_spares_lowest_witness :
  ∃ lowest tail,
    lowest ∈ reported_positions (Demo.nothing_there [0; 1])
    ∧ extruder_flags
        (Demo.after
           (@applyRemoteConfiguration Demo.usual (Demo.nothing_there [0; 1]) Demo.s0)
           Demo.s0)
      !! str lowest = Some ("Extruder 0", true)
    ∧ (tail = [] ∨ tail = [DiscardOrKeepProfileChanges]).
Proof.
  destruct (@applyRemoteConfiguration_spares_lowest Demo.usual
              (Demo.nothing_there [0; 1]) Demo.s0 (emit blurSettings Demo.s0) Demo.um3
              (Demo.after
                 (@applyRemoteConfiguration Demo.usual (Demo.nothing_there [0; 1])
                    Demo.s0)
                 Demo.s0))
    as (lowest & tail & Hin & Hle & _ & _ & _ & _ & Htail).
  - vm_compute. eauto.
  - vm_compute. reflexivity.
  - reflexivity.
  - repeat constructor.
  - vm_compute. reflexivity.
  - vm_compute. reflexivity.
  - exists lowest, tail. split; [exact Hin|]. split; [|exact Htail].
    assert (lowest = 0) as ->.
    { apply Z.le_antisymm; [apply Hle; by left|].
      apply elem_of_cons in Hin as [->|Hin]; [done|].
      apply list_elem_of_singleton in Hin as ->. done. }
    vm_compute. reflexivity.
Defined.

(** C3, as stated, fails. A machine with a single extruder, which the
    printer reports without hotend and material: the extruder stays enabled,
    nothing is disabled and no notice is shown. *)
Lemma applyRemoteConfiguration_no_notice :
  (fun s => (map_to_list (extruder_flags s), ui s))
    <$> @applyRemoteConfiguration Demo.single (Demo.nothing_there [0])
          (Demo.manager Demo.one_extruder [Demo.one_extruder])
  = Ok ([("0", ("Extruder 0", true))], []).
Proof. vm_compute. reflexivity. Qed.

(** A report that covers a part of the extruders only. The comment in the
    source reads "If there's no material and/or nozzle on the printer, enable
    the first extruder and disable the rest", but the lowest position is
    exempted only when the candidates are as many as the extruders of the
    machine: here the printer reports one extruder of a machine with two,
    the second of which is switched off, and both end up disabled. *)
Lemma applyRemoteConfiguration_partial_report :
  (fun s => (map_to_list (extruder_flags s), ui s))
    <$> @applyRemoteConfiguration Demo.usual (Demo.nothing_there [0])
          (Demo.manager Demo.second_off [Demo.second_off])
  = Ok ([("1", ("Extruder 1", false)); ("0", ("Extruder 0", false))],
        [ExtrudersDisabledMessage ["Extruder 0"]]).
Proof. vm_compute. reflexivity. Qed.

(** ** Removing a machine *)

Section RemoveMachine.
Context `{Collaborators}.

Lemma machine_stacks_ids s :
  gs_id <$> machine_stacks s = gs_id <$> reg_machines (registry s).
Proof.
  unfold machine_stacks. destruct (_global_container_stack s) as [g|]; [|done].
  rewrite <- list_fmap_compose. apply list_fmap_ext. intros _ m _. simpl.
  by destruct (decide _).
Qed.

Lemma store_stack_registry_ids m s :
  registry_ids (registry (store_stack m s)) = registry_ids (registry s).
Proof.
  unfold store_stack. set (s1 := set_registry _ s).
  assert (registry (match _global_container_stack s1 with
                    | Some g => if decide (gs_id g = gs_id m)
                                then with_global_stack m s1 else s1
                    | None => s1 end) = registry s1) as ->.
  { destruct (_global_container_stack s1) as [g|]; [|done].
    by destruct (decide _). }
  subst s1. unfold registry_ids. simpl. f_equal. f_equal.
  rewrite <- list_fmap_compose. apply list_fmap_ext. intros _ m' _. simpl.
  by destruct (decide _).
Qed.

Lemma store_stack_active_id m s : active_id (store_stack m s) = active_id s.
Proof.
  unfold store_stack. set (s1 := set_registry _ s).
  assert (active_id s1 = active_id s) as <- by done.
  destruct (_global_container_stack s1) as [g|] eqn:Hg; [|done].
  destruct (decide _) as [E|]; [|done].
  unfold active_id. rewrite Hg. simpl. by rewrite E.
Qed.

Lemma install_global_stack_registry_ids g s :
  registry_ids (registry (install_global_stack g s)) = registry_ids (registry s).
Proof.
  unfold install_global_stack, registry_ids. simpl. by rewrite machine_stacks_ids.
Qed.

Lemma setGlobalContainerStack_preserves previous g s s' :
  setGlobalContainerStack previous g s = Ok s' -> preserves s s'.
Proof.
  unfold setGlobalContainerStack. destruct (bool_decide _).
  - by intros [= <-].
  - intros Hs. apply _onGlobalContainerChanged_preserves in Hs.
    by etrans; [apply (preserves_emit globalContainerStackChanged)|].
Qed.

Lemma findContainerStacks_id_gs_id stack_id s m rest :
  findContainerStacks_id stack_id s = m :: rest -> gs_id m = stack_id.
Proof.
  unfold findContainerStacks_id. intros E.
  assert (m ∈ filter (fun m => gs_id m = stack_id) (machine_stacks s)) as Hm
    by (rewrite E; by left).
  by apply list_elem_of_filter in Hm as [? _].
Qed.

(** What [removeMachine] finds under an id: nothing, a machine, or only the
    stack of an extruder. *)
Lemma findContainerStacksMetadata_id_cases machine_id s :
  match findContainerStacksMetadata_id machine_id s with
  | [] =>
    findContainerStacks_id machine_id s = []
    ∧ machine_id ∉ (reg_extruder_stacks (registry s)).*1
  | group_id :: _ =>
    (∃ metadata rest,
       findContainerStacks_id machine_id s = metadata :: rest
       ∧ group_id = md_group_id (gs_meta metadata))
    ∨ (findContainerStacks_id machine_id s = []
       ∧ machine_id ∈ (reg_extruder_stacks (registry s)).*1
       ∧ group_id = None)
  end.
Proof.
  unfold findContainerStacksMetadata_id.
  destruct (findContainerStacks_id machine_id s) as [|metadata rest]; simpl.
  - destruct (filter _ _) as [|e l] eqn:He; simpl.
    + split; [done|].
      intros (e & Heq & Hin)%list_elem_of_fmap.
      assert (e ∈ filter (fun e : string * string => e.1 = machine_id)
                    (reg_extruder_stacks (registry s))) as Hf
        by (by apply list_elem_of_filter).
      rewrite He in Hf. by apply elem_of_nil in Hf.
    + right. split; [done|]. split; [|done].
      assert (e ∈ filter (fun e : string * string => e.1 = machine_id)
                    (reg_extruder_stacks (registry s))) as Hf
        by (rewrite He; by left).
      apply list_elem_of_filter in Hf as [<- Hin].
      apply list_elem_of_fmap. eauto.
  - left. eauto.
Qed.

(** [setActiveMachine] on a machine that is found and valid. *)
Lemma setActiveMachine_found stack_id s m rest s1 :
  findContainerStacks_id stack_id s = m :: rest ->
  isValid (fixed_stack m) = true ->
  setActiveMachine stack_id s = Ok s1 ->
  active_id s1 = Some stack_id
  ∧ registry_ids (registry s1) = registry_ids (registry s).
Proof.
  intros Hfind Hvalid. unfold setActiveMachine.
  change (findContainerStacks_id stack_id (emit blurSettings s))
    with (findContainerStacks_id stack_id s).
  rewrite Hfind. fold (fixed_stack m). rewrite Hvalid. simpl.
  destruct (setGlobalContainerStack _ _ _) as [sa|] eqn:Ha; simpl; [|done].
  destruct (_initMachineState sa) as [sb|] eqn:Hb; simpl; [|done].
  destruct (_onGlobalContainerChanged sb) as [sc|] eqn:Hc; simpl; [|done].
  destruct (int _) as [n|]; simpl; [|done].
  intros [= <-].
  apply setGlobalContainerStack_preserves in Ha.
  apply _initMachineState_preserves in Hb.
  apply _onGlobalContainerChanged_preserves in Hc.
  assert (preserves
            (install_global_stack (fixed_stack m)
               (store_stack (fixed_stack m) (emit blurSettings s)))
            (emitChangedSignals (setActiveExtruderIndex n (updateDefaultExtruder sc))))
    as (Ha' & _ & Hr' & _).
  { etrans; [exact Ha|]. etrans; [exact Hb|]. etrans; [exact Hc|].
    etrans; [apply updateDefaultExtruder_preserves|].
    etrans; [|apply emitChangedSignals_preserves]. done. }
  split.
  - rewrite Ha'. unfold active_id. simpl. f_equal.
    by apply findContainerStacks_id_gs_id in Hfind.
  - rewrite Hr', install_global_stack_registry_ids, store_stack_registry_ids. done.
Qed.

(** [setActiveMachine] never empties the slot of the active machine and
    never adds or deletes a container. *)
Lemma setActiveMachine_keeps stack_id s s1 :
  setActiveMachine stack_id s = Ok s1 ->
  registry_ids (registry s1) = registry_ids (registry s)
  ∧ (is_Some (active_id s) -> is_Some (active_id s1)).
Proof.
  destruct (findContainerStacks_id stack_id s) as [|m rest] eqn:Hfind.
  - unfold setActiveMachine.
    change (findContainerStacks_id stack_id (emit blurSettings s))
      with (findContainerStacks_id stack_id s).
    rewrite Hfind. by intros [= <-].
  - destruct (isValid (fixed_stack m)) eqn:Hvalid.
    + intros Hs. destruct (setActiveMachine_found _ _ _ _ _ Hfind Hvalid Hs) as [Ha Hr].
      split; [done|]. rewrite Ha. eauto.
    + unfold setActiveMachine.
      change (findContainerStacks_id stack_id (emit blurSettings s))
        with (findContainerStacks_id stack_id s).
      rewrite Hfind. fold (fixed_stack m). rewrite Hvalid. simpl.
      intros [= <-]. split.
      * change (registry (show _ ?x)) with (registry x).
        by rewrite store_stack_registry_ids.
      * change (active_id (show _ ?x)) with (active_id x).
        by rewrite store_stack_active_id.
Qed.

Lemma activate_other_machine_keeps machine_id s s1 :
  activate_other_machine machine_id s = Ok s1 ->
  registry_ids (registry s1) = registry_ids (registry s)
  ∧ (is_Some (active_id s) -> is_Some (active_id s1)).
Proof.
  unfold activate_other_machine. destruct (bool_decide _); [|by intros [= <-]].
  destruct (filter _ _) as [|other rest]; [by intros [= <-]|].
  apply setActiveMachine_keeps.
Qed.

(** The recursion of [removeMachine] never empties the slot of the active
    machine. *)
Lemma removeMachine_rec_active depth :
  ∀ machine_id s s',
  is_Some (active_id s) ->
  removeMachine_rec depth machine_id s = Some (Ok s') ->
  is_Some (active_id s').
Proof.
  induction depth as [|depth IH]; intros machine_id s s' Hactive; [done|].
  simpl.
  destruct (activate_other_machine machine_id s) as [s1|] eqn:Hs1; [|done].
  apply activate_other_machine_keeps in Hs1 as [_ Ha1]. specialize (Ha1 Hactive).
  destruct (findContainerStacksMetadata_id machine_id s1) as [|group_id rest]; [done|].
  destruct (present _).
  - destruct (filter _ _) as [|hidden ?].
    + by intros [= <-].
    + by apply IH.
  - by intros [= <-].
Qed.

(** A depth above the number of machines is enough. *)
Lemma removeMachine_rec_enough depth :
  ∀ machine_id s,
  (length (reg_machines (registry s)) < depth)%nat ->
  is_Some (removeMachine_rec depth machine_id s).
Proof.
  induction depth as [|depth IH]; intros machine_id s Hlen; [lia|].
  simpl.
  destruct (activate_other_machine machine_id s) as [s1|] eqn:Hs1; [|eauto].
  apply activate_other_machine_keeps in Hs1 as [Hr1 _].
  pose proof (findContainerStacksMetadata_id_cases machine_id s1) as Hcases.
  destruct (findContainerStacksMetadata_id machine_id s1) as [|group_id ?]; [eauto|].
  destruct (present group_id) eqn:Hgroup; [|eauto].
  destruct Hcases as [(metadata & rest & Hfind & _)|(_ & _ & ->)]; [|done].
  destruct (filter _ _) as [|hidden ?]; [eauto|].
  apply IH. simpl.
  assert (length (reg_machines (registry s1)) = length (reg_machines (registry s)))
    as Hlen1.
  { apply (f_equal (fun x => length x.1.1)) in Hr1. simpl in Hr1.
    by rewrite !length_fmap in Hr1. }
  assert (machine_id ∈ gs_id <$> reg_machines (registry s1)) as Hin.
  { rewrite <- machine_stacks_ids. apply list_elem_of_fmap. exists metadata.
    assert (metadata ∈ filter (fun m => gs_id m = machine_id) (machine_stacks s1))
      as Hm by (unfold findContainerStacks_id in Hfind; rewrite Hfind; by left).
    apply list_elem_of_filter in Hm as [? ?]. done. }
  apply list_elem_of_fmap in Hin as (m & Hm & Hin).
  assert (length (filter (fun m => gs_id m ≠ machine_id) (reg_machines (registry s1)))
          < length (reg_machines (registry s1)))%nat; [|lia].
  clear -Hin Hm. induction (reg_machines (registry s1)) as [|a l IHl].
  - by apply elem_of_nil in Hin.
  - rewrite filter_cons. pose proof (length_filter (fun m => gs_id m ≠ machine_id) l).
    destruct (decide (gs_id a ≠ machine_id)) as [Hne|He]; simpl.
    + apply elem_of_cons in Hin as [->|Hin]; [done|]. specialize (IHl Hin). lia.
    + lia.
Qed.


End RemoveMachine.


(** C6 fails on the code. The machine "um3" is active and is removed; the
    only other machine, "broken", does not pass the validity check. The
    first step of [removeMachine], [setActiveMachine] on "broken", reports
    the faulty stack and returns: no other machine has been activated when
    the deletion starts, and the extruder stack, the user container and the
    stack of "um3" are deleted while "um3" is the active machine. *)
Theorem removeMachine_keeps_removed_active :
  (fun s => (active_id s, registry_ids (registry s), ui s))
    <$> @activate_other_machine Demo.usual "um3" Demo.with_broken
  = Ok (Some "um3",
        (["um3"; "broken"],
         [("extruder_of_um3", "um3"); ("extruder_of_broken", "broken")],
         [("um3_user", "um3"); ("broken_user", "broken")]),
        [FaultyContainers "broken"])
  ∧ (fun s => (active_id s, registry_ids (registry s), ui s))
      <$> @removeMachine Demo.usual "um3" Demo.with_broken
    = Ok (Some "um3",
          (["broken"], [("extruder_of_broken", "broken")], [("broken_user", "broken")]),
          [FaultyContainers "broken"]).
Proof. split; vm_compute; reflexivity. Qed.

(** ** More on the activation and the removal of machines *)

Section Machines.
Context `{Collaborators}.

Lemma removeMachine_rec_mono depth :
  ∀ machine_id s r,
  removeMachine_rec depth machine_id s = Some r ->
  removeMachine_rec (S depth) machine_id s = Some r.
Proof.
  induction depth as [|depth IH]; intros machine_id s r; [done|].
  intros Hr. simpl in Hr. change (removeMachine_rec (S (S depth)) machine_id s)
    with (match activate_other_machine machine_id s with
          | Raise e => Some (Raise e)
          | Ok s =>
            match findContainerStacksMetadata_id machine_id s with
            | [] => Some (Raise IndexError)
            | group_id :: _ =>
              let s := set_registry (remove_machine_containers machine_id (registry s)) s in
              if present group_id then
                match filter (fun m => md_group_id (gs_meta m) = group_id)
                        (machine_stacks s) with
                | hidden :: _ => removeMachine_rec (S depth) (gs_id hidden) s
                | [] => Some (Ok s)
                end
              else Some (Ok s)
            end
          end).
  destruct (activate_other_machine machine_id s) as [s1|]; [|done].
  destruct (findContainerStacksMetadata_id machine_id s1) as [|group_id rest]; [done|].
  simpl. destruct (present _); [|done].
  destruct (filter _ _) as [|hidden ?]; [done|].
  by apply IH.
Qed.

Lemma removeMachine_rec_more depth extra machine_id s r :
  removeMachine_rec depth machine_id s = Some r ->
  removeMachine_rec (depth + extra) machine_id s = Some r.
Proof.
  intros Hr. induction extra as [|extra IH].
  - by rewrite Nat.add_0_r.
  - rewrite Nat.add_succ_r. by apply removeMachine_rec_mono.
Qed.

(** The nested calls of [removeMachine] end: with any bound above the
    number of machines the recursion gives the result of [removeMachine]. *)
Theorem removeMachine_recursion_ends machine_id s (extra : nat) :
  removeMachine_rec (S (length (reg_machines (registry s))) + extra) machine_id s
  = Some (removeMachine machine_id s).
Proof.
  unfold removeMachine.
  destruct (removeMachine_rec_enough (S (length (reg_machines (registry s))))
              machine_id s) as [r Hr]; [lia|].
  rewrite Hr. exact (removeMachine_rec_more _ extra _ _ _ Hr).
Qed.

Lemma findContainerStacks_id_unknown machine_id s :
  machine_id ∉ gs_id <$> reg_machines (registry s) ->
  findContainerStacks_id machine_id s = [].
Proof.
  intros Hunknown. unfold findContainerStacks_id.
  rewrite <- machine_stacks_ids in Hunknown.
  induction (machine_stacks s) as [|m l IH]; [done|].
  rewrite filter_cons. rewrite fmap_cons, not_elem_of_cons in Hunknown.
  destruct Hunknown as [Hm Hl]. rewrite decide_False by done. by apply IH.
Qed.

(** Removing a stack that the registry does not know: with an id that is not
    that of the active machine and names no container stack of the registry,
    neither a machine nor the stack of an extruder, [removeMachine] raises
    the [IndexError] of the [[0]] on the empty list of metadata. *)
Theorem removeMachine_unknown machine_id s :
  active_id s ≠ Some machine_id ->
  machine_id ∉ gs_id <$> reg_machines (registry s) ->
  machine_id ∉ (reg_extruder_stacks (registry s)).*1 ->
  removeMachine machine_id s = Raise IndexError.
Proof.
  intros Hactive Hunknown Hextruder. unfold removeMachine. simpl.
  unfold activate_other_machine. fold (active_id s).
  rewrite bool_decide_eq_false_2 by done.
  pose proof (findContainerStacksMetadata_id_cases machine_id s) as Hcases.
  destruct (findContainerStacksMetadata_id machine_id s) as [|group_id ?]; [done|].
  destruct Hcases as [(metadata & rest & Hfind & _)|(_ & Hin & _)]; [|done].
  by rewrite findContainerStacks_id_unknown in Hfind.
Qed.

(** The lookup of [removeMachine] has no filter on the type: with the id of
    the stack of an extruder (and of no machine) it finds that stack, and
    the stack is deleted together with what names it as its machine. *)
Lemma removeMachine_extruder_stack stack_id s :
  active_id s ≠ Some stack_id ->
  stack_id ∉ gs_id <$> reg_machines (registry s) ->
  stack_id ∈ (reg_extruder_stacks (registry s)).*1 ->
  removeMachine stack_id s
  = Ok (set_registry (remove_machine_containers stack_id (registry s)) s).
Proof.
  intros Hactive Hunknown Hextruder. unfold removeMachine. simpl.
  unfold activate_other_machine. fold (active_id s).
  rewrite bool_decide_eq_false_2 by done.
  pose proof (findContainerStacksMetadata_id_cases stack_id s) as Hcases.
  destruct (findContainerStacksMetadata_id stack_id s) as [|group_id ?].
  - by destruct Hcases as [_ Hno].
  - destruct Hcases as [(metadata & rest & Hfind & _)|(_ & _ & ->)]; [|done].
    by rewrite findContainerStacks_id_unknown in Hfind.
Qed.

Lemma removeMachine_rec_shrinks depth :
  ∀ machine_id s s',
  removeMachine_rec depth machine_id s = Some (Ok s') ->
  (∀ x, x ∈ gs_id <$> reg_machines (registry s') ->
        x ≠ machine_id ∧ x ∈ gs_id <$> reg_machines (registry s))
  ∧ (∀ e, e ∈ reg_extruder_stacks (registry s') ->
          e.2 ≠ machine_id ∧ e ∈ reg_extruder_stacks (registry s))
  ∧ (∀ c, c ∈ reg_user_containers (registry s') ->
          c.2 ≠ machine_id ∧ c ∈ reg_user_containers (registry s)).
Proof.
  induction depth as [|depth IH]; intros machine_id s s'; [done|].
  simpl.
  destruct (activate_other_machine machine_id s) as [s1|] eqn:Hs1; [|done].
  apply activate_other_machine_keeps in Hs1 as [Hr1 _].
  injection Hr1 as Hm1 He1 Hu1.
  destruct (findContainerStacksMetadata_id machine_id s1) as [|group_id rest]; [done|].
  set (s2 := set_registry _ s1).
  assert ((∀ x, x ∈ gs_id <$> reg_machines (registry s2) ->
             x ≠ machine_id ∧ x ∈ gs_id <$> reg_machines (registry s))
          ∧ (∀ e, e ∈ reg_extruder_stacks (registry s2) ->
               e.2 ≠ machine_id ∧ e ∈ reg_extruder_stacks (registry s))
          ∧ (∀ c, c ∈ reg_user_containers (registry s2) ->
               c.2 ≠ machine_id ∧ c ∈ reg_user_containers (registry s)))
    as (Hm2 & He2 & Hu2).
  { subst s2. simpl. rewrite <- Hm1, <- He1, <- Hu1. split; [|split].
    - intros x (m & -> & Hm%list_elem_of_filter)%list_elem_of_fmap.
      destruct Hm as [Hne Hm]. split; [done|]. apply list_elem_of_fmap. eauto.
    - by intros e [_ He%list_elem_of_filter]%list_elem_of_filter.
    - by intros c [_ Hc%list_elem_of_filter]%list_elem_of_filter. }
  assert (∀ r, Some (Ok s2) = Some (Ok r) ->
     (∀ x, x ∈ gs_id <$> reg_machines (registry r) ->
        x ≠ machine_id ∧ x ∈ gs_id <$> reg_machines (registry s))
     ∧ (∀ e, e ∈ reg_extruder_stacks (registry r) ->
          e.2 ≠ machine_id ∧ e ∈ reg_extruder_stacks (registry s))
     ∧ (∀ c, c ∈ reg_user_containers (registry r) ->
          c.2 ≠ machine_id ∧ c ∈ reg_user_containers (registry s))) as Hdone.
  { by intros r [= <-]. }
  destruct (present _); [|apply Hdone].
  destruct (filter _ _) as [|hidden ?]; [apply Hdone|].
  intros (Hm' & He' & Hu')%IH. split; [|split].
  - intros x Hx. apply Hm2. by apply Hm'.
  - intros e He. apply He2. by apply He'.
  - intros c Hc. apply Hu2. by apply Hu'.
Qed.

(** [removeMachine] only deletes: what the registry holds afterwards it held
    before, and nothing of the removed machine is left. *)
Theorem removeMachine_only_deletes machine_id s s' :
  removeMachine machine_id s = Ok s' ->
  (∀ x, x ∈ gs_id <$> reg_machines (registry s') ->
        x ≠ machine_id ∧ x ∈ gs_id <$> reg_machines (registry s))
  ∧ (∀ e, e ∈ reg_extruder_stacks (registry s') ->
          e.2 ≠ machine_id ∧ e ∈ reg_extruder_stacks (registry s))
  ∧ (∀ c, c ∈ reg_user_containers (registry s') ->
          c.2 ≠ machine_id ∧ c ∈ reg_user_containers (registry s)).
Proof.
  unfold removeMachine.
  destruct (removeMachine_rec _ machine_id s) as [r|] eqn:Hr; [|done].
  simpl. intros ->. by apply removeMachine_rec_shrinks in Hr.
Qed.

(** [setActiveMachine] on a machine that fails the validity check. *)
Theorem setActiveMachine_invalid stack_id s global_stack rest :
  findContainerStacks_id stack_id s = global_stack :: rest ->
  isValid (fixed_stack global_stack) = false ->
  ∃ s', setActiveMachine stack_id s = Ok s'
    ∧ active_id s' = active_id s
    ∧ registry_ids (registry s') = registry_ids (registry s)
    ∧ ui s' = ui s ++ [FaultyContainers stack_id]
    ∧ _current_quality_group s' = _current_quality_group s
    ∧ _current_quality_changes_group s' = _current_quality_changes_group s.
Proof.
  intros Hfind Hvalid. unfold setActiveMachine.
  change (findContainerStacks_id stack_id (emit blurSettings s))
    with (findContainerStacks_id stack_id s).
  rewrite Hfind. fold (fixed_stack global_stack). rewrite Hvalid. simpl.
  eexists. split; [done|].
  apply findContainerStacks_id_gs_id in Hfind as <-.
  set (m := fixed_stack global_stack).
  change (active_id (show _ ?x)) with (active_id x).
  change (registry (show _ ?x)) with (registry x).
  rewrite store_stack_active_id, store_stack_registry_ids.
  split; [done|]. split; [done|].
  unfold store_stack. set (s1 := set_registry _ (emit blurSettings s)).
  destruct (_global_container_stack s1) as [g|]; [|done].
  by destruct (decide _).
Qed.

Lemma updateDefaultExtruder_position s g :
  _global_container_stack s = Some g ->
  _global_container_stack (updateDefaultExtruder s) = Some g
  ∧ _default_extruder_position (updateDefaultExtruder s)
    = new_default_position (gs_extruders g).
Proof.
  intros Hg. unfold updateDefaultExtruder. rewrite Hg.
  destruct (decide _) as [Hne|He]; simpl; [done|].
  split; [done|]. by apply dec_stable in He.
Qed.

Lemma _onGlobalContainerChanged_slots s s' :
  _onGlobalContainerChanged s = Ok s' ->
  ∀ g', _global_container_stack s' = Some g' ->
  c_id (gs_material g') = c_id empty_material_container
  ∧ (c_id (gs_variant g') = c_id empty_variant_container
     ∨ c_hardware_type (gs_variant g') = Some "buildplate").
Proof.
  unfold _onGlobalContainerChanged.
  destruct (match _global_container_stack s with
            | Some _ => _ | None => _ end) as [s1|]; simpl; [|done].
  intros [= <-] g'.
  cbn [emit _global_container_stack].
  destruct (_global_container_stack s1) as [g|] eqn:Hg1;
    cbn [emit with_global_stack set_global_container_stack _global_container_stack];
    [|by rewrite Hg1].
  intros [= <-]. unfold container_eqb.
  set (g1 := if _ && _ then _ else g).
  assert (c_id (gs_variant g1) = c_id empty_variant_container
          ∨ c_hardware_type (gs_variant g1) = Some "buildplate") as Hvariant.
  { subst g1.
    destruct (bool_decide (c_id (gs_variant g) = c_id empty_variant_container))
      eqn:Hv; simpl.
    - apply bool_decide_eq_true in Hv. by left.
    - destruct (bool_decide (c_hardware_type (gs_variant g) = Some "buildplate"))
        eqn:Hb; simpl.
      + apply bool_decide_eq_true in Hb. by right.
      + by left. }
  destruct (bool_decide (c_id (gs_material g1) = c_id empty_material_container))
    eqn:Hm; simpl.
  - apply bool_decide_eq_true in Hm. done.
  - done.
Qed.

(** [setActiveMachine] on a machine that is found and valid: the machine is
    the active one, the registry holds the same containers, the default
    extruder is the first enabled one and is the active extruder, and the
    global stack has no material and at most a build plate as variant. *)
Theorem setActiveMachine_activates stack_id s global_stack rest s' :
  findContainerStacks_id stack_id s = global_stack :: rest ->
  isValid (fixed_stack global_stack) = true ->
  setActiveMachine stack_id s = Ok s' ->
  ∃ g', _global_container_stack s' = Some g'
    ∧ gs_id g' = stack_id
    ∧ registry_ids (registry s') = registry_ids (registry s)
    ∧ _default_extruder_position s' = new_default_position (gs_extruders g')
    ∧ int (_default_extruder_position s') = Ok (activeExtruderIndex s')
    ∧ c_id (gs_material g') = c_id empty_material_container
    ∧ (c_id (gs_variant g') = c_id empty_variant_container
       ∨ c_hardware_type (gs_variant g') = Some "buildplate").
Proof.
  intros Hfind Hvalid Hrun.
  destruct (setActiveMachine_found _ _ _ _ _ Hfind Hvalid Hrun) as [Ha Hr].
  revert Hrun. unfold setActiveMachine.
  change (findContainerStacks_id stack_id (emit blurSettings s))
    with (findContainerStacks_id stack_id s).
  rewrite Hfind. fold (fixed_stack global_stack). rewrite Hvalid. simpl.
  destruct (setGlobalContainerStack _ _ _) as [sa|] eqn:Hsa; simpl; [|done].
  destruct (_initMachineState sa) as [sb|] eqn:Hsb; simpl; [|done].
  destruct (_onGlobalContainerChanged sb) as [sc|] eqn:Hsc; simpl; [|done].
  destruct (int _) as [n|] eqn:Hn; simpl; [|done].
  intros [= <-].
  assert (∃ gc, _global_container_stack sc = Some gc) as [gc Hgc].
  { apply _onGlobalContainerChanged_preserves in Hsc as (Ac & _).
    apply _initMachineState_preserves in Hsb as (Ab & _).
    apply setGlobalContainerStack_preserves in Hsa as (Aa & _).
    apply active_id_is_Some. rewrite Ac, Ab, Aa. unfold active_id. simpl. eauto. }
  destruct (updateDefaultExtruder_position sc gc Hgc) as [Hgd Hpd].
  destruct (_onGlobalContainerChanged_slots _ _ Hsc gc Hgc) as [Hmat Hvar].
  exists gc. split; [exact Hgd|].
  split.
  { unfold active_id in Ha. simpl in Ha. rewrite Hgd in Ha. by injection Ha. }
  split; [exact Hr|]. split; [exact Hpd|]. split; [exact Hn|]. done.
Qed.
End Machines.

Lemma removeMachine_unknown_witness :
  @removeMachine Demo.usual "um2" Demo.s0 = Raise IndexError.
Proof.
  apply (@removeMachine_unknown Demo.usual "um2" Demo.s0).
  - vm_compute. discriminate.
  - apply (bool_decide_unpack _). vm_compute. exact I.
  - apply (bool_decide_unpack _). vm_compute. exact I.
Defined.

Lemma removeMachine_only_deletes_witness :
  "um3" ∉ gs_id <$> reg_machines
                      (registry (Demo.after (@removeMachine Demo.usual "um3" Demo.two_machines)
                                   Demo.two_machines)).
Proof.
  destruct (@removeMachine_only_deletes Demo.usual "um3" Demo.two_machines
              (Demo.after (@removeMachine Demo.usual "um3" Demo.two_machines) Demo.two_machines))
    as (Hm & _).
  - vm_compute. reflexivity.
  - intros Hx. apply Hm in Hx as [Hne _]. by apply Hne.
Defined.

Lemma setActiveMachine_invalid_witness :
  ∃ s', @setActiveMachine Demo.usual "broken" Demo.with_broken = Ok s'
    ∧ ui s' = [FaultyContainers "broken"].
Proof.
  destruct (@setActiveMachine_invalid Demo.usual "broken" Demo.with_broken
              (Demo.machine "broken" Demo.two_extruders) [])
    as (s' & Hrun & _ & _ & Hui & _).
  - vm_compute. reflexivity.
  - vm_compute. reflexivity.
  - exists s'. exact (conj Hrun Hui).
Defined.

Lemma setActiveMachine_activates_witness :
  ∃ g', _global_container_stack
          (Demo.after (@setActiveMachine Demo.usual "other" Demo.two_machines) Demo.two_machines)
        = Some g'
    ∧ gs_id g' = "other".
Proof.
  destruct (@setActiveMachine_activates Demo.usual "other" Demo.two_machines
              (Demo.machine "other" Demo.two_extruders) []
              (Demo.after (@setActiveMachine Demo.usual "other" Demo.two_machines)
                 Demo.two_machines))
    as (g' & Hg & Hid & _).
  - vm_compute. reflexivity.
  - vm_compute. reflexivity.
  - vm_compute. reflexivity.
  - exists g'. exact (conj Hg Hid).
Defined.

(** ** More on the extruders *)

Section Extruders.
Context `{Collaborators}.

(** *** The default extruder and the count of enabled extruders *)

(** A second [updateDefaultExtruder] changes nothing: the position stays and
    [extruderChanged] is not emitted again. *)
Theorem updateDefaultExtruder_twice s :
  updateDefaultExtruder (updateDefaultExtruder s) = updateDefaultExtruder s.
Proof.
  unfold updateDefaultExtruder at 2 3.
  destruct (_global_container_stack s) as [g|] eqn:Hg.
  - destruct (decide _) as [Hne|He].
    + unfold updateDefaultExtruder. simpl. rewrite Hg.
      by rewrite decide_False by (by intros ?).
    + unfold updateDefaultExtruder. rewrite Hg. by rewrite decide_False.
  - unfold updateDefaultExtruder. by rewrite Hg.
Qed.

Lemma count_enabled_step machine_extruder_count it acc n :
  count_enabled machine_extruder_count it acc = Ok n ->
  n = acc + (if is_counted machine_extruder_count it then 1 else 0).
Proof.
  unfold count_enabled, is_counted.
  destruct (es_isEnabled it.2); simpl; [|intros [= <-]; lia].
  destruct (int it.1) as [p|]; simpl; [|done].
  destruct machine_extruder_count as [[c|?]|]; simpl; try done.
  destruct (bool_decide (p < c)); simpl; intros [= <-]; lia.
Qed.

Lemma count_enabled_sum machine_extruder_count l :
  ∀ acc n,
  for_each (count_enabled machine_extruder_count) l acc = Ok n ->
  n = acc + Z.of_nat
              (length (filter (fun it => is_counted machine_extruder_count it = true) l)).
Proof.
  induction l as [|it l IH]; intros acc n.
  - intros [= <-]. simpl. lia.
  - rewrite for_each_cons, filter_cons.
    destruct (count_enabled machine_extruder_count it acc) as [acc1|] eqn:Hit;
      [|done].
    apply count_enabled_step in Hit.
    intros Hn. change (for_each (count_enabled machine_extruder_count) l acc1 = Ok n) in Hn.
    apply IH in Hn.
    destruct (is_counted machine_extruder_count it) eqn:Hc.
    + rewrite decide_True by done. simpl length. lia.
    + rewrite decide_False by done. lia.
Qed.

Lemma first_defined_ext (key : string) (l l' : list (gmap string SettingValue)) :
  Forall2 (fun v v' => v !! key = v' !! key) l l' ->
  match list_find (fun v : gmap string SettingValue => is_Some (v !! key)) l with
  | Some (_, v) => v !! key
  | None => None
  end
  = match list_find (fun v : gmap string SettingValue => is_Some (v !! key)) l' with
    | Some (_, v) => v !! key
    | None => None
    end.
Proof.
  induction 1 as [|v v' l l' Hv Hl IH]; [done|].
  cbn [list_find]. rewrite <- Hv.
  destruct (decide (is_Some (v !! key))); [done|].
  destruct (list_find _ l) as [[? ?]|], (list_find _ l') as [[? ?]|]; simpl in *; done.
Qed.

Lemma getProperty_value_definitionChanges g key key' v :
  key ≠ key' ->
  getProperty_value
    (set_gs_definitionChanges (setProperty key' v (gs_definitionChanges g)) g) key
  = getProperty_value g key.
Proof.
  intros Hne. unfold getProperty_value. apply first_defined_ext.
  repeat constructor. unfold setProperty. simpl. by rewrite lookup_insert_ne.
Qed.

(** [updateNumberExtrudersEnabled] stores the number of enabled extruders
    whose position is below the extruder count, and emits
    [numberExtrudersEnabledChanged] exactly when the stored number changes. *)
Theorem updateNumberExtrudersEnabled_counts s g s' :
  _global_container_stack s = Some g ->
  updateNumberExtrudersEnabled s = Ok s' ->
  numberExtrudersEnabled s' = Some (IntValue (enabled_count g))
  ∧ emitted s' =
    emitted s ++
      (if decide (numberExtrudersEnabled s = Some (IntValue (enabled_count g)))
       then [] else [numberExtrudersEnabledChanged]).
Proof.
  intros Hg. unfold updateNumberExtrudersEnabled. rewrite Hg.
  destruct (for_each _ _ _) as [n|] eqn:Hn; simpl; [|done].
  apply count_enabled_sum in Hn. rewrite Z.add_0_l in Hn. fold (enabled_count g) in Hn.
  subst n.
  destruct (decide (numberExtrudersEnabled s ≠ _)) as [Hne|He].
  - intros [= <-]. split.
    + unfold numberExtrudersEnabled, setProperty. simpl. by rewrite lookup_insert_eq.
    + simpl. by rewrite decide_False.
  - intros [= <-]. apply dec_stable in He. split; [done|].
    rewrite decide_True by done. by rewrite app_nil_r.
Qed.

(** A second [updateNumberExtrudersEnabled] changes nothing and emits
    nothing. *)
Theorem updateNumberExtrudersEnabled_twice s s' :
  updateNumberExtrudersEnabled s = Ok s' ->
  updateNumberExtrudersEnabled s' = Ok s'.
Proof.
  unfold updateNumberExtrudersEnabled at 1.
  destruct (_global_container_stack s) as [g|] eqn:Hg.
  - destruct (for_each _ _ _) as [n|] eqn:Hn; simpl; [|done].
    destruct (decide (numberExtrudersEnabled s ≠ _)) as [Hne|He].
    + intros [= <-]. unfold updateNumberExtrudersEnabled. simpl.
      rewrite getProperty_value_definitionChanges by done. rewrite Hn. simpl.
      rewrite decide_False; [done|].
      intros Hx. apply Hx. unfold numberExtrudersEnabled, setProperty. simpl.
      by rewrite lookup_insert_eq.
    + intros [= <-]. unfold updateNumberExtrudersEnabled. rewrite Hg, Hn. simpl.
      by rewrite decide_False.
  - intros [= <-]. unfold updateNumberExtrudersEnabled. by rewrite Hg.
Qed.

(** *** Enabling and disabling an extruder *)

Lemma forceUpdateAllSettings_preserves s : preserves s (forceUpdateAllSettings s).
Proof.
  unfold forceUpdateAllSettings. destruct (_global_container_stack s) as [g|]; [|done].
  generalize (gs_id g :: (es_id <$> (snd <$> map_to_list (gs_extruders g)))).
  intros l. revert s. induction l as [|id l IH]; intros s; [done|].
  simpl. etrans; [|apply IH]. apply preserves_emit.
Qed.

Lemma correctExtruderSettings_keeps s s' :
  correctExtruderSettings s = Ok s' ->
  active_id s' = active_id s ∧ extruder_flags s' = extruder_flags s
  ∧ registry s' = registry s.
Proof.
  unfold correctExtruderSettings.
  destruct (_global_container_stack s) as [g|] eqn:Hg; [|by intros [= <-]].
  destruct (getIncompatibleSettingsOnEnabledExtruders _ s) as [to_remove|];
    simpl; [|done].
  destruct (getIncompatibleSettingsOnEnabledExtruders _ _) as [add|]; simpl; [|done].
  intros [= <-].
  destruct (bool_decide (add ≠ [])); unfold active_id, extruder_flags; simpl;
    by rewrite ?Hg.
Qed.

(** [setExtruderEnabled] sets the flag of the extruder at the position and
    of no other; the active machine and the registry stay as they are. *)
Theorem setExtruderEnabled_flags position enabled s extruder s' :
  getExtruder position s = Some extruder ->
  setExtruderEnabled position enabled s = Ok s' ->
  active_id s' = active_id s
  ∧ registry s' = registry s
  ∧ extruder_flags s'
    = <[str position := (es_definition_name extruder, enabled)]> (extruder_flags s).
Proof.
  intros He. unfold setExtruderEnabled. rewrite He.
  unfold getExtruder in He.
  destruct (_global_container_stack s) as [g|] eqn:Hg; [|done].
  set (s0 := with_global_stack _ s).
  assert (active_id s0 = active_id s ∧ registry s0 = registry s
          ∧ extruder_flags s0
            = <[str position := (es_definition_name extruder, enabled)]>
                (extruder_flags s)) as (A0 & R0 & F0).
  { subst s0. unfold active_id, extruder_flags. simpl. rewrite Hg. simpl.
    split; [done|]. split; [done|]. unfold flags_of. simpl. by rewrite fmap_insert. }
  destruct (updateNumberExtrudersEnabled _) as [s1|] eqn:Hs1; simpl; [|done].
  apply updateNumberExtrudersEnabled_preserves in Hs1.
  pose proof (preserves_trans _ _ _ (updateDefaultExtruder_preserves s0) Hs1)
    as (A1 & F1 & R1 & _).
  destruct (correctExtruderSettings s1) as [s2|] eqn:Hs2; simpl; [|done].
  apply correctExtruderSettings_keeps in Hs2 as (A2 & F2 & R2).
  set (step := if negb enabled && _ then _ else _).
  assert (∀ s3, step = Ok s3 ->
            active_id s3 = active_id s2 ∧ extruder_flags s3 = extruder_flags s2
            ∧ registry s3 = registry s2) as Hstep.
  { subst step. intros s3. destruct (negb enabled && _).
    - destruct (int _); simpl; [|done]. by intros [= <-].
    - by intros [= <-]. }
  destruct step as [s3|]; simpl; [|done].
  destruct (Hstep s3 eq_refl) as (A3 & F3 & R3).
  destruct (_updateQualityWithMaterial s3) as [s4|] eqn:Hs4; simpl; [|done].
  apply _updateQualityWithMaterial_preserves in Hs4 as (A4 & F4 & R4 & _).
  intros [= <-].
  assert (preserves s4
            (emit activeMaterialChanged
               (forceUpdateAllSettings
                  (emit (extrudersChanged (gs_id g))
                     (emit activeQualityGroupChanged (emit extruderChanged s4))))))
    as (A5 & F5 & R5 & _).
  { etrans; [|apply preserves_emit].
    etrans; [|apply forceUpdateAllSettings_preserves].
    etrans; [|apply preserves_emit]. etrans; [|apply preserves_emit].
    apply preserves_emit. }
  rewrite A5, F5, R5. split; [congruence|]. split; congruence.
Qed.

(** *** Settings that name an extruder *)

Lemma incompatible_setting_grows g extruder_count it acc acc' :
  incompatible_setting g extruder_count it acc = Ok acc' ->
  acc' = acc
  ∨ (acc' = acc ++ [it.1]
     ∧ getProperty_type g it.1 ∈ [Some "extruder"; Some "optional_extruder"]
     ∧ ∃ n, value_int it.2 = Ok n ∧ 0 <= n
         ∧ (int_ge n extruder_count = Ok true
            ∨ ∃ extruder, gs_extruders g !! value_str it.2 = Some extruder
                          ∧ es_isEnabled extruder = false)).
Proof.
  unfold incompatible_setting.
  destruct (bool_decide (getProperty_type g it.1 ∈ _)) eqn:Ht; simpl;
    [|intros [= <-]; by left].
  apply bool_decide_eq_true in Ht.
  destruct (value_int it.2) as [n|] eqn:Hn; simpl; [|done].
  destruct (bool_decide (n < 0)) eqn:Hneg; simpl; [intros [= <-]; by left|].
  apply bool_decide_eq_false in Hneg.
  destruct (int_ge n extruder_count) as [[|]|] eqn:Hge; simpl; [| |done].
  - intros [= <-]. right. split; [done|]. split; [done|].
    exists n. split; [done|]. split; [lia|]. by left.
  - unfold getitem. destruct (gs_extruders g !! value_str it.2) as [e|] eqn:Hl;
      simpl; [|done].
    destruct (es_isEnabled e) eqn:Hen; simpl; intros [= <-]; [by left|].
    right. split; [done|]. split; [done|].
    exists n. split; [done|]. split; [lia|]. right. eauto.
Qed.

(** What [getIncompatibleSettingsOnEnabledExtruders] lists: settings of the
    container, of an extruder type, whose value is a number from 0 up that is
    not below the extruder count or names a disabled extruder. A setting at -1
    is never listed. *)
Theorem getIncompatibleSettingsOnEnabledExtruders_sound container s g result :
  _global_container_stack s = Some g ->
  getIncompatibleSettingsOnEnabledExtruders container s = Ok result ->
  ∀ setting_key, setting_key ∈ result ->
    getProperty_type g setting_key ∈ [Some "extruder"; Some "optional_extruder"]
    ∧ ∃ old_value n,
        c_values container !! setting_key = Some old_value
        ∧ value_int old_value = Ok n ∧ 0 <= n
        ∧ (int_ge n (getProperty_value g "machine_extruder_count") = Ok true
           ∨ ∃ extruder, gs_extruders g !! value_str old_value = Some extruder
                         ∧ es_isEnabled extruder = false).
Proof.
  intros Hg. unfold getIncompatibleSettingsOnEnabledExtruders. rewrite Hg.
  set (count := getProperty_value g "machine_extruder_count").
  assert (∀ l acc res,
            (∀ it, it ∈ l -> c_values container !! it.1 = Some it.2) ->
            for_each (incompatible_setting g count) l acc = Ok res ->
            ∀ k, k ∈ res ->
              k ∈ acc
              ∨ (getProperty_type g k ∈ [Some "extruder"; Some "optional_extruder"]
                 ∧ ∃ old_value n,
                     c_values container !! k = Some old_value
                     ∧ value_int old_value = Ok n ∧ 0 <= n
                     ∧ (int_ge n count = Ok true
                        ∨ ∃ extruder,
                            gs_extruders g !! value_str old_value = Some extruder
                            ∧ es_isEnabled extruder = false))) as Hloop.
  { induction l as [|it l IH]; intros acc res Hl.
    - intros [= <-] k Hk. by left.
    - rewrite for_each_cons.
      destruct (incompatible_setting g count it acc) as [acc1|] eqn:Hit; simpl; [|done].
      intros Hres k Hk.
      destruct (IH acc1 res (fun it' Hin => Hl it' (list_elem_of_further _ _ _ Hin))
                  Hres k Hk) as [Hacc1|Hnew]; [|by right].
      apply incompatible_setting_grows in Hit as [->|(-> & Ht & n & Hn & H0 & Hwhy)];
        [by left|].
      apply elem_of_app in Hacc1 as [?|Hk1]; [by left|].
      apply list_elem_of_singleton in Hk1 as ->.
      right. split; [done|]. exists it.2, n. split; [|done].
      apply Hl. by left. }
  intros Hres k Hk.
  destruct (Hloop _ _ _ (fun it Hin => proj1 (elem_of_map_to_list' _ it) Hin) Hres k Hk)
    as [Hnil|Hdone]; [|done].
  by apply elem_of_nil in Hnil.
Qed.
End Extruders.

Lemma updateNumberExtrudersEnabled_counts_witness :
  numberExtrudersEnabled
    (Demo.after (updateNumberExtrudersEnabled Demo.second_off_manager) Demo.second_off_manager)
  = Some (IntValue 1).
Proof.
  apply (updateNumberExtrudersEnabled_counts Demo.second_off_manager Demo.second_off).
  - reflexivity.
  - vm_compute. reflexivity.
Defined.

Lemma updateNumberExtrudersEnabled_twice_witness :
  updateNumberExtrudersEnabled
    (Demo.after (updateNumberExtrudersEnabled Demo.second_off_manager) Demo.second_off_manager)
  = Ok (Demo.after (updateNumberExtrudersEnabled Demo.second_off_manager) Demo.second_off_manager).
Proof.
  apply (updateNumberExtrudersEnabled_twice Demo.second_off_manager).
  vm_compute. reflexivity.
Defined.

Lemma setExtruderEnabled_flags_witness :
  extruder_flags
    (Demo.after (@setExtruderEnabled Demo.usual 1 false Demo.s0) Demo.s0)
  = <[str 1 := ("Extruder 1", false)]> (extruder_flags Demo.s0).
Proof.
  apply (@setExtruderEnabled_flags Demo.usual 1 false Demo.s0
           (Demo.extruder "1" Demo.pla true)).
  - vm_compute. reflexivity.
  - vm_compute. reflexivity.
Defined.

Lemma getIncompatibleSettingsOnEnabledExtruders_sound_witness :
  getProperty_type Demo.second_off "support_extruder_nr"
  ∈ [Some "extruder"; Some "optional_extruder"].
Proof.
  apply (getIncompatibleSettingsOnEnabledExtruders_sound (Demo.support_with "1")
           Demo.second_off_manager Demo.second_off ["support_extruder_nr"]).
  - reflexivity.
  - vm_compute. reflexivity.
  - apply (bool_decide_unpack _). vm_compute. exact I.
Defined.

(** ** More on quality and quality changes *)

Section QualityStates.
Context `{Collaborators}.

Lemma _setEmptyQuality_spec s g :
  _global_container_stack s = Some g ->
  _current_quality_group (_setEmptyQuality s) = None
  ∧ _current_quality_changes_group (_setEmptyQuality s) = None
  ∧ ∃ g', _global_container_stack (_setEmptyQuality s) = Some g'
          ∧ all_quality_empty g'.
Proof.
  intros Hg. unfold _setEmptyQuality. rewrite Hg. simpl.
  split; [done|]. split; [done|]. eexists. split; [done|].
  split; [done|]. split; [done|]. simpl.
  intros p e. rewrite lookup_fmap. destruct (gs_extruders g !! p); simpl; [|done].
  by intros [= <-].
Qed.

(** With an enabled extruder whose material is not compatible,
    [_updateQualityWithMaterial] completes and leaves no current quality
    group; if there was one, the manager ends in the not-supported state with
    the empty quality on every stack. *)
Theorem _updateQualityWithMaterial_incompatible s :
  activeMaterialsCompatible s = false ->
  ∃ s', _updateQualityWithMaterial s = Ok s'
    ∧ _current_quality_group s' = None
    ∧ (is_Some (_current_quality_group s) ->
       hasNotSupportedQuality s' = true
       ∧ ∃ g', _global_container_stack s' = Some g' ∧ all_quality_empty g').
Proof.
  intros Hcompatible. unfold _updateQualityWithMaterial.
  destruct (_global_container_stack s) as [g|] eqn:Hg.
  2:{ unfold activeMaterialsCompatible in Hcompatible. by rewrite Hg in Hcompatible. }
  rewrite Hcompatible. simpl. eexists. split; [done|].
  destruct (_current_quality_group s) as [qg|] eqn:Hqg; simpl.
  - destruct (_setEmptyQuality_spec s g Hg) as (Hq & Hc & Hstacks).
    split; [done|]. intros _. split; [|done].
    unfold hasNotSupportedQuality. by rewrite Hq, Hc.
  - split; [done|]. by intros [? ?].
Qed.

(** While the current quality type is still on offer,
    [_updateQualityWithMaterial] does not reset the quality changes: the
    quality-changes group stays, and the current quality group is the group
    the catalog holds for that type, or the old one. *)
Theorem _updateQualityWithMaterial_keeps_quality_changes s g qg s' :
  _global_container_stack s = Some g ->
  activeMaterialsCompatible s = true ->
  _current_quality_group s = Some qg ->
  qg_quality_type qg ∈ available_quality_types (getQualityGroups g) ->
  _updateQualityWithMaterial s = Ok s' ->
  _current_quality_changes_group s' = _current_quality_changes_group s
  ∧ ∃ quality_group,
      od_get (getQualityGroups g) (qg_quality_type qg) = Some quality_group
      ∧ (_current_quality_group s' = Some quality_group
         ∨ _current_quality_group s' = Some qg).
Proof.
  intros Hg Hcompatible Hqg Havailable. unfold _updateQualityWithMaterial.
  rewrite Hg, Hcompatible, Hqg. simpl.
  rewrite bool_decide_eq_false_2
    by (intros E; rewrite E in Havailable; by apply elem_of_nil in Havailable).
  rewrite bool_decide_eq_true_2 by done.
  unfold od_getitem.
  destruct (od_get (getQualityGroups g) (qg_quality_type qg)) as [group|] eqn:Hgroup;
    simpl; [|done].
  rewrite _setQualityGroup_cases, Hg.
  destruct (getContainer _) as [c|];
    [|intros [= <-]; split; [done|]; exists group; split; [done|by right]].
  case_bool_decide;
    [|intros [= <-]; split; [done|]; exists group; split; [done|by right]].
  case_bool_decide; [|done].
  intros [= <-]. simpl. split; [done|]. exists group. split; [done|by left].
Qed.

(** The only exception [_setQualityGroup] raises is the [KeyError] for a
    position of the group at which the machine has no extruder. *)
Theorem _setQualityGroup_raises quality_group b s g e :
  _global_container_stack s = Some g ->
  _setQualityGroup (Some quality_group) b s = Raise e ->
  e = KeyError
  ∧ ∃ position, is_Some (qg_nodes_for_extruders quality_group !! position)
                ∧ gs_extruders g !! position = None.
Proof.
  intros Hg. rewrite _setQualityGroup_cases, Hg.
  destruct (getContainer _) as [c|]; [|done].
  case_bool_decide; [|done].
  case_bool_decide as Hpositions; [done|].
  intros [= <-]. split; [done|].
  apply map_not_Forall in Hpositions as (position & node & Hnode & Hmissing); [|apply _].
  exists position. split; [by eexists|].
  destruct (gs_extruders g !! position); [destruct Hmissing; eauto|done].
Qed.

(** A quality-changes group whose quality type the catalog does not offer is
    turned into a "not_supported" one: it becomes the current quality-changes
    group, there is no current quality group, and the global stack holds the
    empty quality. *)
Theorem _setQualityChangesGroup_unknown_type quality_changes_group s g :
  _global_container_stack s = Some g ->
  od_get (getQualityGroups g) (qcg_quality_type quality_changes_group) = None ->
  let s' := _setQualityChangesGroup quality_changes_group s in
  _current_quality_group s' = None
  ∧ qcg_quality_type <$> _current_quality_changes_group s' = Some "not_supported"
  ∧ qcg_name <$> _current_quality_changes_group s'
    = Some (qcg_name quality_changes_group)
  ∧ hasNotSupportedQuality s' = false
  ∧ ∃ g', _global_container_stack s' = Some g'
      ∧ gs_quality g' = empty_quality_container
      ∧ map_Forall (fun _ extruder => es_quality extruder = empty_quality_container)
          (gs_extruders g').
Proof.
  intros Hg Hunknown. unfold _setQualityChangesGroup. rewrite Hg, Hunknown.
  assert ((if decide (qcg_quality_type quality_changes_group ≠ "not_supported")
           then @None QualityGroup else None) = None) as -> by (by destruct (decide _)).
  simpl.
  split; [done|]. split.
  { destruct (decide _) as [_|Hno]; [done|]. simpl. f_equal.
    apply not_and_l in Hno as [Hno|Hno]; [by apply dec_stable in Hno|done]. }
  split; [by destruct (decide _)|]. split.
  { by unfold hasNotSupportedQuality. }
  eexists. split; [done|]. split; [done|]. simpl.
  intros p e. rewrite map_lookup_imap.
  destruct (gs_extruders g !! p); simpl; [|done]. by intros [= <-].
Qed.

(** [resetToUseDefaultQuality] leaves no user setting behind. *)
Theorem resetToUseDefaultQuality_clears s s' :
  resetToUseDefaultQuality s = Ok s' -> hasUserSettings s' = false.
Proof.
  unfold resetToUseDefaultQuality.
  destruct (_global_container_stack s) as [g|] eqn:Hg.
  2:{ intros [= <-]. unfold hasUserSettings. by rewrite Hg. }
  destruct (_setQualityGroup _ _ _) as [s1|]; simpl; [|done].
  unfold the_global_stack. destruct (_global_container_stack s1) as [g1|]; simpl; [|done].
  intros [= <-]. unfold hasUserSettings. simpl.
  rewrite bool_decide_eq_false_2 by (by intros ?).
  apply bool_decide_eq_false_2.
  intros (e & He & Hvalues)%Exists_exists.
  apply getActiveExtruderStacks_extruders in He.
  apply list_elem_of_fmap in He as ([p e'] & -> & Hin).
  apply elem_of_map_to_list in Hin. simpl in Hin. rewrite lookup_fmap in Hin.
  destruct (gs_extruders g1 !! p); simpl in Hin; [|done].
  injection Hin as <-. by apply Hvalues.
Qed.
End QualityStates.

Lemma _updateQualityWithMaterial_incompatible_witness :
  ∃ s', @_updateQualityWithMaterial Demo.usual
          (Demo.manager
             (Demo.machine "um3"
                {[ "0" := Demo.extruder "0" Demo.pva true;
                   "1" := Demo.extruder "1" Demo.pla true ]}) [])
        = Ok s'
    ∧ _current_quality_group s' = None.
Proof.
  destruct (@_updateQualityWithMaterial_incompatible Demo.usual
              (Demo.manager
                 (Demo.machine "um3"
                    {[ "0" := Demo.extruder "0" Demo.pva true;
                       "1" := Demo.extruder "1" Demo.pla true ]}) []))
    as (s' & Hrun & Hnone & _).
  - vm_compute. reflexivity.
  - exists s'. exact (conj Hrun Hnone).
Defined.

Lemma _updateQualityWithMaterial_keeps_quality_changes_witness :
  _current_quality_changes_group
    (Demo.after (@_updateQualityWithMaterial Demo.usual Demo.s0) Demo.s0)
  = _current_quality_changes_group Demo.s0.
Proof.
  apply (@_updateQualityWithMaterial_keeps_quality_changes Demo.usual Demo.s0
           Demo.um3 Demo.normal).
  - reflexivity.
  - vm_compute. reflexivity.
  - reflexivity.
  - apply (bool_decide_unpack _). vm_compute. exact I.
  - vm_compute. reflexivity.
Defined.

Lemma _setQualityGroup_raises_witness :
  ∃ position,
    is_Some (qg_nodes_for_extruders Demo.draft_third_extruder !! position)
    ∧ gs_extruders Demo.um3 !! position = None.
Proof.
  apply (@_setQualityGroup_raises Demo.draft_third_extruder true Demo.s0 Demo.um3
           KeyError).
  - reflexivity.
  - vm_compute. reflexivity.
Defined.

Lemma _setQualityChangesGroup_unknown_type_witness :
  qcg_quality_type
    <$> _current_quality_changes_group
          (@_setQualityChangesGroup Demo.usual
             (mkQualityChangesGroup "fine profile" "fine" None ∅) Demo.s0)
  = Some "not_supported".
Proof.
  apply (@_setQualityChangesGroup_unknown_type Demo.usual
           (mkQualityChangesGroup "fine profile" "fine" None ∅) Demo.s0 Demo.um3).
  - reflexivity.
  - vm_compute. reflexivity.
Defined.

Lemma resetToUseDefaultQuality_clears_witness :
  @hasUserSettings Demo.usual Demo.with_user_setting = true
  ∧ @hasUserSettings Demo.usual
      (Demo.after (resetToUseDefaultQuality Demo.with_user_setting) Demo.with_user_setting)
    = false.
Proof.
  split; [vm_compute; reflexivity|].
  apply (resetToUseDefaultQuality_clears Demo.with_user_setting).
  vm_compute. reflexivity.
Defined.

(** ** More on materials, on the setters and on the synchronisation *)

Section Selections.
Context `{Collaborators}.

(** [_setMaterial] stores the container of the node (the empty material
    when there is none) at the position; the cache of root materials is left
    alone when it already holds the root id of the node at the position, and
    is otherwise rebuilt from the materials of all extruders. *)
Theorem _setMaterial_cache position container_node s g s' :
  _global_container_stack s = Some g ->
  _setMaterial position container_node s = Ok s' ->
  ∃ g', _global_container_stack s' = Some g'
    ∧ es_material <$> gs_extruders g' !! position = Some (node_material container_node)
    ∧ (∀ q, q ≠ position -> gs_extruders g' !! q = gs_extruders g !! q)
    ∧ _current_root_material_id s'
      = if decide (_current_root_material_id s !! position
                   = Some (node_root_material_id container_node))
        then _current_root_material_id s
        else root_materials_of g'.
Proof.
  intros Hg. unfold _setMaterial. rewrite Hg.
  unfold getitem. destruct (gs_extruders g !! position) as [extruder|] eqn:He;
    simpl; [|done].
  unfold node_material, node_root_material_id.
  destruct (container_node ≫= (fun n => pair n <$> cn_container n)) as [[n c]|] eqn:Hn.
  - assert (container_node ≫= cn_container = Some c) as ->.
    { destruct container_node as [n'|]; simpl in *; [|done].
      destruct (cn_container n'); simpl in *; [|done]. by injection Hn as -> ->. }
    simpl.
    destruct (_current_root_material_id s !! position) as [cached|] eqn:Hc;
      simpl; [|done].
    destruct (decide (cn_base_file n ≠ cached)) as [Hne|Heq]; intros [= <-]; simpl.
    + eexists. split; [done|]. simpl. rewrite lookup_insert_eq. split; [done|].
      split; [by intros q Hq; rewrite lookup_insert_ne|].
      rewrite decide_False by congruence. done.
    + eexists. split; [done|]. simpl. rewrite lookup_insert_eq. split; [done|].
      split; [by intros q Hq; rewrite lookup_insert_ne|].
      apply dec_stable in Heq. rewrite decide_True by congruence. done.
  - assert (container_node ≫= cn_container = None) as ->.
    { destruct container_node as [n'|]; simpl in *; [|done].
      by destruct (cn_container n'). }
    simpl.
    destruct (_current_root_material_id s !! position) as [cached|] eqn:Hc;
      simpl; [|done].
    destruct (decide (None ≠ cached)) as [Hne|Heq]; intros [= <-]; simpl.
    + eexists. split; [done|]. simpl. rewrite lookup_insert_eq. split; [done|].
      split; [by intros q Hq; rewrite lookup_insert_ne|].
      rewrite decide_False by congruence. done.
    + eexists. split; [done|]. simpl. rewrite lookup_insert_eq. split; [done|].
      split; [by intros q Hq; rewrite lookup_insert_ne|].
      apply dec_stable in Heq. rewrite decide_True by congruence. done.
Qed.

(** *** The setters of profiles leave machines and extruders alone *)

Lemma maybe_discardOrKeepProfileChanges_keeps s :
  active_id (maybe_discardOrKeepProfileChanges s) = active_id s
  ∧ extruder_flags (maybe_discardOrKeepProfileChanges s) = extruder_flags s
  ∧ registry (maybe_discardOrKeepProfileChanges s) = registry s.
Proof.
  destruct (maybe_discardOrKeepProfileChanges_spec s) as (Hg & Hr & _).
  unfold active_id, extruder_flags. by rewrite Hg, Hr.
Qed.

(** A change of quality, quality changes, material or variant keeps the
    active machine, the names and the enabled flags of its extruders, and the
    registry. *)
Theorem reconcile_selects_profiles op s s' :
  selects_profiles op = true ->
  reconcile op s = Ok s' ->
  active_id s' = active_id s
  ∧ extruder_flags s' = extruder_flags s
  ∧ registry s' = registry s.
Proof.
  intros Hop.
  assert (∀ x y, preserves x y ->
            active_id (maybe_discardOrKeepProfileChanges y) = active_id x
            ∧ extruder_flags (maybe_discardOrKeepProfileChanges y) = extruder_flags x
            ∧ registry (maybe_discardOrKeepProfileChanges y) = registry x) as Hdialog.
  { intros x y (A & F & R & _).
    destruct (maybe_discardOrKeepProfileChanges_keeps y) as (-> & -> & ->). done. }
  assert (∀ x y, preserves x y ->
            active_id y = active_id x ∧ extruder_flags y = extruder_flags x
            ∧ registry y = registry x) as Hplain.
  { by intros x y (A & F & R & _). }
  destruct op as [quality_group no_dialog|quality_changes_group no_dialog|
                  |position node|position node|node| | | |]; try done; simpl.
  - unfold setQualityGroup. simpl.
    destruct (_setQualityGroup _ _ _) as [s1|] eqn:Hs1; simpl; [|done].
    apply _setQualityGroup_preserves in Hs1.
    pose proof (preserves_trans _ _ _ (preserves_emit blurSettings s) Hs1) as Hp.
    intros [= <-]. destruct no_dialog; [by apply Hplain|by apply Hdialog].
  - intros [= <-]. unfold setQualityChangesGroup.
    pose proof (preserves_trans _ _ _ (preserves_emit blurSettings s)
                  (_setQualityChangesGroup_preserves quality_changes_group _)) as Hp.
    destruct no_dialog; [by apply Hplain|by apply Hdialog].
  - unfold resetToUseDefaultQuality.
    destruct (_global_container_stack s) as [g|] eqn:Hg; [|by intros [= <-]].
    destruct (_setQualityGroup _ _ _) as [s1|] eqn:Hs1; simpl; [|done].
    apply _setQualityGroup_preserves in Hs1.
    unfold the_global_stack.
    destruct (_global_container_stack s1) as [g1|] eqn:Hg1; simpl; [|done].
    intros [= <-]. apply Hplain. etrans; [exact Hs1|].
    apply (preserves_with_global_stack g1); [done|done|].
    unfold flags_of. simpl. rewrite <- map_fmap_compose. by apply map_fmap_ext.
  - unfold setMaterial. simpl.
    destruct (_setMaterial _ _ _) as [s1|] eqn:Hs1; simpl; [|done].
    destruct (_updateQualityWithMaterial s1) as [s2|] eqn:Hs2; simpl; [|done].
    intros [= <-]. apply Hdialog.
    etrans; [apply (preserves_emit blurSettings)|].
    etrans; [by apply _setMaterial_preserves in Hs1|].
    by apply _updateQualityWithMaterial_preserves.
  - unfold setVariant. destruct node as [n|]; simpl; [|done].
    destruct (_setVariantNode _ _ _) as [s1|] eqn:Hs1; simpl; [|done].
    destruct (updateMaterialWithVariant _ s1) as [s2|] eqn:Hs2; simpl; [|done].
    destruct (_updateQualityWithMaterial s2) as [s3|] eqn:Hs3; simpl; [|done].
    intros [= <-]. apply Hdialog.
    etrans; [apply (preserves_emit blurSettings)|].
    etrans; [by apply _setVariantNode_preserves in Hs1|].
    etrans; [by apply updateMaterialWithVariant_preserves in Hs2|].
    by apply _updateQualityWithMaterial_preserves.
  - unfold setGlobalVariant.
    destruct (updateMaterialWithVariant _ _) as [s1|] eqn:Hs1; simpl; [|done].
    intros Hs2. apply Hplain.
    etrans; [apply (preserves_emit blurSettings)|].
    etrans; [apply _setGlobalVariant_preserves|].
    etrans; [by apply updateMaterialWithVariant_preserves in Hs1|].
    by apply _updateQualityWithMaterial_preserves.
  - unfold _updateUponMaterialMetadataChange.
    destruct (_global_container_stack s) as [g|]; [|by intros [= <-]].
    destruct (updateMaterialWithVariant _ _) as [s1|] eqn:Hs1; simpl; [|done].
    intros Hs2. apply Hplain.
    etrans; [by apply updateMaterialWithVariant_preserves in Hs1|].
    by apply _updateQualityWithMaterial_preserves.
Qed.

(** *** Synchronising with a printer: exceptions *)

(** A printer of a type no definition is known for: the synchronisation
    ends with the [IndexError] of [switchPrinterType]. *)
Theorem applyRemoteConfiguration_unknown_printer configuration s g :
  _global_container_stack s = Some g ->
  def_name (gs_definition g) ≠ printerType configuration ->
  findDefinitionContainers_by_name (printerType configuration) = [] ->
  applyRemoteConfiguration configuration s = Raise IndexError.
Proof.
  intros Hg Hname Hunknown. unfold applyRemoteConfiguration. rewrite Hg.
  unfold switchPrinterType. simpl. rewrite Hg.
  rewrite bool_decide_eq_false_2 by done. by rewrite Hunknown.
Qed.

(** A machine without extruders and a report without extruders: the lowest
    position is asked of an empty set. *)
Theorem applyRemoteConfiguration_no_extruders configuration s s1 g :
  is_Some (_global_container_stack s) ->
  switchPrinterType (printerType configuration) (emit blurSettings s) = Ok s1 ->
  _global_container_stack s1 = Some g ->
  gs_extruders g = ∅ ->
  extruderConfigurations configuration = [] ->
  applyRemoteConfiguration configuration s = Raise ValueError.
Proof.
  intros [g0 Hg0] Hswitch Hg Hnone Hempty.
  unfold applyRemoteConfiguration. rewrite Hg0, Hswitch. simpl.
  unfold the_global_stack. rewrite Hg. simpl.
  unfold spare_first, extruders_lacking. rewrite Hnone, Hempty. done.
Qed.
End Selections.

Lemma _setMaterial_cache_witness :
  ∃ g', _global_container_stack
          (Demo.after (@_setMaterial "0" (Some (Demo.node_of Demo.abs)) Demo.s0) Demo.s0)
        = Some g'
    ∧ es_material <$> gs_extruders g' !! "0" = Some Demo.abs.
Proof.
  destruct (@_setMaterial_cache "0" (Some (Demo.node_of Demo.abs)) Demo.s0 Demo.um3
              (Demo.after (@_setMaterial "0" (Some (Demo.node_of Demo.abs)) Demo.s0)
                 Demo.s0))
    as (g' & Hg & Hm & _).
  - reflexivity.
  - vm_compute. reflexivity.
  - exists g'. exact (conj Hg Hm).
Defined.

Lemma reconcile_selects_profiles_witness :
  extruder_flags
    (Demo.after
       (@reconcile Demo.usual (SetMaterial "0" (Some (Demo.node_of Demo.abs))) Demo.s0)
       Demo.s0)
  = extruder_flags Demo.s0.
Proof.
  apply (@reconcile_selects_profiles Demo.usual
           (SetMaterial "0" (Some (Demo.node_of Demo.abs))) Demo.s0).
  - reflexivity.
  - vm_compute. reflexivity.
Defined.

Lemma applyRemoteConfiguration_unknown_printer_witness :
  @applyRemoteConfiguration Demo.usual Demo.unknown_printer Demo.s0 = Raise IndexError.
Proof.
  apply (@applyRemoteConfiguration_unknown_printer Demo.usual Demo.unknown_printer Demo.s0
           Demo.um3).
  - reflexivity.
  - vm_compute. discriminate.
  - reflexivity.
Defined.

Lemma applyRemoteConfiguration_no_extruders_witness :
  @applyRemoteConfiguration Demo.usual (Demo.nothing_there []) Demo.no_extruders
  = Raise ValueError.
Proof.
  apply (@applyRemoteConfiguration_no_extruders Demo.usual (Demo.nothing_there [])
           Demo.no_extruders (emit blurSettings Demo.no_extruders) (Demo.machine "um3" ∅)).
  - vm_compute. eauto.
  - vm_compute. reflexivity.
  - reflexivity.
  - reflexivity.
  - reflexivity.
Defined.

(** ** Settings of all extruders, and a new extruder count *)

Section Settings.
Context `{Collaborators}.

Lemma set_c_values_twice v w c : set_c_values v (set_c_values w c) = set_c_values v c.
Proof. done. Qed.

(** Resetting a setting undoes setting it: [resetSettingForAllExtruders]
    after [setSettingForAllExtruders] is [resetSettingForAllExtruders]. *)
Theorem resetSettingForAllExtruders_after_set setting_name property_value s :
  resetSettingForAllExtruders setting_name
    (setSettingForAllExtruders setting_name property_value s)
  = resetSettingForAllExtruders setting_name s.
Proof.
  unfold resetSettingForAllExtruders, setSettingForAllExtruders.
  destruct (_global_container_stack s) as [g|] eqn:Hg; simpl; [|by rewrite Hg].
  unfold with_global_stack, set_global_container_stack. simpl. f_equal. f_equal.
  unfold set_gs_extruders. simpl. f_equal.
  rewrite <- map_fmap_compose. apply map_fmap_ext. intros p e _. simpl.
  unfold set_es_userChanges. simpl. f_equal.
  unfold removeInstance, setProperty. simpl.
  by rewrite set_c_values_twice, delete_insert_eq.
Qed.

(** After [setSettingForAllExtruders] every extruder holds the value in its
    user changes and its other user changes are as before; the machine has
    user settings as soon as [getActiveExtruderStacks] lists a stack of
    it. *)
Theorem setSettingForAllExtruders_sets setting_name property_value s g :
  _global_container_stack s = Some g ->
  extruder_userChanges (setSettingForAllExtruders setting_name property_value s)
  = <[setting_name := property_value]> <$> extruder_userChanges s
  ∧ ∃ g',
      _global_container_stack (setSettingForAllExtruders setting_name property_value s)
      = Some g'
      ∧ (getActiveExtruderStacks g' ≠ [] ->
         hasUserSettings (setSettingForAllExtruders setting_name property_value s)
         = true).
Proof.
  intros Hg. unfold setSettingForAllExtruders, extruder_userChanges. rewrite Hg. simpl.
  split.
  - rewrite <- !map_fmap_compose. by apply map_fmap_ext.
  - eexists. split; [done|].
    intros Hlisted. unfold hasUserSettings. simpl.
    destruct (bool_decide (c_values (gs_userChanges g) ≠ ∅)); [done|].
    apply bool_decide_eq_true_2, Exists_exists.
    destruct (getActiveExtruderStacks _) as [|stack stacks] eqn:Hstacks; [done|].
    exists stack. split; [by left|].
    assert (stack ∈ stack :: stacks) as Hin by (by left).
    rewrite <- Hstacks in Hin. apply getActiveExtruderStacks_extruders in Hin.
    apply list_elem_of_fmap in Hin as ([p e] & -> & Hin).
    apply elem_of_map_to_list in Hin. simpl in Hin. rewrite lookup_fmap in Hin.
    destruct (gs_extruders g !! p); simpl in Hin; [|done].
    injection Hin as <-. simpl. apply insert_non_empty.
Qed.

(** The name shown for the active quality is the name of the custom profile
    as soon as one is selected, whatever becomes of its quality type. *)
Theorem activeQualityOrQualityChangesName_custom quality_changes_group s :
  is_Some (_global_container_stack s) ->
  activeQualityOrQualityChangesName (_setQualityChangesGroup quality_changes_group s)
  = qcg_name quality_changes_group.
Proof.
  intros [g Hg]. unfold _setQualityChangesGroup, activeQualityOrQualityChangesName.
  rewrite Hg. simpl. by destruct (decide (_ ∧ _)).
Qed.

(** *** A new extruder count *)

Lemma migrate_setting_step it g g' :
  migrate_setting it g = Ok g' ->
  gs_id g' = gs_id g
  ∧ gs_definition g' = gs_definition g
  ∧ gs_definitionChanges g' = gs_definitionChanges g
  ∧ (∀ k, c_values (gs_userChanges g') !! k
          = if decide (k = it.1 ∧ getProperty_settable_per_extruder g k = true)
            then None else c_values (gs_userChanges g) !! k).
Proof.
  unfold migrate_setting.
  destruct (getProperty_settable_per_extruder g it.1) eqn:Hs.
  - destruct (getProperty_limit_to_extruder g it.1) as [n|]; simpl; [|done].
    intros [= <-].
    assert (∀ g1 : GlobalStack,
              gs_userChanges g1 = gs_userChanges g -> gs_id g1 = gs_id g ->
              gs_definition g1 = gs_definition g ->
              gs_definitionChanges g1 = gs_definitionChanges g ->
              gs_id (set_gs_userChanges (removeInstance it.1 (gs_userChanges g1)) g1)
              = gs_id g
              ∧ gs_definition
                  (set_gs_userChanges (removeInstance it.1 (gs_userChanges g1)) g1)
                = gs_definition g
              ∧ gs_definitionChanges
                  (set_gs_userChanges (removeInstance it.1 (gs_userChanges g1)) g1)
                = gs_definitionChanges g
              ∧ (∀ k, c_values
                        (gs_userChanges
                           (set_gs_userChanges
                              (removeInstance it.1 (gs_userChanges g1)) g1)) !! k
                      = if decide (k = it.1
                                   ∧ getProperty_settable_per_extruder g k = true)
                        then None else c_values (gs_userChanges g) !! k)) as Hany.
    { intros g1 Hu Hi Hd Hc. simpl. rewrite Hu. repeat split; try done.
      intros k. destruct (decide (k = it.1 ∧ _)) as [[-> _]|Hno].
      - by rewrite lookup_delete_eq.
      - rewrite lookup_delete_ne; [done|]. intros <-. by apply Hno. }
    destruct (gs_extruders g !! str (Z.max 0 n)); by apply Hany.
  - intros [= <-]. repeat split; try done.
    intros k. destruct (decide (k = it.1 ∧ _)) as [[-> Hs']|]; [congruence|done].
Qed.

Lemma migrate_settings l :
  ∀ g g',
  for_each migrate_setting l g = Ok g' ->
  gs_id g' = gs_id g
  ∧ gs_definition g' = gs_definition g
  ∧ gs_definitionChanges g' = gs_definitionChanges g
  ∧ (∀ k, c_values (gs_userChanges g') !! k
          = if decide (k ∈ l.*1 ∧ getProperty_settable_per_extruder g k = true)
            then None else c_values (gs_userChanges g) !! k).
Proof.
  induction l as [|it l IH]; intros g g'.
  - intros [= <-]. repeat split; done.
  - rewrite for_each_cons.
    destruct (migrate_setting it g) as [g1|] eqn:Hit; [|done].
    apply migrate_setting_step in Hit as (I1 & D1 & C1 & U1).
    intros Hrest. change (for_each migrate_setting l g1 = Ok g') in Hrest.
    apply IH in Hrest as (I2 & D2 & C2 & U2).
    split; [congruence|]. split; [congruence|]. split; [congruence|].
    intros k. rewrite U2, U1.
    assert (getProperty_settable_per_extruder g1 k
            = getProperty_settable_per_extruder g k) as ->
      by (unfold getProperty_settable_per_extruder; by rewrite D1).
    rewrite fmap_cons.
    destruct (getProperty_settable_per_extruder g k) eqn:Hs.
    + destruct (decide (k ∈ l.*1 ∧ true = true)) as [[Hin _]|Hno1].
      * rewrite decide_True; [done|]. split; [by right|done].
      * destruct (decide (k = it.1 ∧ true = true)) as [[-> _]|Hno2].
        -- rewrite decide_True; [done|]. split; [by left|done].
        -- rewrite decide_False; [done|]. intros [Hin _].
           apply elem_of_cons in Hin as [?|?]; [by apply Hno2|by apply Hno1].
    + rewrite !decide_False by (by intros [_ ?]). done.
Qed.

Lemma updateDefaultExtruder_stack s :
  _global_container_stack (updateDefaultExtruder s) = _global_container_stack s
  ∧ activeExtruderIndex (updateDefaultExtruder s) = activeExtruderIndex s.
Proof.
  unfold updateDefaultExtruder.
  destruct (_global_container_stack s) eqn:Hg; [|by rewrite Hg].
  destruct (decide _); simpl; by rewrite Hg.
Qed.

(** What [updateNumberExtrudersEnabled] changes of the machine: the entry
    "extruders_enabled_count" of the definition changes. *)
Lemma updateNumberExtrudersEnabled_stack s s' g :
  _global_container_stack s = Some g ->
  updateNumberExtrudersEnabled s = Ok s' ->
  activeExtruderIndex s' = activeExtruderIndex s
  ∧ ∃ g', _global_container_stack s' = Some g'
      ∧ gs_id g' = gs_id g
      ∧ gs_userChanges g' = gs_userChanges g
      ∧ gs_definition g' = gs_definition g
      ∧ gs_extruders g' = gs_extruders g
      ∧ ∀ k, k ≠ "extruders_enabled_count" ->
             c_values (gs_definitionChanges g') !! k
             = c_values (gs_definitionChanges g) !! k.
Proof.
  intros Hg. unfold updateNumberExtrudersEnabled. rewrite Hg.
  destruct (for_each _ _ _) as [n|]; simpl; [|done].
  destruct (decide _); intros [= <-].
  - split; [done|]. eexists. split; [done|]. simpl. repeat split; try done.
    intros k Hk. by rewrite lookup_insert_ne.
  - split; [done|]. exists g. by rewrite Hg.
Qed.

Lemma correctExtruderSettings_stack s s' g :
  _global_container_stack s = Some g ->
  correctExtruderSettings s = Ok s' ->
  activeExtruderIndex s' = activeExtruderIndex s
  ∧ ∃ g', _global_container_stack s' = Some g'
      ∧ gs_id g' = gs_id g
      ∧ gs_definition g' = gs_definition g
      ∧ gs_definitionChanges g' = gs_definitionChanges g.
Proof.
  intros Hg. unfold correctExtruderSettings. rewrite Hg.
  destruct (getIncompatibleSettingsOnEnabledExtruders _ s); simpl; [|done].
  destruct (getIncompatibleSettingsOnEnabledExtruders _ _) as [add|]; simpl; [|done].
  intros [= <-]. destruct (bool_decide (add ≠ [])); simpl; eauto 10.
Qed.

Lemma _onGlobalContainerChanged_stack s s' g :
  _global_container_stack s = Some g ->
  _onGlobalContainerChanged s = Ok s' ->
  activeExtruderIndex s' = activeExtruderIndex s
  ∧ ∃ g', _global_container_stack s' = Some g'
      ∧ gs_id g' = gs_id g
      ∧ gs_userChanges g' = gs_userChanges g
      ∧ gs_definition g' = gs_definition g
      ∧ ∀ k, k ≠ "extruders_enabled_count" ->
             c_values (gs_definitionChanges g') !! k
             = c_values (gs_definitionChanges g) !! k.
Proof.
  intros Hg. unfold _onGlobalContainerChanged. rewrite Hg.
  destruct (updateNumberExtrudersEnabled _) as [s1|] eqn:Hs1; simpl; [|done].
  destruct (updateDefaultExtruder_stack s) as [Hgd Had].
  apply (updateNumberExtrudersEnabled_stack _ _ g) in Hs1
    as (A1 & g1 & Hg1 & I1 & U1 & D1 & _ & C1); [|by rewrite Hgd].
  intros [= <-]. cbn [emit _global_container_stack activeExtruderIndex].
  rewrite Hg1. cbn [emit with_global_stack set_global_container_stack
                      _global_container_stack activeExtruderIndex].
  split; [congruence|]. eexists. split; [done|].
  set (g2 := if _ && _ then _ else g1).
  assert (gs_id g2 = gs_id g1 ∧ gs_userChanges g2 = gs_userChanges g1
          ∧ gs_definition g2 = gs_definition g1
          ∧ gs_definitionChanges g2 = gs_definitionChanges g1) as (I2 & U2 & D2 & C2)
    by (subst g2; by destruct (_ && _)).
  set (g3 := if negb _ then _ else g2).
  assert (gs_id g3 = gs_id g2 ∧ gs_userChanges g3 = gs_userChanges g2
          ∧ gs_definition g3 = gs_definition g2
          ∧ gs_definitionChanges g3 = gs_definitionChanges g2) as (I3 & U3 & D3 & C3)
    by (subst g3;
        by destruct (negb (container_eqb (gs_material g2) empty_material_container))).
  split; [congruence|]. split; [congruence|]. split; [congruence|].
  intros k Hk. rewrite C3, C2. by apply C1.
Qed.

(** A change of the extruder count that goes through: the definition
    changes of the machine hold the new count, the first extruder is the
    active one, and no setting that is settable per extruder is left in the
    user changes of the global stack. *)
Theorem setActiveMachineExtruderCount_changed extruder_count s g s' :
  _global_container_stack s = Some g ->
  c_id (gs_definitionChanges g) ≠ c_id empty_definition_changes_container ->
  getProperty_value g "machine_extruder_count" ≠ Some (IntValue extruder_count) ->
  setActiveMachineExtruderCount extruder_count s = Ok s' ->
  activeExtruderIndex s' = 0
  ∧ ∃ g', _global_container_stack s' = Some g'
      ∧ gs_id g' = gs_id g
      ∧ c_values (gs_definitionChanges g') !! "machine_extruder_count"
        = Some (IntValue extruder_count)
      ∧ ∀ setting_key,
          getProperty_settable_per_extruder g' setting_key = true ->
          c_values (gs_userChanges g') !! setting_key = None.
Proof.
  intros Hg Hchanges Hcount. unfold setActiveMachineExtruderCount. rewrite Hg.
  unfold container_eqb. rewrite bool_decide_eq_false_2 by done.
  rewrite bool_decide_eq_false_2 by done.
  set (g0 := set_gs_definitionChanges _ g).
  destruct (updateNumberExtrudersEnabled _) as [s1|] eqn:Hs1; simpl; [|done].
  destruct (updateDefaultExtruder_stack (with_global_stack g0 s)) as [Hgd _].
  apply (updateNumberExtrudersEnabled_stack _ _ g0) in Hs1
    as (_ & g1 & Hg1 & I1 & _ & D1 & _ & C1); [|by rewrite Hgd].
  destruct (correctExtruderSettings s1) as [s2|] eqn:Hs2; simpl; [|done].
  apply (correctExtruderSettings_stack _ _ g1 Hg1) in Hs2
    as (_ & g2 & Hg2 & I2 & D2 & C2).
  unfold the_global_stack. rewrite Hg2. simpl.
  destruct (mapM _ _) as [nodes|]; simpl; [|done].
  destruct (for_each migrate_setting _ g2) as [g3|] eqn:Hg3; simpl; [|done].
  apply migrate_settings in Hg3 as (I3 & D3 & C3 & U3).
  destruct (_onGlobalContainerChanged _) as [s4|] eqn:Hs4; simpl; [|done].
  apply (_onGlobalContainerChanged_stack _ _ g3) in Hs4
    as (A4 & g4 & Hg4 & I4 & U4 & D4 & C4); [|done].
  intros [= <-].
  assert (preserves s4 (forceUpdateAllSettings s4)) as (A5 & _) by
    apply forceUpdateAllSettings_preserves.
  assert (_global_container_stack (forceUpdateAllSettings s4) = Some g4
          ∧ activeExtruderIndex (forceUpdateAllSettings s4) = activeExtruderIndex s4)
    as [Hg5 Ha5].
  { unfold forceUpdateAllSettings. rewrite Hg4.
    generalize (gs_id g4 :: (es_id <$> (snd <$> map_to_list (gs_extruders g4)))).
    intros l. clear A5. revert Hg4. generalize s4.
    induction l as [|id l IH]; intros x Hx; [done|].
    simpl. destruct (IH (emit (propertiesChanged id) x) Hx) as [-> ->]. done. }
  split; [by rewrite Ha5, A4|].
  exists g4. split; [done|]. split; [by rewrite I4, I3, I2, I1|]. split.
  - rewrite C4 by done. rewrite C3, C2, C1 by done. subst g0. simpl.
    by rewrite lookup_insert_eq.
  - intros k Hk. rewrite U4, U3.
    assert (getProperty_settable_per_extruder g2 k = true) as Hk2.
    { unfold getProperty_settable_per_extruder in *. by rewrite <- D3, <- D4. }
    destruct (decide (k ∈ _ ∧ _)) as [_|Hno]; [done|].
    destruct (c_values (gs_userChanges g2) !! k) as [v|] eqn:Hv; [|done].
    destruct Hno. split; [|done].
    apply list_elem_of_fmap. exists (k, v). split; [done|].
    by apply elem_of_map_to_list.
Qed.
End Settings.

Lemma setSettingForAllExtruders_sets_witness :
  extruder_userChanges (setSettingForAllExtruders "infill_density" (StrValue "20") Demo.s0)
  = <["infill_density" := StrValue "20"]> <$> extruder_userChanges Demo.s0
  ∧ @hasUserSettings Demo.usual
      (setSettingForAllExtruders "infill_density" (StrValue "20") Demo.s0)
    = true.
Proof.
  destruct (@setSettingForAllExtruders_sets Demo.usual "infill_density" (StrValue "20")
              Demo.s0 Demo.um3 eq_refl) as (Hvalues & g' & Hg' & Hhas).
  split; [exact Hvalues|].
  apply Hhas. vm_compute in Hg'. injection Hg' as <-. vm_compute. discriminate.
Defined.

Lemma activeQualityOrQualityChangesName_custom_witness :
  activeQualityOrQualityChangesName (@_setQualityChangesGroup Demo.usual Demo.custom Demo.s0)
  = "my profile".
Proof.
  apply (@activeQualityOrQualityChangesName_custom Demo.usual Demo.custom Demo.s0).
  vm_compute. eauto.
Defined.

Lemma setActiveMachineExtruderCount_changed_witness :
  activeExtruderIndex
    (Demo.after (setActiveMachineExtruderCount 1 Demo.old_project) Demo.old_project) = 0.
Proof.
  apply (setActiveMachineExtruderCount_changed 1 Demo.old_project
           (mkGlobalStack "um3" (Demo.plain_meta None)
              (mkContainer "um3_user" "um3_user" None None false None
                 {[ "infill_density" := IntValue 20 ]})
              empty_quality_changes_container (Demo.quality "um3_global_normal" "normal")
              empty_material_container empty_variant_container
              (mkContainer "um3_settings" "settings" None None false None
                 {[ "machine_extruder_count" := IntValue 2;
                    "extruders_enabled_count" := IntValue 2 ]})
              Demo.ultimaker3_per_extruder Demo.two_extruders)).
  - reflexivity.
  - vm_compute. discriminate.
  - vm_compute. discriminate.
  - vm_compute. reflexivity.
Defined.

(** ** The synchronisation in general, other machines, all materials, the scene *)

Section Wider.
Context `{Collaborators}.

(** *** Synchronising with a printer, in general *)

(** After [applyRemoteConfiguration] a reported extruder is enabled exactly
    when it is not among the extruders to disable; an extruder that is not
    reported is as [switchPrinterType] left it; the names of the extruders,
    the active machine and the registry are as [switchPrinterType] left them;
    and the notice about disabled extruders is shown exactly when a reported
    extruder has been disabled, with the names of those extruders by ascending
    position. *)
Theorem applyRemoteConfiguration_reported configuration s s1 g extruders_to_disable s' :
  is_Some (_global_container_stack s) ->
  switchPrinterType (printerType configuration) (emit blurSettings s) = Ok s1 ->
  _global_container_stack s1 = Some g ->
  spare_first (extruders_lacking configuration) g = Ok extruders_to_disable ->
  applyRemoteConfiguration configuration s = Ok s' ->
  let disabled : gset Z :=
    list_to_set (filter (.∈ extruders_to_disable) (reported_positions configuration)) in
  active_id s' = active_id s1
  ∧ registry s' = registry s1
  ∧ (∀ k, fst <$> extruder_flags s' !! k = fst <$> flags_of g !! k)
  ∧ (∀ ec, ec ∈ extruderConfigurations configuration ->
       snd <$> extruder_flags s' !! str (ec_position ec)
       = Some (bool_decide (ec_position ec ∉ extruders_to_disable)))
  ∧ (∀ k, (∀ ec, ec ∈ extruderConfigurations configuration ->
               k ≠ str (ec_position ec)) ->
       extruder_flags s' !! k = flags_of g !! k)
  ∧ ∃ tail,
      (tail = [] ∨ tail = [DiscardOrKeepProfileChanges])
      ∧ ui s' = ui s1
                ++ (if decide (disabled = ∅) then []
                    else [ExtrudersDisabledMessage
                            (extruder_names g (merge_sort Z.le (elements disabled)))])
                ++ tail.
Proof.
  intros [g0 Hg0] Hswitch Hg Hspare.
  unfold applyRemoteConfiguration. rewrite Hg0, Hswitch. simpl.
  intros (g' & Hg' & Hrun)%the_global_stack_Ok.
  assert (g' = g) as -> by congruence. clear Hg'.
  revert Hrun. rewrite Hspare. simpl.
  destruct (for_each _ _ _) as [[s2 dset]|] eqn:Hloop; simpl; [|done].
  apply apply_extruder_configurations_flags in Hloop
    as (Ha2 & Hr2 & Hu2 & Hd2 & Hfst2 & Hsnd2 & Hother2).
  rewrite (left_id_L ∅ (∪)) in Hd2. fold (reported_positions configuration) in Hd2.
  subst dset.
  set (disabled := list_to_set _ : gset Z).
  destruct (updateNumberExtrudersEnabled _) as [s3|] eqn:Hs3; simpl; [|done].
  apply updateNumberExtrudersEnabled_preserves in Hs3.
  pose proof (preserves_trans _ _ _ (updateDefaultExtruder_preserves s2) Hs3) as H23.
  intros (g3 & Hg3 & Hrun)%the_global_stack_Ok. revert Hrun.
  set (s4 := match buildplateConfiguration configuration with
             | Some b => _ | None => _ end).
  assert (preserves s3 s4) as H34.
  { subst s4.
    destruct (buildplateConfiguration configuration) as [b|];
      [destruct (getBuildplateVariantNode _ _)|];
      try apply _setGlobalVariant_preserves;
      by apply (preserves_with_global_stack g3). }
  destruct (_updateQualityWithMaterial s4) as [s5|] eqn:Hs5; simpl; [|done].
  apply _updateQualityWithMaterial_preserves in Hs5.
  destruct (preserves_trans _ _ _ (preserves_trans _ _ _ H23 H34) Hs5)
    as (Ha5 & Hf5 & Hr5 & Hu5).
  assert (extruder_flags s1 = flags_of g) as Hflags1
    by (unfold extruder_flags; by rewrite Hg).
  set (notice := if decide (disabled ≠ ∅) then _ else _).
  assert (∀ s6, notice = Ok s6 ->
            active_id s6 = active_id s5 ∧ extruder_flags s6 = extruder_flags s5
            ∧ registry s6 = registry s5
            ∧ ui s6 = ui s1
                      ++ (if decide (disabled = ∅) then []
                          else [ExtrudersDisabledMessage
                                  (extruder_names g
                                     (merge_sort Z.le (elements disabled)))]))
    as Hnotice.
  { subst notice. intros s6. destruct (decide (disabled ≠ ∅)) as [Hne|He].
    - unfold the_global_stack.
      destruct (_global_container_stack s5) as [g5|] eqn:Hg5; simpl; [|done].
      destruct (disabled_extruder_names _ _) as [names|] eqn:Hnames; simpl; [|done].
      apply disabled_extruder_names_spec in Hnames.
      intros [= <-]. split; [done|]. split; [done|]. split; [done|].
      rewrite decide_False by done. simpl. rewrite Hu5, Hu2. f_equal. f_equal. f_equal.
      subst names. unfold extruder_names. apply list_fmap_ext. intros _ z _.
      assert (flags_of g5 = extruder_flags s2) as ->.
      { rewrite <- Hf5. unfold extruder_flags. by rewrite Hg5. }
      by rewrite Hfst2, Hflags1.
    - intros [= <-]. apply dec_stable in He.
      rewrite decide_True by done. rewrite app_nil_r.
      split; [done|]. split; [done|]. split; [done|]. congruence. }
  destruct notice as [s6|]; simpl; [|done].
  destruct (Hnotice s6 eq_refl) as (Ha6 & Hf6 & Hr6 & Hu6).
  intros [= <-].
  destruct (maybe_discardOrKeepProfileChanges_keeps s6) as (-> & -> & ->).
  destruct (maybe_discardOrKeepProfileChanges_spec s6) as (_ & _ & tail & Htail & ->).
  rewrite Ha6, Hf6, Hr6, Ha5, Hf5, Hr5. rewrite <- Hflags1.
  split; [done|]. split; [done|]. split; [done|]. split; [done|]. split; [done|].
  exists tail. split; [done|]. by rewrite Hu6, <- app_assoc.
Qed.

(** *** Setters called for another machine *)

Lemma store_stack_other m s :
  active_id s ≠ Some (gs_id m) ->
  same_manager s (store_stack m s)
  ∧ registry_ids (registry (store_stack m s)) = registry_ids (registry s).
Proof.
  intros Hother. split; [|apply store_stack_registry_ids].
  unfold store_stack. set (s1 := set_registry _ s).
  destruct (_global_container_stack s1) as [g|] eqn:Hg1; [|done].
  rewrite decide_False; [done|].
  intros E. apply Hother. unfold active_id.
  change (_global_container_stack s1) with (_global_container_stack s) in Hg1.
  rewrite Hg1. simpl. by rewrite E.
Qed.

(** "This is not changing the quality for the active machine": what
    [setQualityGroup] and [setMaterial] do for the stack of another machine
    leaves the active machine, the current groups, the cache of root
    materials, the notifications and the notices as they are, and adds no
    container to the registry and deletes none. *)
Theorem setters_for_another_machine quality_group no_dialog position container_node
    other s s' :
  is_other_stack (Some other) s = Some other ->
  setQualityGroup quality_group no_dialog (Some other) s = Ok s'
  ∨ setMaterial position container_node (Some other) s = Ok s' ->
  same_manager s s'
  ∧ registry_ids (registry s') = registry_ids (registry s).
Proof.
  intros Hother.
  assert (active_id s ≠ Some (gs_id other)) as Hid.
  { unfold is_other_stack in Hother. fold (active_id s) in Hother.
    case_bool_decide; [done|]. done. }
  unfold setQualityGroup, setMaterial. rewrite Hother.
  intros [Hq|Hm].
  - unfold setQualityGroup_other in Hq.
    destruct quality_group as [qg|]; [|by injection Hq as <-].
    destruct (qg_node_for_global qg) as [node|]; [|by injection Hq as <-].
    destruct (resolved node) as [c|]; simpl in Hq; [|done].
    injection Hq as <-. by apply store_stack_other.
  - destruct container_node as [n|]; simpl in Hm; [|done].
    destruct (getitem _ _) as [extruder|]; simpl in Hm; [|done].
    destruct (resolved n) as [c|]; simpl in Hm; [|done].
    injection Hm as <-. by apply store_stack_other.
Qed.

(** *** Updating the materials of all extruders *)

Lemma updateMaterialWithVariant_item_variant buildplate position s s' g :
  _global_container_stack s = Some g ->
  updateMaterialWithVariant_item buildplate position s = Ok s' ->
  ∃ g', _global_container_stack s' = Some g' ∧ gs_variant g' = gs_variant g.
Proof.
  intros Hg. unfold updateMaterialWithVariant_item. rewrite Hg.
  unfold getitem. destruct (gs_extruders g !! position) as [e|]; simpl; [|done].
  assert (∀ node, _setMaterial position node s = Ok s' ->
            ∃ g', _global_container_stack s' = Some g' ∧ gs_variant g' = gs_variant g)
    as Hset.
  { intros node. unfold _setMaterial. rewrite Hg.
    unfold getitem. destruct (gs_extruders g !! position) as [e'|]; simpl; [|done].
    destruct (match node ≫= _ with Some (n, c) => _ | None => _ end) as [material root].
    destruct (_ !! position) as [cached|]; simpl; [|done].
    destruct (decide _); intros [= <-]; simpl; eauto. }
  destruct (decide _); [apply Hset|].
  destruct (_ ≫= _) as [new_material|]; [apply Hset|].
  destruct (default_material _ _ _); [apply Hset|].
  intros [= <-]. eauto.
Qed.

(** [updateMaterialWithVariant(None)] does what
    [updateMaterialWithVariant(position)] does, for each position of the
    machine in turn. *)
Theorem updateMaterialWithVariant_all s g :
  _global_container_stack s = Some g ->
  updateMaterialWithVariant None s
  = for_each (fun position => updateMaterialWithVariant (Some position))
      (fst <$> map_to_list (gs_extruders g)) s.
Proof.
  intros Hg. unfold updateMaterialWithVariant at 1. rewrite Hg.
  generalize (fst <$> map_to_list (gs_extruders g)). intros l.
  assert (∀ g0, gs_variant g0 = gs_variant g ->
            buildplate_name g0 = buildplate_name g) as Hname.
  { intros g0 E. unfold buildplate_name. by rewrite E. }
  assert (∀ s0 g0, _global_container_stack s0 = Some g0 ->
            gs_variant g0 = gs_variant g ->
            for_each (updateMaterialWithVariant_item (buildplate_name g)) l s0
            = for_each (fun position => updateMaterialWithVariant (Some position)) l s0)
    as Hloop; [|by apply (Hloop s g)].
  induction l as [|p l IH]; intros s0 g0 Hg0 Hv; [done|].
  rewrite !for_each_cons.
  assert (updateMaterialWithVariant (Some p) s0
          = updateMaterialWithVariant_item (buildplate_name g) p s0) as ->.
  { unfold updateMaterialWithVariant. rewrite Hg0, (Hname g0 Hv).
    change (for_each ?f [p] s0) with (f p s0 ≫= Ok).
    by destruct (updateMaterialWithVariant_item _ p s0). }
  destruct (updateMaterialWithVariant_item _ p s0) as [s1|] eqn:Hs1; [|done].
  destruct (updateMaterialWithVariant_item_variant _ _ _ _ _ Hg0 Hs1) as (g1 & Hg1 & Hv1).
  apply (IH s1 g1 Hg1). congruence.
Qed.

(** *** A new extruder count and the scene *)

Lemma reassign_nodes extruder_count g nodes :
  is_Some (gs_extruders g !! str (extruder_count - 1)) ->
  ∀ nodes', mapM (reassign_node extruder_count g) nodes = Ok nodes' ->
  scene_within (extruder_count - 1) nodes'.
Proof.
  intros [e He]. induction nodes as [|node nodes IH]; intros nodes'.
  - intros Hm. cbv in Hm. injection Hm as <-. constructor.
  - rewrite mapM_result_cons.
    destruct (reassign_node extruder_count g node) as [node'|] eqn:Hnode; simpl; [|done].
    destruct (mapM _ nodes) as [rest|]; simpl; [|done].
    intros [= <-]. constructor; [|by apply IH].
    intros nr ->. unfold reassign_node in Hnode.
    destruct node as [nr0|]; [|done].
    destruct (int nr0) as [n|] eqn:Hn; simpl in Hnode; [|done].
    case_bool_decide as Habove.
    + rewrite He in Hnode. injection Hnode as <-.
      exists (extruder_count - 1). split; [apply int_str|lia].
    + injection Hnode as <-. exists n. split; [done|lia].
Qed.

Lemma forceUpdateAllSettings_scene s : scene (forceUpdateAllSettings s) = scene s.
Proof.
  unfold forceUpdateAllSettings. destruct (_global_container_stack s) as [g|]; [|done].
  generalize (gs_id g :: (es_id <$> (snd <$> map_to_list (gs_extruders g)))).
  intros l. revert s. induction l as [|id l IH]; intros s; [done|].
  simpl. by rewrite IH.
Qed.

Lemma updateNumberExtrudersEnabled_scene s s' :
  updateNumberExtrudersEnabled s = Ok s' -> scene s' = scene s.
Proof.
  unfold updateNumberExtrudersEnabled.
  destruct (_global_container_stack s) as [g|]; [|by intros [= <-]].
  destruct (for_each _ _ _) as [n|]; simpl; [|done].
  by destruct (decide _); intros [= <-].
Qed.

Lemma updateDefaultExtruder_scene s : scene (updateDefaultExtruder s) = scene s.
Proof.
  unfold updateDefaultExtruder. destruct (_global_container_stack s); [|done].
  by destruct (decide _).
Qed.

Lemma _onGlobalContainerChanged_scene s s' :
  _onGlobalContainerChanged s = Ok s' -> scene s' = scene s.
Proof.
  unfold _onGlobalContainerChanged.
  destruct (match _global_container_stack s with
            | Some _ => _ | None => _ end) as [s1|] eqn:Hs1; simpl; [|done].
  assert (scene s1 = scene s) as <-.
  { destruct (_global_container_stack s); [|by injection Hs1 as <-].
    apply updateNumberExtrudersEnabled_scene in Hs1.
    by rewrite Hs1, updateDefaultExtruder_scene. }
  intros [= <-]. cbn [emit scene _global_container_stack].
  by destruct (_global_container_stack s1).
Qed.

Lemma correctExtruderSettings_extruders s s' g :
  _global_container_stack s = Some g ->
  correctExtruderSettings s = Ok s' ->
  ∃ g', _global_container_stack s' = Some g' ∧ gs_extruders g' = gs_extruders g.
Proof.
  intros Hg. unfold correctExtruderSettings. rewrite Hg.
  destruct (getIncompatibleSettingsOnEnabledExtruders _ s); simpl; [|done].
  destruct (getIncompatibleSettingsOnEnabledExtruders _ _) as [add|]; simpl; [|done].
  intros [= <-]. destruct (bool_decide (add ≠ [])); simpl; eauto.
Qed.

(** "Check to see if any objects are set to print with an extruder that
    will no longer exist": when the extruder count changes to a count whose
    last extruder exists and the call completes, no mesh of the scene prints
    with an extruder above the last one. *)
Theorem setActiveMachineExtruderCount_scene extruder_count s g s' :
  _global_container_stack s = Some g ->
  c_id (gs_definitionChanges g) ≠ c_id empty_definition_changes_container ->
  getProperty_value g "machine_extruder_count" ≠ Some (IntValue extruder_count) ->
  is_Some (gs_extruders g !! str (extruder_count - 1)) ->
  setActiveMachineExtruderCount extruder_count s = Ok s' ->
  scene_within (extruder_count - 1) (scene s').
Proof.
  intros Hg Hchanges Hcount Hlast. unfold setActiveMachineExtruderCount. rewrite Hg.
  unfold container_eqb. rewrite bool_decide_eq_false_2 by done.
  rewrite bool_decide_eq_false_2 by done.
  set (g0 := set_gs_definitionChanges _ g).
  destruct (updateNumberExtrudersEnabled _) as [s1|] eqn:Hs1; simpl; [|done].
  destruct (updateDefaultExtruder_stack (with_global_stack g0 s)) as [Hgd _].
  apply (updateNumberExtrudersEnabled_stack _ _ g0) in Hs1
    as (_ & g1 & Hg1 & _ & _ & _ & E1 & _); [|by rewrite Hgd].
  destruct (correctExtruderSettings s1) as [s2|] eqn:Hs2; simpl; [|done].
  apply (correctExtruderSettings_extruders _ _ g1 Hg1) in Hs2 as (g2 & Hg2 & E2).
  unfold the_global_stack. rewrite Hg2. simpl.
  destruct (mapM _ _) as [nodes|] eqn:Hnodes; simpl; [|done].
  apply reassign_nodes in Hnodes; [|by rewrite E2, E1].
  destruct (for_each migrate_setting _ g2) as [g3|]; simpl; [|done].
  destruct (_onGlobalContainerChanged _) as [s4|] eqn:Hs4; simpl; [|done].
  apply _onGlobalContainerChanged_scene in Hs4.
  intros [= <-]. by rewrite forceUpdateAllSettings_scene, Hs4.
Qed.
End Wider.

Lemma applyRemoteConfiguration_reported_witness :
  active_id
    (Demo.after (@applyRemoteConfiguration Demo.usual Demo.half_loaded Demo.s0) Demo.s0)
  = active_id (emit blurSettings Demo.s0).
Proof.
  apply (@applyRemoteConfiguration_reported Demo.usual Demo.half_loaded Demo.s0
           (emit blurSettings Demo.s0) Demo.um3 {[ 0 ]}).
  - vm_compute. eauto.
  - vm_compute. reflexivity.
  - reflexivity.
  - vm_compute. reflexivity.
  - vm_compute. reflexivity.
Defined.

Lemma setters_for_another_machine_witness :
  same_manager Demo.with_office
    (Demo.after (@setQualityGroup Demo.usual (Some Demo.draft) false (Some Demo.office) Demo.with_office)
       Demo.with_office).
Proof.
  destruct (@setters_for_another_machine Demo.usual (Some Demo.draft) false "0" None Demo.office
              Demo.with_office
              (Demo.after
                 (@setQualityGroup Demo.usual (Some Demo.draft) false (Some Demo.office) Demo.with_office)
                 Demo.with_office)) as [Hsame _].
  - vm_compute. reflexivity.
  - left. vm_compute. reflexivity.
  - exact Hsame.
Defined.

Lemma updateMaterialWithVariant_all_witness :
  @updateMaterialWithVariant Demo.usual None Demo.s0
  = for_each (fun position => @updateMaterialWithVariant Demo.usual (Some position))
      (fst <$> map_to_list (gs_extruders Demo.um3)) Demo.s0.
Proof. apply (@updateMaterialWithVariant_all Demo.usual Demo.s0 Demo.um3). reflexivity. Defined.

Lemma setActiveMachineExtruderCount_scene_witness :
  scene_within 0
    (scene (Demo.after (setActiveMachineExtruderCount 1 Demo.with_scene) Demo.with_scene)).
Proof.
  apply (setActiveMachineExtruderCount_scene 1 Demo.with_scene Demo.um3).
  - reflexivity.
  - vm_compute. discriminate.
  - vm_compute. discriminate.
  - vm_compute. eauto.
  - vm_compute. reflexivity.
Defined.
